(** * Analytics and auto-learning core of AURELIUS: a shallow embedding

    The development follows [src/analytics.py] and [src/auto_learning.py].
    Python values are modelled as follows.
    - [int] is [Z] (or [nat] for counters that only grow from 0);
    - [float] results of [/], [*], [+] and [-] are exact rationals [Q]:
      rounding is not modelled;
    - [str] is [string]; [x in s] on strings is [contains];
    - a [dict] or [Counter] whose iteration order is observable is an
      association list in insertion order; the key/value store behind
      [db] is a [gmap] from keys to typed values;
    - an exception is a value of [exn] carried by the [result] monad, and
      a [try ... except Exception] block is a [match] on the result. *)

From Stdlib Require Import Ascii String.
From stdpp Require Import base strings gmap pretty.
From Stdlib Require Import ZArith QArith List Bool Lia Permutation Sorted.
Import ListNotations.

Local Open Scope string_scope.
Local Open Scope Z_scope.

(** ** Exceptions and the result monad *)

Inductive exn : Type :=
  | ValueError
  | TypeError
  | AttributeError
  | KeyError
  | IndexError
  | OverflowError
  | ZeroDivisionError.

Inductive result (A : Type) : Type :=
  | Ok (a : A)
  | Raise (e : exn).

Arguments Ok {A} a.
Arguments Raise {A} e.

#[global] Instance result_ret : MRet result := fun A a => Ok a.

#[global] Instance result_bind : MBind result := fun A B k m =>
  match m with
  | Ok a => k a
  | Raise e => Raise e
  end.

Definition is_ok {A : Type} (m : result A) : bool :=
  match m with Ok _ => true | Raise _ => false end.

(** ** Strings: the [in] operator *)

Fixpoint contains (needle hay : string) : bool :=
  String.prefix needle hay ||
  match hay with
  | EmptyString => false
  | String _ rest => contains needle rest
  end.

(** ** [datetime]

    The fields of a naive [datetime]; the constructor checks the ranges
    as Python's does and raises [ValueError] outside them. *)

Module Datetime.

Record datetime : Type := mk {
  year : Z; month : Z; day : Z;
  hour : Z; minute : Z; second : Z; microsecond : Z
}.

Definition MINYEAR : Z := 1.
Definition MAXYEAR : Z := 9999.
Definition MAXORDINAL : Z := 3652059.

Definition is_leap (y : Z) : bool :=
  (y mod 4 =? 0) && (negb (y mod 100 =? 0) || (y mod 400 =? 0)).

Definition days_in_month (y m : Z) : Z :=
  if m =? 2 then (if is_leap y then 29 else 28)
  else if (m =? 4) || (m =? 6) || (m =? 9) || (m =? 11) then 30
  else 31.

Definition days_before_year (y : Z) : Z :=
  let y' := y - 1 in y' * 365 + y' / 4 - y' / 100 + y' / 400.

Definition days_before_month (y m : Z) : Z :=
  (if m =? 1 then 0 else if m =? 2 then 31 else if m =? 3 then 59
   else if m =? 4 then 90 else if m =? 5 then 120 else if m =? 6 then 151
   else if m =? 7 then 181 else if m =? 8 then 212 else if m =? 9 then 243
   else if m =? 10 then 273 else if m =? 11 then 304 else 334)
  + (if (2 <? m) && is_leap y then 1 else 0).

Definition ymd2ord (y m d : Z) : Z :=
  days_before_year y + days_before_month y m + d.

Definition toordinal (t : datetime) : Z := ymd2ord (year t) (month t) (day t).

(** [weekday()]: Monday is 0. *)
Definition weekday (t : datetime) : Z := (toordinal t + 6) mod 7.

(** The month and day of day number [n] (from 0) of year [y], found by
    running through the months from [m] on. The library estimates the
    month and corrects the estimate; the result is the same. *)
Fixpoint month_of (fuel : nat) (y m n : Z) : Z * Z :=
  match fuel with
  | O => (m, n + 1)
  | S fuel' =>
      if n <? days_in_month y m then (m, n + 1)
      else month_of fuel' y (m + 1) (n - days_in_month y m)
  end.

Definition ord2ymd (n : Z) : Z * Z * Z :=
  let n := n - 1 in
  let n400 := n / 146097 in
  let n := n mod 146097 in
  let n100 := n / 36524 in
  let n := n mod 36524 in
  let n4 := n / 1461 in
  let n := n mod 1461 in
  let n1 := n / 365 in
  let n := n mod 365 in
  let y := n400 * 400 + 1 + n100 * 100 + n4 * 4 + n1 in
  if (n1 =? 4) || (n100 =? 4) then (y - 1, 12, 31)
  else let '(m, d) := month_of 11 y 1 n in (y, m, d).

Definition valid (t : datetime) : Prop :=
  MINYEAR <= year t <= MAXYEAR /\ 1 <= month t <= 12 /\
  1 <= day t <= days_in_month (year t) (month t) /\
  0 <= hour t < 24 /\ 0 <= minute t < 60 /\ 0 <= second t < 60 /\
  0 <= microsecond t < 1000000.

Definition validb (t : datetime) : bool :=
  (MINYEAR <=? year t) && (year t <=? MAXYEAR) &&
  (1 <=? month t) && (month t <=? 12) &&
  (1 <=? day t) && (day t <=? days_in_month (year t) (month t)) &&
  (0 <=? hour t) && (hour t <? 24) && (0 <=? minute t) && (minute t <? 60) &&
  (0 <=? second t) && (second t <? 60) &&
  (0 <=? microsecond t) && (microsecond t <? 1000000).

(** [datetime(y, m, d, h, mi, s, us)], which is what [replace] ends in. *)
Definition make (y m d h mi s us : Z) : result datetime :=
  let t := mk y m d h mi s us in
  if validb t then Ok t else Raise ValueError.

(** [t.replace(hour=0, minute=0, second=0, microsecond=0)] *)
Definition replace_midnight (t : datetime) : result datetime :=
  make (year t) (month t) (day t) 0 0 0 0.

(** [t.replace(day=1, hour=0, minute=0, second=0, microsecond=0)] *)
Definition replace_first_midnight (t : datetime) : result datetime :=
  make (year t) (month t) 1 0 0 0 0.

(** [t.replace(year=y, month=m)] *)
Definition replace_year_month (t : datetime) (y m : Z) : result datetime :=
  make y m (day t) (hour t) (minute t) (second t) (microsecond t).

(** [t.replace(month=m)] *)
Definition replace_month (t : datetime) (m : Z) : result datetime :=
  make (year t) m (day t) (hour t) (minute t) (second t) (microsecond t).

(** [t + timedelta(days=n)]: the time of day is kept, the date moves by
    [n] days and [OverflowError] is raised outside 0001-01-01..9999-12-31. *)
Definition add_days (t : datetime) (n : Z) : result datetime :=
  let o := toordinal t + n in
  if (0 <? o) && (o <=? MAXORDINAL) then
    let '(y, m, d) := ord2ymd o in
    Ok (mk y m d (hour t) (minute t) (second t) (microsecond t))
  else Raise OverflowError.

End Datetime.

(** [s.replace("Z", "+00:00")] *)
Fixpoint replace_Z (s : string) : string :=
  match s with
  | EmptyString => EmptyString
  | String c rest =>
      if Ascii.eqb c "Z"%char then "+00:00" +:+ replace_Z rest
      else String c (replace_Z rest)
  end.

(** [s[:n]] on a string *)
Definition str_take (n : nat) (s : string) : string := String.substring 0 n s.

(** [sep.join(parts)] *)
Fixpoint join (sep : string) (parts : list string) : string :=
  match parts with
  | [] => ""
  | [p] => p
  | p :: rest => p +:+ sep +:+ join sep rest
  end.

(** [s.split(sep)] for a non-empty [sep]: the pieces between the
    occurrences of [sep], scanned from the left. [cur] holds the
    characters of the current piece, last one first. *)
Fixpoint drop_chars (n : nat) (s : string) : string :=
  match n, s with
  | O, _ => s
  | S n', String _ rest => drop_chars n' rest
  | S _, EmptyString => EmptyString
  end.

Fixpoint rev_string (acc s : string) : string :=
  match s with
  | EmptyString => acc
  | String c rest => rev_string (String c acc) rest
  end.

Fixpoint split_aux (fuel : nat) (sep cur s : string) : list string :=
  match fuel with
  | O => [rev_string "" cur +:+ s]
  | S fuel' =>
      match s with
      | EmptyString => [rev_string "" cur]
      | String c rest =>
          if String.prefix sep s
          then rev_string "" cur ::
               split_aux fuel' sep "" (drop_chars (String.length sep) s)
          else split_aux fuel' sep (String c cur) rest
      end
  end.

Definition split (sep s : string) : list string :=
  split_aux (S (String.length s)) sep "" s.

(** ** Counters and ordered dictionaries

    A [Counter] or [defaultdict(int)] keeps its keys in insertion order,
    which [sorted] and [most_common] observe on ties. *)

Section Counter.
Context {K : Type} (eqb : K -> K -> bool).

  (** [c[k] += 1] *)
Fixpoint counter_incr (k : K) (c : list (K * nat)) : list (K * nat) :=
    match c with
    | [] => [(k, 1%nat)]
    | (k', n) :: rest =>
        if eqb k k' then (k', S n) :: rest
        else (k', n) :: counter_incr k rest
    end.

  (** [c[k]], 0 for a key that was never counted *)
Fixpoint counter_get (k : K) (c : list (K * nat)) : nat :=
    match c with
    | [] => 0%nat
    | (k', n) :: rest => if eqb k k' then n else counter_get k rest
    end.

  (** One step of a stable sort by decreasing count: [x] goes before the
      first entry that does not beat it. *)
Fixpoint insert_desc (x : K * nat) (l : list (K * nat)) : list (K * nat) :=
    match l with
    | [] => [x]
    | y :: rest =>
        if (snd x <? snd y)%nat then y :: insert_desc x rest
        else x :: y :: rest
    end.

  (** [sorted(c.items(), key=lambda x: x[1], reverse=True)]: by
      decreasing count, entries with equal counts in their original
      order. *)
Definition sort_desc (c : list (K * nat)) : list (K * nat) :=
    fold_right insert_desc [] c.

  (** [Counter.most_common(n)] *)
Definition most_common (n : nat) (c : list (K * nat)) : list (K * nat) :=
    firstn n (sort_desc c).
End Counter.

Set Warnings "-register-all,-clear-no-such-hyp".

(** ** JSON documents

    What [json.loads] returns and [json.dumps] accepts. An object keeps
    its fields in insertion order. *)

Inductive json : Type :=
  | JNull
  | JBool (b : bool)
  | JInt (n : Z)
  | JFloat (q : Q)
  | JStr (s : string)
  | JArr (items : list json)
  | JObj (fields : list (string * json)).

(** Truth value of a Python object *)
Definition truthy (j : json) : bool :=
  match j with
  | JNull => false
  | JBool b => b
  | JInt n => negb (n =? 0)
  | JFloat q => negb (Qeq_bool q 0)
  | JStr s => negb (String.eqb s "")
  | JArr items => match items with [] => false | _ => true end
  | JObj fields => match fields with [] => false | _ => true end
  end.

Fixpoint assoc_get {V : Type} (k : string) (l : list (string * V)) : option V :=
  match l with
  | [] => None
  | (k', v) :: rest => if String.eqb k k' then Some v else assoc_get k rest
  end.

(** [d[k] = v] on an ordered dictionary *)
Fixpoint assoc_set {V : Type} (k : string) (v : V) (l : list (string * V))
  : list (string * V) :=
  match l with
  | [] => [(k, v)]
  | (k', v') :: rest =>
      if String.eqb k k' then (k', v) :: rest
      else (k', v') :: assoc_set k v rest
  end.

(** [d.get(k, default)]; only a dict has [get]. *)
Definition dict_get (d : json) (k : string) (default : json) : result json :=
  match d with
  | JObj fields => Ok (match assoc_get k fields with Some v => v | None => default end)
  | _ => Raise AttributeError
  end.

(** [d.get(k)], [None] when absent *)
Definition dict_get_none (d : json) (k : string) : result json :=
  dict_get d k JNull.

(** [k in x] for a string [k]: key of a dict, element of a list,
    substring of a string; the other values are not containers. *)
Definition json_is_str (k : string) (j : json) : bool :=
  match j with JStr s => String.eqb s k | _ => false end.

Definition str_in (k : string) (x : json) : result bool :=
  match x with
  | JObj fields => Ok (match assoc_get k fields with Some _ => true | None => false end)
  | JArr items => Ok (existsb (json_is_str k) items)
  | JStr s => Ok (contains k s)
  | _ => Raise TypeError
  end.

(** [x[k]] for a string [k] *)
Definition dict_index (x : json) (k : string) : result json :=
  match x with
  | JObj fields =>
      match assoc_get k fields with Some v => Ok v | None => Raise KeyError end
  | _ => Raise TypeError
  end.

(** [x[:n]] *)
Definition slice_to (n : nat) (x : json) : result json :=
  match x with
  | JArr items => Ok (JArr (firstn n items))
  | JStr s => Ok (JStr (str_take n s))
  | _ => Raise TypeError
  end.

(** [x[0]] *)
Definition index0 (x : json) : result json :=
  match x with
  | JArr (v :: _) => Ok v
  | JStr (String c _) => Ok (JStr (String c ""))
  | JArr [] | JStr EmptyString => Raise IndexError
  | JObj _ => Raise KeyError
  | _ => Raise TypeError
  end.

(** [x + 1] *)
Definition add_one (x : json) : result json :=
  match x with
  | JInt n => Ok (JInt (n + 1))
  | JBool b => Ok (JInt ((if b then 1 else 0) + 1))
  | JFloat q => Ok (JFloat (q + 1))
  | _ => Raise TypeError
  end.

(** The characters of a string, each as a string *)
Fixpoint chars (s : string) : list string :=
  match s with
  | EmptyString => []
  | String c rest => String c "" :: chars rest
  end.

(** [sep.join(x)]: every item of the iterable must be a string. *)
Fixpoint all_strings (items : list json) : result (list string) :=
  match items with
  | [] => Ok []
  | JStr s :: rest => l ← all_strings rest; Ok (s :: l)
  | _ :: _ => Raise TypeError
  end.

Definition join_json (sep : string) (x : json) : result string :=
  match x with
  | JArr items => l ← all_strings items; Ok (join sep l)
  | JStr s => Ok (join sep (chars s))
  | JObj fields => Ok (join sep (map fst fields))
  | _ => Raise TypeError
  end.

Fixpoint map_result {A B : Type} (f : A -> result B) (l : list A)
  : result (list B) :=
  match l with
  | [] => Ok []
  | a :: rest => b ← f a; bs ← map_result f rest; Ok (b :: bs)
  end.

Definition bool_to_Q (b : bool) : Q := if b then 1%Q else 0%Q.

(** Keys of a dict: a list or a dict is not hashable; numbers are one
    key when they are equal ([1 == 1.0 == True]). *)
Definition hashable (j : json) : bool :=
  match j with JArr _ | JObj _ => false | _ => true end.

Definition key_num (j : json) : option Q :=
  match j with
  | JBool b => Some (bool_to_Q b)
  | JInt n => Some (inject_Z n)
  | JFloat q => Some q
  | _ => None
  end.

Definition key_eqb (a b : json) : bool :=
  match a, b with
  | JStr s, JStr t => String.eqb s t
  | JNull, JNull => true
  | _, _ =>
      match key_num a, key_num b with
      | Some x, Some y => Qeq_bool x y
      | _, _ => false
      end
  end.

(** [a / b] on integers *)
Definition truediv (a b : Z) : result Q :=
  if b =? 0 then Raise ZeroDivisionError
  else Ok (inject_Z a / inject_Z b)%Q.

(** ** The key/value store

    One key space; a key holds a string, a list or a hash. The client in
    [db/redis_client.py] catches every failure of the store, so each
    operation is total: a read of a missing key or of a key of another
    type gives the empty answer. *)

Inductive rvalue : Type :=
  | RStr (s : string)
  | RList (l : list string)
  | RHash (h : gmap string string).

Definition db_get (db : gmap string rvalue) (key : string) : option string :=
  match db !! key with
  | Some (RStr s) => Some s
  | _ => None
  end.

Definition db_set (db : gmap string rvalue) (key value : string)
  : gmap string rvalue :=
  <[key := RStr value]> db.

Definition hgetall (db : gmap string rvalue) (key : string) : gmap string string :=
  match db !! key with
  | Some (RHash h) => h
  | _ => ∅
  end.

(** [lrange(key, 0, stop)]: [stop = -1] is the tail, otherwise the
    elements up to index [stop] included. *)
Definition lrange (db : gmap string rvalue) (key : string) (stop : Z)
  : list string :=
  match db !! key with
  | Some (RList l) =>
      if stop <? 0 then firstn (Z.to_nat (Z.of_nat (length l) + stop + 1)) l
      else firstn (Z.to_nat (stop + 1)) l
  | _ => []
  end.

(** ** Library functions left abstract

    The parsers and printers of the Python library that the code calls:
    each is a function of its argument only. *)

Inductive parsed_time : Type :=
  | Naive (t : Datetime.datetime)
  | Aware (t : Datetime.datetime) (utcoffset : Z).

Class PyLib : Type := {
  (** [datetime.fromisoformat], [ValueError] on a malformed string *)
  fromisoformat : string -> result parsed_time;
  (** [json.loads], [ValueError] ([JSONDecodeError]) on malformed text *)
  json_loads : string -> result json;
  (** [json.dumps(x, default=str)] *)
  json_dumps : json -> string;
  (** [float(s)] on a string, [ValueError] when it is not a number *)
  float_of_string : string -> result Q;
  (** [str(x)] *)
  py_str : json -> string;
  (** [format(x, ".1f")] on a number *)
  format_1f : Q -> string
}.


(** [float(x)] *)
Definition to_float `{PyLib} (x : json) : result Q :=
  match x with
  | JInt n => Ok (inject_Z n)
  | JFloat q => Ok q
  | JBool b => Ok (bool_to_Q b)
  | JStr s => float_of_string s
  | _ => Raise TypeError
  end.

(** ** analytics.py: the period windower *)

Module Analytics.

Import Datetime.

(** [_get_date_range(period)], with the clock reading [now] made a
    parameter ([now = datetime.utcnow()] in the source). *)
Definition _get_date_range (period : string) (now : datetime)
  : result (datetime * datetime) :=
  if String.eqb period "daily" then
    start_date ← replace_midnight now;
    end_date ← add_days start_date 1;
    Ok (start_date, end_date)
  else if String.eqb period "weekly" then
    let days_since_monday := weekday now in
    shifted ← add_days now (- days_since_monday);
    start_date ← replace_midnight shifted;
    end_date ← add_days start_date 7;
    Ok (start_date, end_date)
  else if String.eqb period "monthly" then
    start_date ← replace_first_midnight now;
    end_date ← (if month now =? 12
                then replace_year_month start_date (year now + 1) 1
                else replace_month start_date (month now + 1));
    Ok (start_date, end_date)
  else
    start_date ← replace_midnight now;
    end_date ← add_days start_date 1;
    Ok (start_date, end_date).

Section Reducers.
Context `{PyLib}.
Variable db : gmap string rvalue.

  (** *** Window test *)

Definition dt_fields (t : datetime) : list Z :=
    [year t; month t; day t; hour t; minute t; second t; microsecond t].

Fixpoint lex_leb (a b : list Z) : bool :=
    match a, b with
    | x :: a', y :: b' =>
        if x <? y then true else if y <? x then false else lex_leb a' b'
    | _, _ => true
    end.

Fixpoint lex_ltb (a b : list Z) : bool :=
    match a, b with
    | x :: a', y :: b' =>
        if x <? y then true else if y <? x then false else lex_ltb a' b'
    | _, _ => false
    end.

  (** [start_date <= t < end_date]; the bounds are naive, so comparing
      them with an aware time raises [TypeError]. *)
Definition in_window (start_date end_date : datetime) (t : parsed_time)
    : result bool :=
    match t with
    | Naive t =>
        Ok (lex_leb (dt_fields start_date) (dt_fields t)
            && lex_ltb (dt_fields t) (dt_fields end_date))
    | Aware _ _ => Raise TypeError
    end.

  (** [datetime.fromisoformat(ts.replace("Z", "+00:00"))] followed by the
      window test *)
Definition timestamp_in_window (start_date end_date : datetime) (ts : string)
    : result bool :=
    t ← fromisoformat (replace_Z ts);
    in_window start_date end_date t.

  (** *** [_get_interactions_in_period] *)

Record interaction : Type := {
    itype : string;   (* interaction.get("type", "") *)
    idata : json      (* interaction["data"], decoded *)
  }.

Definition load_interaction (start_date end_date : datetime)
      (h : gmap string string) : result (option interaction) :=
    match h !! "timestamp" with
    | None => Ok None
    | Some ts =>
        inside ← timestamp_in_window start_date end_date ts;
        if inside : bool then
          data ← json_loads (default "{}" (h !! "data"));
          Ok (Some {| itype := default "" (h !! "type"); idata := data |})
        else Ok None
    end.

  (** The loop over the keys; [ValueError] (and so [JSONDecodeError]) is
      caught per record, any other exception leaves the loop. *)
Fixpoint collect_interactions (start_date end_date : datetime)
      (keys : list string) (acc : list interaction)
    : result (list interaction) :=
    match keys with
    | [] => Ok acc
    | key :: rest =>
        match load_interaction start_date end_date (hgetall db key) with
        | Ok (Some i) => collect_interactions start_date end_date rest (acc ++ [i])
        | Ok None | Raise ValueError =>
            collect_interactions start_date end_date rest acc
        | Raise e => Raise e
        end
    end.

Definition _get_interactions_in_period (platform : string)
      (start_date end_date : datetime) : list interaction :=
    match collect_interactions start_date end_date
            (lrange db ("interactions:" +:+ platform) (-1)) [] with
    | Ok interactions => interactions
    | Raise _ => []
    end.

  (** *** [_get_engagement_metrics] *)

Record engagement : Type := {
    total_interactions : nat;
    posts_created : nat;
    replies_sent : nat;
    mentions_received : nat;
    likes_given : nat;
    shares_made : nat;
    engagement_rate : Q;
    response_time_avg : Q;
    top_performing_content : list (string * nat)
  }.

Definition engagement_init (n : nat) : engagement :=
    {| total_interactions := n; posts_created := 0; replies_sent := 0;
       mentions_received := 0; likes_given := 0; shares_made := 0;
       engagement_rate := 0; response_time_avg := 0;
       top_performing_content := [] |}.

Definition incr_posts (m : engagement) : engagement :=
    {| total_interactions := total_interactions m;
       posts_created := S (posts_created m); replies_sent := replies_sent m;
       mentions_received := mentions_received m; likes_given := likes_given m;
       shares_made := shares_made m; engagement_rate := engagement_rate m;
       response_time_avg := response_time_avg m;
       top_performing_content := top_performing_content m |}.

Definition incr_replies (m : engagement) : engagement :=
    {| total_interactions := total_interactions m;
       posts_created := posts_created m; replies_sent := S (replies_sent m);
       mentions_received := mentions_received m; likes_given := likes_given m;
       shares_made := shares_made m; engagement_rate := engagement_rate m;
       response_time_avg := response_time_avg m;
       top_performing_content := top_performing_content m |}.

Definition incr_mentions (m : engagement) : engagement :=
    {| total_interactions := total_interactions m;
       posts_created := posts_created m; replies_sent := replies_sent m;
       mentions_received := S (mentions_received m); likes_given := likes_given m;
       shares_made := shares_made m; engagement_rate := engagement_rate m;
       response_time_avg := response_time_avg m;
       top_performing_content := top_performing_content m |}.

Definition incr_likes (m : engagement) : engagement :=
    {| total_interactions := total_interactions m;
       posts_created := posts_created m; replies_sent := replies_sent m;
       mentions_received := mentions_received m; likes_given := S (likes_given m);
       shares_made := shares_made m; engagement_rate := engagement_rate m;
       response_time_avg := response_time_avg m;
       top_performing_content := top_performing_content m |}.

Definition incr_shares (m : engagement) : engagement :=
    {| total_interactions := total_interactions m;
       posts_created := posts_created m; replies_sent := replies_sent m;
       mentions_received := mentions_received m; likes_given := likes_given m;
       shares_made := S (shares_made m); engagement_rate := engagement_rate m;
       response_time_avg := response_time_avg m;
       top_performing_content := top_performing_content m |}.

Definition finish_engagement (m : engagement) (rate : Q)
      (top : list (string * nat)) : engagement :=
    {| total_interactions := total_interactions m;
       posts_created := posts_created m; replies_sent := replies_sent m;
       mentions_received := mentions_received m; likes_given := likes_given m;
       shares_made := shares_made m; engagement_rate := rate;
       response_time_avg := response_time_avg m;
       top_performing_content := top |}.

  (** The [if]/[elif] chain on the type tag *)
Definition count_type (interaction_type : string) (m : engagement)
    : engagement :=
    if contains "post" interaction_type || contains "tweet" interaction_type
       || contains "status" interaction_type then incr_posts m
    else if contains "reply" interaction_type then incr_replies m
    else if contains "mention" interaction_type then incr_mentions m
    else if contains "like" interaction_type
            || contains "favourite" interaction_type then incr_likes m
    else if contains "boost" interaction_type
            || contains "retweet" interaction_type then incr_shares m
    else m.

  (** [content[:50] + "..." if len(content) > 50 else content] *)
Definition content_key (content : string) : string :=
    if (50 <? String.length content)%nat then str_take 50 content +:+ "..."
    else content.

  (** The content tally of one record. [len], the slice and the use as a
      key fail on every non-empty value that is not a string. *)
Definition track_content (data : json) (content_performance : list (string * nat))
    : result (list (string * nat)) :=
    content ← dict_get data "content" (JStr "");
    if truthy content then
      match content with
      | JStr s => Ok (counter_incr String.eqb (content_key s) content_performance)
      | _ => Raise TypeError
      end
    else Ok content_performance.

Fixpoint scan_interactions (interactions : list interaction)
      (m : engagement) (content_performance : list (string * nat))
    : result (engagement * list (string * nat)) :=
    match interactions with
    | [] => Ok (m, content_performance)
    | i :: rest =>
        let m' := count_type (itype i) m in
        cp' ← track_content (idata i) content_performance;
        scan_interactions rest m' cp'
    end.

  (** The body of the [try] block *)
Definition engagement_body (interactions : list interaction)
    : result engagement :=
    '(m, content_performance) ←
       scan_interactions interactions (engagement_init (length interactions)) [];
    rate ← (if (0 <? posts_created m)%nat then
              let total_engagements :=
                (replies_sent m + likes_given m + shares_made m)%nat in
              r ← truediv (Z.of_nat total_engagements) (Z.of_nat (posts_created m));
              Ok (r * 100)%Q
            else Ok (engagement_rate m));
    Ok (finish_engagement m rate
          (firstn 5 (sort_desc content_performance))).

  (** [_get_engagement_metrics]; [None] is the empty dict returned by the
      [except] branch. *)
Definition _get_engagement_metrics (platform : string)
      (interactions : list interaction) : option engagement :=
    match engagement_body interactions with
    | Ok m => Some m
    | Raise _ => None
    end.

  (** *** [_get_sales_data_in_period] *)

Record conversion_event : Type := {
    ce_type : string;
    ce_amount : Q;
    ce_timestamp : string
  }.

Record sales_data : Type := {
    total_sales : nat;
    total_revenue : Q;
    total_refunds : nat;
    refund_amount : Q;
    orders_created : nat;
    orders_completed : nat;
    conversion_events : list conversion_event;
    net_revenue : Q;        (* set after the loop *)
    conversion_rate : Q     (* set after the loop *)
  }.

Definition sales_init : sales_data :=
    {| total_sales := 0; total_revenue := 0; total_refunds := 0;
       refund_amount := 0; orders_created := 0; orders_completed := 0;
       conversion_events := []; net_revenue := 0; conversion_rate := 0 |}.

Definition incr_total_sales (sd : sales_data) : sales_data :=
    {| total_sales := S (total_sales sd); total_revenue := total_revenue sd;
       total_refunds := total_refunds sd; refund_amount := refund_amount sd;
       orders_created := orders_created sd;
       orders_completed := orders_completed sd;
       conversion_events := conversion_events sd;
       net_revenue := net_revenue sd; conversion_rate := conversion_rate sd |}.

Definition add_revenue (amount : Q) (timestamp : string) (sd : sales_data)
    : sales_data :=
    {| total_sales := total_sales sd;
       total_revenue := total_revenue sd + amount;
       total_refunds := total_refunds sd; refund_amount := refund_amount sd;
       orders_created := orders_created sd;
       orders_completed := orders_completed sd;
       conversion_events :=
         conversion_events sd ++
         [{| ce_type := "sale_completed"; ce_amount := amount;
             ce_timestamp := timestamp |}];
       net_revenue := net_revenue sd; conversion_rate := conversion_rate sd |}.

Definition incr_orders_created (sd : sales_data) : sales_data :=
    {| total_sales := total_sales sd; total_revenue := total_revenue sd;
       total_refunds := total_refunds sd; refund_amount := refund_amount sd;
       orders_created := S (orders_created sd);
       orders_completed := orders_completed sd;
       conversion_events := conversion_events sd;
       net_revenue := net_revenue sd; conversion_rate := conversion_rate sd |}.

Definition incr_total_refunds (sd : sales_data) : sales_data :=
    {| total_sales := total_sales sd; total_revenue := total_revenue sd;
       total_refunds := S (total_refunds sd); refund_amount := refund_amount sd;
       orders_created := orders_created sd;
       orders_completed := orders_completed sd;
       conversion_events := conversion_events sd;
       net_revenue := net_revenue sd; conversion_rate := conversion_rate sd |}.

Definition add_refund (amount : Q) (sd : sales_data) : sales_data :=
    {| total_sales := total_sales sd; total_revenue := total_revenue sd;
       total_refunds := total_refunds sd;
       refund_amount := refund_amount sd + amount;
       orders_created := orders_created sd;
       orders_completed := orders_completed sd;
       conversion_events := conversion_events sd;
       net_revenue := net_revenue sd; conversion_rate := conversion_rate sd |}.

Definition finish_sales (sd : sales_data) (net rate : Q) : sales_data :=
    {| total_sales := total_sales sd; total_revenue := total_revenue sd;
       total_refunds := total_refunds sd; refund_amount := refund_amount sd;
       orders_created := orders_created sd;
       orders_completed := orders_completed sd;
       conversion_events := conversion_events sd;
       net_revenue := net; conversion_rate := rate |}.

  (** [float(event_data.get("amount", 0))] *)
Definition event_amount (event_data : json) : result Q :=
    a ← dict_get event_data "amount" (JInt 0);
    to_float a.

  (** One event. The dict [sales_data] is updated in place, so what was
      counted before an exception stays counted: the step returns the
      state it reached together with the outcome. *)
Definition sales_event (start_date end_date : datetime)
      (event : gmap string string) (sd : sales_data)
    : sales_data * result unit :=
    match event !! "timestamp" with
    | None => (sd, Ok ())
    | Some ts =>
        match timestamp_in_window start_date end_date ts with
        | Raise e => (sd, Raise e)
        | Ok false => (sd, Ok ())
        | Ok true =>
            match json_loads (default "{}" (event !! "data")) with
            | Raise e => (sd, Raise e)
            | Ok event_data =>
                let event_type := default "" (event !! "type") in
                if contains "payment_completed" event_type then
                  let sd := incr_total_sales sd in
                  match event_amount event_data with
                  | Raise e => (sd, Raise e)
                  | Ok amount => (add_revenue amount ts sd, Ok ())
                  end
                else if contains "order_created" event_type then
                  (incr_orders_created sd, Ok ())
                else if contains "payment_refunded" event_type then
                  let sd := incr_total_refunds sd in
                  match event_amount event_data with
                  | Raise e => (sd, Raise e)
                  | Ok amount => (add_refund amount sd, Ok ())
                  end
                else (sd, Ok ())
            end
        end
    end.

Fixpoint scan_payment_events (start_date end_date : datetime)
      (keys : list string) (sd : sales_data) : result sales_data :=
    match keys with
    | [] => Ok sd
    | key :: rest =>
        match sales_event start_date end_date (hgetall db key) sd with
        | (sd', Ok _) | (sd', Raise ValueError) =>
            scan_payment_events start_date end_date rest sd'
        | (_, Raise e) => Raise e
        end
    end.

Definition sales_body (start_date end_date : datetime) : result sales_data :=
    sd ← scan_payment_events start_date end_date
           (lrange db "payment_events:paypal" (-1)) sales_init;
    let net := (total_revenue sd - refund_amount sd)%Q in
    rate ← (if (0 <? orders_created sd)%nat then
              r ← truediv (Z.of_nat (total_sales sd)) (Z.of_nat (orders_created sd));
              Ok (r * 100)%Q
            else Ok 0%Q);
    Ok (finish_sales sd net rate).

  (** [None] is the empty dict of the [except] branch. *)
Definition _get_sales_data_in_period (start_date end_date : datetime)
    : option sales_data :=
    match sales_body start_date end_date with
    | Ok sd => Some sd
    | Raise _ => None
    end.

  (** *** [_get_lead_metrics] *)

Record lead_metrics : Type := {
    total_leads : nat;
    new_customers : nat;
    qualified_leads : nat;
    lead_conversion_rate : Q;     (* "conversion_rate" *)
    lead_sources : list (json * nat);
    lead_quality_score : Q
  }.

  (** The locals of the loop: [unique_customers], [qualified_leads] and
      [metrics["lead_sources"]]. *)
Record lead_state : Type := {
    unique_customers : gset string;
    qualified : nat;
    sources : list (json * nat)
  }.

Definition lead_init : lead_state :=
    {| unique_customers := ∅; qualified := 0; sources := [] |}.

  (** [data.get("platform", "unknown")] of the decoded payload, as a key *)
Definition lead_platform (raw : string) : result json :=
    data ← json_loads raw;
    platform ← dict_get data "platform" (JStr "unknown");
    if hashable platform then Ok platform else Raise TypeError.

Definition lead_event (start_date end_date : datetime)
      (interaction : gmap string string) (st : lead_state)
    : lead_state * result unit :=
    match interaction !! "timestamp" with
    | None => (st, Ok ())
    | Some ts =>
        match timestamp_in_window start_date end_date ts with
        | Raise e => (st, Raise e)
        | Ok false => (st, Ok ())
        | Ok true =>
            let customer_id := default "" (interaction !! "customer_id") in
            if String.eqb customer_id "" then (st, Ok ())
            else
              let customer_interactions :=
                lrange db ("customer_interactions:" +:+ customer_id) (-1) in
              let st :=
                {| unique_customers := {[customer_id]} ∪ unique_customers st;
                   qualified :=
                     if (1 <? length customer_interactions)%nat
                     then S (qualified st) else qualified st;
                   sources := sources st |} in
              match lead_platform (default "{}" (interaction !! "data")) with
              | Raise e => (st, Raise e)
              | Ok platform =>
                  ({| unique_customers := unique_customers st;
                      qualified := qualified st;
                      sources := counter_incr key_eqb platform (sources st) |},
                   Ok ())
              end
        end
    end.

Fixpoint scan_sales_interactions (start_date end_date : datetime)
      (keys : list string) (st : lead_state) : result lead_state :=
    match keys with
    | [] => Ok st
    | key :: rest =>
        match lead_event start_date end_date (hgetall db key) st with
        | (st', Ok _) | (st', Raise ValueError) =>
            scan_sales_interactions start_date end_date rest st'
        | (_, Raise e) => Raise e
        end
    end.

Definition lead_body (start_date end_date : datetime) : result lead_metrics :=
    st ← scan_sales_interactions start_date end_date
           (lrange db "sales_interactions" (-1)) lead_init;
    let total := size (unique_customers st) in
    rate ← (if (0 <? total)%nat then
              let completed_sales :=
                match _get_sales_data_in_period start_date end_date with
                | Some sd => total_sales sd
                | None => 0%nat
                end in
              r ← truediv (Z.of_nat completed_sales) (Z.of_nat total);
              Ok (r * 100)%Q
            else Ok 0%Q);
    score ← (if (0 <? total)%nat then
               r ← truediv (Z.of_nat (qualified st)) (Z.of_nat total);
               Ok (r * 100)%Q
             else Ok 0%Q);
    Ok {| total_leads := total; new_customers := total;
          qualified_leads := qualified st; lead_conversion_rate := rate;
          lead_sources := sources st; lead_quality_score := score |}.

Definition _get_lead_metrics (start_date end_date : datetime)
    : option lead_metrics :=
    match lead_body start_date end_date with
    | Ok m => Some m
    | Raise _ => None
    end.

End Reducers.


End Analytics.

(** ** auto_learning.py *)

Module AutoLearning.

(** *** [_find_common_patterns] *)

Record common_pattern : Type := {
  pattern : list string;
  frequency : nat;
  percentage : Q
}.

Definition pattern_eqb (p q : list string) : bool := bool_decide (p = q).

(** [tuple(sequence[i:i + length]) for i in range(len(sequence) - length + 1)] *)
Definition windows (sequence : list string) (len : nat) : list (list string) :=
  map (fun i => firstn len (skipn i sequence))
      (seq 0 (length sequence - len + 1)).

(** [for length in range(2, min(5, len(sequence) + 1))] *)
Definition sequence_patterns (sequence : list string) : list (list string) :=
  flat_map (windows sequence)
           (seq 2 (Nat.min 5 (length sequence + 1) - 2)).

(** The counter after both loops: every window is counted once, in the
    order of enumeration. *)
Definition pattern_counts (sequences : list (list string))
  : list (list string * nat) :=
  fold_left (fun c p => counter_incr pattern_eqb p c)
            (flat_map sequence_patterns sequences) [].

Definition report_pattern (n : nat) (entry : list string * nat)
  : result common_pattern :=
  r ← truediv (Z.of_nat (snd entry)) (Z.of_nat n);
  Ok {| pattern := fst entry; frequency := snd entry;
        percentage := (r * 100)%Q |}.

Definition _find_common_patterns (sequences : list (list string))
  : result (list common_pattern) :=
  match sequences with
  | [] => Ok []
  | _ =>
      map_result (report_pattern (length sequences))
        (List.filter (fun entry => (1 <? snd entry)%nat)
           (most_common 5 (pattern_counts sequences)))
  end.

(** *** The three analyses

    Each analysis reads the store and reduces what it read to a
    document inside one [try] block that returns [{}] on any exception.
    The reads are modelled as the code performs them; the reduction of
    the fetched records to the document is a parameter. An instance
    stands for the reduction as one interpreter process performs it:
    [_analyze_content_performance] picks its keywords with
    [list(set(...))[:15]], whose choice and order follow the string
    hashing of the process, so the same records can reduce to another
    document in another process. What is proved with one instance
    therefore compares the calls of one process only. *)

Class Analyses : Type := {
  reduce_content : list (string * list (gmap string string)) -> json;
  reduce_timing : list (string * list (gmap string string)) -> json;
  reduce_sales : list (gmap string string) -> json
}.

Definition platforms : list string := ["twitter"; "mastodon"; "discord"].

(** [hgetall] of each key of [lrange(list_key, 0, stop)] *)
Definition fetch (db : gmap string rvalue) (list_key : string) (stop : Z)
  : list (gmap string string) :=
  map (hgetall db) (lrange db list_key stop).

Record insight : Type := {
  type_ : string;          (* "type" *)
  priority : string;
  insight_text : string;   (* "insight" *)
  action : string;
  expected_impact : string
}.

Definition insight_json (i : insight) : json :=
  JObj [("type", JStr (type_ i)); ("priority", JStr (priority i));
        ("insight", JStr (insight_text i)); ("action", JStr (action i));
        ("expected_impact", JStr (expected_impact i))].

Record learning_summary : Type := {
  cycle_completed_at : string;
  insights_generated : nat;
  analysis_results : json;
  insights : list insight;
  improvements_implemented : nat
}.

(** What [run_learning_cycle] returns: the summary, or [{"error": str(e)}]. *)
Inductive cycle_result : Type :=
  | CycleSummary (s : learning_summary)
  | CycleError (e : exn).

(** The module object: the store it talks to and [self.learning_patterns]. *)
Record learning_module : Type := {
  db : gmap string rvalue;
  learning_patterns : json
}.

Record optimizations : Type := {
  recommended_keywords : json;
  optimal_length : json;
  best_posting_time : json;
  content_style : json
}.

(** What the strategy document holds; an absent key is [None]. *)
Record strategy_updates : Type := {
  priority_keywords : option (list string);          (* content_strategy *)
  timing_strategy : list (string * list string);
  recommended_touchpoints : option Q;                (* sales_strategy *)
  content_preferences : option string                (* platform_strategy *)
}.

Section Learning.
Context `{PyLib} `{Analyses}.

Definition _analyze_content_performance (db : gmap string rvalue) : json :=
    reduce_content
      (map (fun platform => (platform, fetch db ("interactions:" +:+ platform) 100))
           platforms).

Definition _analyze_timing_patterns (db : gmap string rvalue) : json :=
    reduce_timing
      (map (fun platform => (platform, fetch db ("interactions:" +:+ platform) 200))
           platforms).

Definition _analyze_sales_patterns (db : gmap string rvalue) : json :=
    reduce_sales (fetch db "sales_interactions" 100).

  (** *** [_generate_insights] *)

Definition content_insight (content_analysis : json) : result (list insight) :=
    kw ← dict_get_none content_analysis "high_performing_keywords";
    if truthy kw then
      top ← slice_to 5 kw;
      text ← join_json ", " top;
      Ok [{| type_ := "content_optimization"; priority := "high";
             insight_text := "Top performing keywords: " +:+ text;
             action := "Incorporate these keywords more frequently in content";
             expected_impact := "15-25% increase in engagement" |}]
    else Ok [].

  (** [', '.join(map(str, hours))] *)
Definition join_hours (hours : json) : result string :=
    match hours with
    | JArr items => Ok (join ", " (map py_str items))
    | JStr s => Ok (join ", " (chars s))
    | JObj fields => Ok (join ", " (map fst fields))
    | _ => Raise TypeError
    end.

Definition timing_insight (entry : string * json) : result (list insight) :=
    let '(platform, hours) := entry in
    if truthy hours then
      text ← join_hours hours;
      Ok [{| type_ := "timing_optimization"; priority := "medium";
             insight_text :=
               "Best posting times for " +:+ platform +:+ ": " +:+ text +:+ ":00";
             action := "Schedule more posts during these hours on " +:+ platform;
             expected_impact := "10-20% increase in engagement" |}]
    else Ok [].

Definition timing_insights (timing_analysis : json) : result (list insight) :=
    oh ← dict_get_none timing_analysis "optimal_hours";
    if truthy oh then
      match oh with
      | JObj fields => l ← map_result timing_insight fields; Ok (concat l)
      | _ => Raise AttributeError
      end
    else Ok [].

  (** [f"{avg_touchpoints:.1f}"] *)
Definition format_touchpoints (x : json) : result string :=
    match x with
    | JInt n => Ok (format_1f (inject_Z n))
    | JFloat q => Ok (format_1f q)
    | JBool b => Ok (format_1f (bool_to_Q b))
    | JStr _ => Raise ValueError
    | _ => Raise TypeError
    end.

Definition sales_insight (sales_analysis : json) : result (list insight) :=
    journey_patterns ← dict_get sales_analysis "customer_journey_patterns" (JObj []);
    avg ← dict_get_none journey_patterns "average_touchpoints";
    if truthy avg then
      text ← format_touchpoints avg;
      Ok [{| type_ := "sales_optimization"; priority := "high";
             insight_text :=
               "Average customer needs " +:+ text +:+ " touchpoints before conversion";
             action := "Develop nurture sequences with appropriate follow-up timing";
             expected_impact := "20-30% improvement in conversion rate" |}]
    else Ok [].

  (** The loop that fills [platform_performance] *)
Fixpoint platform_performance (content_analysis : json) (ps : list string)
      (acc : list (string * json)) : result (list (string * json)) :=
    match ps with
    | [] => Ok acc
    | platform :: rest =>
        best ← dict_get content_analysis "best_content_types" (JObj []);
        platform_data ← dict_get best platform (JArr []);
        if truthy platform_data then
          first ← index0 platform_data;
          best_type ← index0 first;
          platform_performance content_analysis rest
            (assoc_set platform best_type acc)
        else platform_performance content_analysis rest acc
    end.

Definition platform_insight (content_analysis : json) : result (list insight) :=
    pp ← platform_performance content_analysis platforms [];
    match pp with
    | [] => Ok []
    | _ =>
        Ok [{| type_ := "platform_optimization"; priority := "medium";
               insight_text :=
                 "Platform content preferences: " +:+ py_str (JObj pp);
               action := "Tailor content types to each platform's preferences";
               expected_impact :=
                 "12-18% increase in platform-specific engagement" |}]
    end.

Definition insights_body (analysis_results : json) : result (list insight) :=
    content_analysis ← dict_get analysis_results "content_performance" (JObj []);
    i1 ← content_insight content_analysis;
    timing_analysis ← dict_get analysis_results "timing_patterns" (JObj []);
    i2 ← timing_insights timing_analysis;
    sales_analysis ← dict_get analysis_results "sales_patterns" (JObj []);
    i3 ← sales_insight sales_analysis;
    i4 ← platform_insight content_analysis;
    Ok (i1 ++ i2 ++ i3 ++ i4)%list.

  (** [_generate_insights]: the [except] branch returns the empty list. *)
Definition _generate_insights (analysis_results : json) : list insight :=
    match insights_body analysis_results with
    | Ok l => l
    | Raise _ => []
    end.

(** *** [_update_strategies] *)

Definition empty_strategy : strategy_updates :=
  {| priority_keywords := None; timing_strategy := [];
     recommended_touchpoints := None; content_preferences := None |}.

(** [text.split(sep)[-1] if sep in text else ""] *)
Definition after_last (sep text : string) : string :=
  if contains sep text then List.last (split sep text) "" else "".

(** One turn of the loop over the insights *)
Definition apply_insight (i : insight) (u : strategy_updates)
  : strategy_updates :=
  let text := insight_text i in
  if String.eqb (type_ i) "content_optimization" then
    let keywords := after_last ": " text in
    if String.eqb keywords "" then u
    else {| priority_keywords := Some (split ", " keywords);
            timing_strategy := timing_strategy u;
            recommended_touchpoints := recommended_touchpoints u;
            content_preferences := content_preferences u |}
  else if String.eqb (type_ i) "timing_optimization" then
    let platform :=
      if contains " for " text
      then List.hd "" (split ":" (List.last (split " for " text) ""))
      else "" in
    let times := after_last ": " text in
    if String.eqb platform "" || String.eqb times "" then u
    else {| priority_keywords := priority_keywords u;
            timing_strategy :=
              assoc_set platform (split ", " times) (timing_strategy u);
            recommended_touchpoints := recommended_touchpoints u;
            content_preferences := content_preferences u |}
  else if String.eqb (type_ i) "sales_optimization" then
    if contains "touchpoints" text then
      let touchpoints :=
        List.hd "" (split " touchpoints" (List.last (split " needs " text) "")) in
      match float_of_string touchpoints with
      | Ok x => {| priority_keywords := priority_keywords u;
                   timing_strategy := timing_strategy u;
                   recommended_touchpoints := Some x;
                   content_preferences := content_preferences u |}
      | Raise _ => u
      end
    else u
  else if String.eqb (type_ i) "platform_optimization" then
    {| priority_keywords := priority_keywords u;
       timing_strategy := timing_strategy u;
       recommended_touchpoints := recommended_touchpoints u;
       content_preferences := Some text |}
  else u.

Definition derive_strategy (insights : list insight) : strategy_updates :=
  fold_left (fun u i => apply_insight i u) insights empty_strategy.

Definition strs (l : list string) : json := JArr (map JStr l).

Definition strategy_json (u : strategy_updates) : json :=
  JObj [("content_strategy",
         JObj (match priority_keywords u with
               | Some kws => [("priority_keywords", strs kws)]
               | None => []
               end));
        ("timing_strategy",
         JObj (map (fun e => (fst e, strs (snd e))) (timing_strategy u)));
        ("sales_strategy",
         JObj (match recommended_touchpoints u with
               | Some x => [("recommended_touchpoints", JFloat x)]
               | None => []
               end));
        ("platform_strategy",
         JObj (match content_preferences u with
               | Some text => [("content_preferences", JStr text)]
               | None => []
               end))].

(** [_update_strategies]: nothing in the [try] block raises before the
    write, so the document is always stored. *)
Definition _update_strategies (insights : list insight)
    (db : gmap string rvalue) : gmap string rvalue :=
  db_set db "strategy_updates" (json_dumps (strategy_json (derive_strategy insights))).

(** *** Loading and saving [learning_patterns] *)

Definition initial_patterns : json :=
  JObj [("content_performance", JObj []); ("engagement_patterns", JObj []);
        ("sales_conversion", JObj []); ("customer_behavior", JObj []);
        ("optimal_timing", JObj []); ("platform_effectiveness", JObj [])].

Definition _load_existing_patterns (m : learning_module) : learning_module :=
  match db_get (db m) "learning_patterns" with
  | Some patterns_data =>
      if String.eqb patterns_data "" then m
      else match json_loads patterns_data with
           | Ok j => {| db := db m; learning_patterns := j |}
           | Raise _ => m
           end
  | None => m
  end.

(** [LearningModule()] followed by [initialize()] *)
Definition initialize (store : gmap string rvalue) : learning_module :=
  _load_existing_patterns {| db := store; learning_patterns := initial_patterns |}.

Definition _save_patterns (m : learning_module) : learning_module :=
  {| db := db_set (db m) "learning_patterns" (json_dumps (learning_patterns m));
     learning_patterns := learning_patterns m |}.

(** *** [run_learning_cycle] *)

(** The dict passed to [self.learning_patterns.update]: building it
    reads [cycle_count] with [get], which only a dict has, and adds 1. *)
Definition updated_patterns (now : string) (results : json)
    (insights : list insight) (patterns : json) : result json :=
  count ← dict_get patterns "cycle_count" (JInt 0);
  count' ← add_one count;
  match patterns with
  | JObj fields =>
      Ok (JObj (assoc_set "cycle_count" count'
               (assoc_set "generated_insights" (JArr (map insight_json insights))
               (assoc_set "analysis_results" results
               (assoc_set "last_analysis" (JStr now) fields)))))
  | _ => Raise AttributeError
  end.

Definition is_high (i : insight) : bool := String.eqb (priority i) "high".

(** The [analysis_results] dict of a cycle *)
Definition cycle_results (store : gmap string rvalue) : json :=
  JObj [("content_performance", _analyze_content_performance store);
        ("timing_patterns", _analyze_timing_patterns store);
        ("sales_patterns", _analyze_sales_patterns store)].

(** [now] and [done] are the two readings of the clock, as ISO strings. *)
Definition run_learning_cycle (now done : string) (m : learning_module)
  : cycle_result * learning_module :=
  let results := cycle_results (db m) in
  let insights := _generate_insights results in
  let m1 := {| db := _update_strategies insights (db m);
               learning_patterns := learning_patterns m |} in
  match updated_patterns now results insights (learning_patterns m1) with
  | Raise e => (CycleError e, m1)
  | Ok patterns =>
      let m2 := _save_patterns {| db := db m1; learning_patterns := patterns |} in
      (CycleSummary
         {| cycle_completed_at := done;
            insights_generated := length insights;
            analysis_results := results;
            insights := insights;
            improvements_implemented := length (List.filter is_high insights) |},
       m2)
  end.

(** *** [apply_learned_optimizations] *)

Definition default_range : json := JArr [JInt 100; JInt 200].

Definition optimizations_body (patterns : json) (content_type platform : string)
  : result optimizations :=
  analysis_results ← dict_get patterns "analysis_results" (JObj []);
  content_performance ← dict_get analysis_results "content_performance" (JObj []);
  kw ← dict_get_none content_performance "high_performing_keywords";
  keywords ← (if truthy kw then slice_to 5 kw else Ok (JArr []));
  optimal_lengths ← dict_get content_performance "optimal_content_length" (JObj []);
  present ← str_in platform optimal_lengths;
  len ← (if present : bool then
           length_data ← dict_index optimal_lengths platform;
           dict_get length_data "recommended_range" default_range
         else Ok JNull);
  timing_patterns ← dict_get analysis_results "timing_patterns" (JObj []);
  optimal_hours ← dict_get timing_patterns "optimal_hours" (JObj []);
  timed ← str_in platform optimal_hours;
  time ← (if timed : bool then dict_index optimal_hours platform else Ok JNull);
  best_types ← dict_get content_performance "best_content_types" (JObj []);
  typed ← str_in platform best_types;
  style ← (if typed : bool then
             entry ← dict_index best_types platform;
             if truthy entry then first ← index0 entry; index0 first
             else Ok (JStr "general")
           else Ok (JStr "general"));
  Ok {| recommended_keywords := keywords; optimal_length := len;
        best_posting_time := time; content_style := style |}.

(** [None] is the empty dict of the [except] branch. *)
Definition apply_learned_optimizations (m : learning_module)
    (content_type platform : string) : option optimizations :=
  match optimizations_body (learning_patterns m) content_type platform with
  | Ok o => Some o
  | Raise _ => None
  end.

End Learning.

End AutoLearning.

(** ** A concrete library, for running the model

    Small stand-ins for the library functions: an ISO parser for
    [YYYY-MM-DDTHH:MM:SS] with an optional [+00:00], a printer of
    documents, and a reader that knows the payloads of the examples. *)

Module Demo.

Import Datetime.

Definition digit (c : ascii) : option Z :=
  let n := Z.of_nat (nat_of_ascii c) in
  if (48 <=? n) && (n <=? 57) then Some (n - 48) else None.

Fixpoint number (acc : Z) (s : string) : option Z :=
  match s with
  | EmptyString => Some acc
  | String c rest =>
      match digit c with
      | Some d => number (10 * acc + d) rest
      | None => None
      end
  end.

Definition field (s : string) (pos len : nat) : result Z :=
  if (String.length s <? pos + len)%nat then Raise ValueError
  else match number 0 (String.substring pos len s) with
       | Some n => Ok n
       | None => Raise ValueError
       end.

Definition parse_iso (s : string) : result parsed_time :=
  y ← field s 0 4; mo ← field s 5 2; d ← field s 8 2;
  h ← field s 11 2; mi ← field s 14 2; se ← field s 17 2;
  t ← make y mo d h mi se 0;
  let rest := drop_chars 19 s in
  if String.eqb rest "" then Ok (Naive t)
  else if String.eqb rest "+00:00" then Ok (Aware t 0)
  else Raise ValueError.

Definition quote (s : string) : string :=
  String (ascii_of_nat 34) s +:+ String (ascii_of_nat 34) "".

Fixpoint dumps (j : json) : string :=
  match j with
  | JNull => "null"
  | JBool b => if b then "true" else "false"
  | JInt n => pretty n
  | JFloat q => pretty (Qnum q) +:+ "/" +:+ pretty (Zpos (Qden q))
  | JStr s => quote s
  | JArr items =>
      "[" +:+ join ", " ((fix each (l : list json) : list string :=
                            match l with
                            | [] => []
                            | x :: rest => dumps x :: each rest
                            end) items) +:+ "]"
  | JObj fields =>
      "{" +:+ join ", " ((fix each (l : list (string * json)) : list string :=
                            match l with
                            | [] => []
                            | (k, v) :: rest =>
                                (quote k +:+ ": " +:+ dumps v) :: each rest
                            end) fields) +:+ "}"
  end.

(** The documents that the records of the examples carry. [loads]
    reads the JSON text of each of them as [json.loads] does, and takes
    every other text for undecodable. *)
Definition documents : list json :=
  [JObj [];
   JObj [("platform", JStr "twitter")];
   JObj [("amount", JInt 10)];
   JObj [("amount", JInt 20)];
   JObj [("amount", JInt 5)];
   JObj [("cycle_count", JStr "three")];
   JObj [("cycle_count", JInt 4)];
   JArr []].

Definition payloads : list (string * json) :=
  map (fun j => (dumps j, j)) documents.

Definition loads (s : string) : result json :=
  match assoc_get s payloads with
  | Some j => Ok j
  | None => Raise ValueError
  end.

Definition to_str (j : json) : string :=
  match j with JStr s => s | _ => dumps j end.

(** Digits, with an optional fractional part *)
Definition parse_float (s : string) : result Q :=
  match split "." s with
  | [whole] =>
      match number 0 whole with
      | Some n => if String.eqb whole "" then Raise ValueError else Ok (inject_Z n)
      | None => Raise ValueError
      end
  | [whole; frac] =>
      match number 0 whole, number 0 frac with
      | Some n, Some f =>
          if String.eqb whole "" || String.eqb frac "" then Raise ValueError
          else Ok (inject_Z n + inject_Z f / inject_Z (10 ^ Z.of_nat (String.length frac)))%Q
      | _, _ => Raise ValueError
      end
  | _ => Raise ValueError
  end.

(** One decimal, truncated *)
Definition one_decimal (q : Q) : string :=
  let tenths := (Qnum q * 10) / Zpos (Qden q) in
  pretty (tenths / 10) +:+ "." +:+ pretty (tenths mod 10).

#[local] Instance lib : PyLib := {|
  fromisoformat := parse_iso;
  json_loads := loads;
  json_dumps := dumps;
  float_of_string := parse_float;
  py_str := to_str;
  format_1f := one_decimal
|}.

(** Reductions that keep only the number of records read *)
Definition count_doc (n : nat) : json :=
  JObj [("records", JInt (Z.of_nat n))].

#[local] Instance analyses : AutoLearning.Analyses := {|
  AutoLearning.reduce_content := fun l => count_doc (length (concat (map snd l)));
  AutoLearning.reduce_timing := fun l => count_doc (length (concat (map snd l)));
  AutoLearning.reduce_sales := fun l => count_doc (length l)
|}.

(** A store for the examples: two sales interactions of one customer,
    two completed payments and a refund, all on 2024-01-15. *)
Definition record (fields : list (string * string)) : rvalue :=
  RHash (list_to_map fields).

Definition store : gmap string rvalue :=
  list_to_map
    [("sales_interactions",
      RList ["sales_interaction:c1:2"; "sales_interaction:c1:1"]);
     ("customer_interactions:c1",
      RList ["sales_interaction:c1:2"; "sales_interaction:c1:1"]);
     ("sales_interaction:c1:1",
      record [("type", "inquiry_processed"); ("customer_id", "c1");
              ("timestamp", "2024-01-15T09:00:00");
              ("data", dumps (JObj [("platform", JStr "twitter")]))]);
     ("sales_interaction:c1:2",
      record [("type", "follow_up_generated"); ("customer_id", "c1");
              ("timestamp", "2024-01-15T10:00:00");
              ("data", dumps (JObj [("platform", JStr "twitter")]))]);
     ("payment_events:paypal",
      RList ["payment_event:paypal:3"; "payment_event:paypal:2";
             "payment_event:paypal:1"]);
     ("payment_event:paypal:1",
      record [("type", "payment_completed"); ("platform", "paypal");
              ("timestamp", "2024-01-15T11:00:00"); ("data", dumps (JObj [("amount", JInt 10)]))]);
     ("payment_event:paypal:2",
      record [("type", "payment_completed"); ("platform", "paypal");
              ("timestamp", "2024-01-15T12:00:00"); ("data", dumps (JObj [("amount", JInt 20)]))]);
     ("payment_event:paypal:3",
      record [("type", "payment_refunded"); ("platform", "paypal");
              ("timestamp", "2024-01-15T13:00:00"); ("data", dumps (JObj [("amount", JInt 5)]))])].

Definition lead_report : Analytics.lead_metrics :=
  {| Analytics.total_leads := 1; Analytics.new_customers := 1;
     Analytics.qualified_leads := 2;
     Analytics.lead_conversion_rate := 200 # 1;
     Analytics.lead_sources := [(JStr "twitter", 2%nat)];
     Analytics.lead_quality_score := 200 # 1 |}.

Definition day_start : datetime := mk 2024 1 15 0 0 0 0.
Definition day_end : datetime := mk 2024 1 16 0 0 0 0.

(** Learned data that knows the length range of twitter only *)
Definition learned : json :=
  JObj [("analysis_results",
         JObj [("content_performance",
                JObj [("optimal_content_length",
                       JObj [("twitter",
                              JObj [("recommended_range",
                                     JArr [JInt 80; JInt 120])]);
                             ("mastodon", JObj [("average", JInt 140)])])])])].

(** A store whose patterns document carries a [cycle_count] that is not
    a number, and the module that [initialize] makes of it *)
Definition odd_store : gmap string rvalue :=
  <["learning_patterns" := RStr (dumps (JObj [("cycle_count", JStr "three")]))]>
    store.

Definition odd_module : AutoLearning.learning_module :=
  @AutoLearning.initialize lib odd_store.

Definition fresh_module : AutoLearning.learning_module :=
  @AutoLearning.initialize lib store.

(** The strategy document a cycle without insights writes *)
Definition empty_strategy_document : string :=
  dumps (@AutoLearning.strategy_json (AutoLearning.empty_strategy)).

(** One cycle on the module with the odd patterns *)
Definition odd_outcome
  : AutoLearning.cycle_result * AutoLearning.learning_module :=
  @AutoLearning.run_learning_cycle lib analyses "t0" "t1" odd_module.

(** Analysis results with keywords, hours and touchpoints *)
Definition sample_results : json :=
  JObj [("content_performance",
         JObj [("high_performing_keywords",
                JArr [JStr "alpha"; JStr "beta"])]);
        ("timing_patterns",
         JObj [("optimal_hours", JObj [("twitter", JArr [JInt 9; JInt 17])])]);
        ("sales_patterns",
         JObj [("customer_journey_patterns",
                JObj [("average_touchpoints", JFloat (5 # 2))])])].

End Demo.

(** ** Notions used to state the properties *)

Module Notions.

Import Datetime Analytics.

(** The five categories the engagement reducer tallies, in the order of
    its [if]/[elif] chain, each with the substrings that select it. *)
Inductive category : Type :=
  | CatPost | CatReply | CatMention | CatLike | CatShare.

#[global] Instance category_eq_dec : EqDecision category.
Proof. solve_decision. Defined.

Definition categories : list category :=
  [CatPost; CatReply; CatMention; CatLike; CatShare].

Definition selects (c : category) (interaction_type : string) : bool :=
  match c with
  | CatPost => contains "post" interaction_type
               || contains "tweet" interaction_type
               || contains "status" interaction_type
  | CatReply => contains "reply" interaction_type
  | CatMention => contains "mention" interaction_type
  | CatLike => contains "like" interaction_type
               || contains "favourite" interaction_type
  | CatShare => contains "boost" interaction_type
                || contains "retweet" interaction_type
  end.

(** The first category, in priority order, that selects the tag *)
Definition first_match (interaction_type : string) : option category :=
  List.find (fun c => selects c interaction_type) categories.

Definition tally (c : category) (m : engagement) : nat :=
  match c with
  | CatPost => posts_created m
  | CatReply => replies_sent m
  | CatMention => mentions_received m
  | CatLike => likes_given m
  | CatShare => shares_made m
  end.

Definition tallied (m : engagement) : nat :=
  (posts_created m + replies_sent m + mentions_received m
   + likes_given m + shares_made m)%nat.

Definition classified_as (c : category) (i : interaction) : bool :=
  bool_decide (first_match (itype i) = Some c).

(** Payloads on which the content tally does not raise: a dict whose
    [content] is absent, empty or a string. *)
Definition plain_content (data : json) : Prop :=
  exists fields, data = JObj fields /\
    match assoc_get "content" fields with
    | None | Some (JStr _) => True
    | Some j => truthy j = false
    end.

(** The lead reducer's view of one key of the [sales_interactions] list. *)
Section LeadNotions.
Context `{PyLib}.
Variable db : gmap string rvalue.
Variables start_date end_date : datetime.

(** The customer of the record under [key], when the record is a sales
    interaction inside the window that names a customer. *)
Definition lead_customer (key : string) : option string :=
  let interaction := hgetall db key in
  match interaction !! "timestamp" with
  | Some ts =>
      match timestamp_in_window start_date end_date ts with
      | Ok true =>
          let customer_id := default "" (interaction !! "customer_id") in
          if String.eqb customer_id "" then None else Some customer_id
      | _ => None
      end
  | None => None
  end.

(** All interactions the customer ever had, inside the window or not *)
Definition history_length (customer_id : string) : nat :=
  length (lrange db ("customer_interactions:" +:+ customer_id) (-1)).

(** An in-window sales interaction whose customer has more than one
    interaction in total *)
Definition qualified_interaction (key : string) : bool :=
  match lead_customer key with
  | Some customer_id => (1 <? history_length customer_id)%nat
  | None => false
  end.

Definition window_customers (keys : list string) : gset string :=
  list_to_set (omap lead_customer keys).

(** The metrics the lead reducer builds from the locals of its loop,
    with the quotients written without their guard *)
Definition lead_result (st : lead_state) : lead_metrics :=
  let total := size (unique_customers st) in
  {| total_leads := total; new_customers := total;
     qualified_leads := qualified st;
     lead_conversion_rate :=
       if (0 <? total)%nat
       then (inject_Z (Z.of_nat
                         match _get_sales_data_in_period db start_date end_date with
                         | Some sd => total_sales sd
                         | None => 0%nat
                         end)
             / inject_Z (Z.of_nat total) * 100)%Q
       else 0%Q;
     lead_sources := sources st;
     lead_quality_score :=
       if (0 <? total)%nat
       then (inject_Z (Z.of_nat (qualified st)) / inject_Z (Z.of_nat total) * 100)%Q
       else 0%Q |}.

End LeadNotions.

(** Occurrences of a pattern as a contiguous run: the positions of a
    sequence at which the pattern starts, summed over the sequences. *)
Definition occurs_at (p sequence : list string) (i : nat) : bool :=
  bool_decide (firstn (length p) (skipn i sequence) = p).

Definition occurrences_in (p sequence : list string) : nat :=
  length (List.filter (occurs_at p sequence)
            (seq 0 (length sequence - length p + 1))).

Definition occurrences (p : list string) (sequences : list (list string)) : nat :=
  list_sum (map (occurrences_in p) sequences).

(** A counter that was only fed through [counter_incr] has distinct keys
    and positive counts. *)
Definition well_formed {K : Type} (c : list (K * nat)) : Prop :=
  NoDup (map fst c) /\ Forall (fun e => (0 < snd e)%nat) c.

(** The report of a counter entry among [n] sequences *)
Definition report_of (n : nat) (e : list string * nat)
  : AutoLearning.common_pattern :=
  {| AutoLearning.pattern := fst e; AutoLearning.frequency := snd e;
     AutoLearning.percentage :=
       (inject_Z (Z.of_nat (snd e)) / inject_Z (Z.of_nat n) * 100)%Q |}.

(** Entries by decreasing count *)
Definition descending {K : Type} (l : list (K * nat)) : Prop :=
  StronglySorted (fun a b => (snd b <= snd a)%nat) l.

(** The learned [optimal_content_length] data, as
    [apply_learned_optimizations] looks it up *)
Definition learned_lengths (patterns : json) : result json :=
  analysis_results ← dict_get patterns "analysis_results" (JObj []);
  content_performance ← dict_get analysis_results "content_performance" (JObj []);
  dict_get content_performance "optimal_content_length" (JObj []).

Definition platform_absent (patterns : json) (platform : string) : Prop :=
  exists lengths,
    learned_lengths patterns = Ok lengths /\ str_in platform lengths = Ok false.

(** The value of [cycle_count] in a patterns document, 0 when the key is
    absent; [None] when the document is not a dict or the value is not a
    number. *)
Definition cycle_count (patterns : json) : option Q :=
  match dict_get patterns "cycle_count" (JInt 0) with
  | Ok c => key_num c
  | Raise _ => None
  end.

(** The two document keys hold strings or nothing. *)
Definition documents_are_strings (db : gmap string rvalue) : Prop :=
  forall key h,
    key = "strategy_updates" \/ key = "learning_patterns" ->
    db !! key <> Some (RHash h).

End Notions.

(** ** Notions for the scans of the reducers *)

Module ScanNotions.

Import Datetime Analytics.

(** [a] is a moment before [b]: the first of year, month, day, hour,
    minute, second and microsecond in which the two differ is smaller
    in [a]. This is the order of Python on times without offset. *)
Definition earlier (a b : datetime) : Prop :=
  year a < year b \/ year a = year b /\
  (month a < month b \/ month a = month b /\
  (day a < day b \/ day a = day b /\
  (hour a < hour b \/ hour a = hour b /\
  (minute a < minute b \/ minute a = minute b /\
  (second a < second b \/ second a = second b /\
   microsecond a < microsecond b))))).

#[export] Instance earlier_dec (a b : datetime) : Decision (earlier a b).
Proof. unfold earlier. apply _. Defined.

Section WithStore.
Context `{PyLib}.
Variable db : gmap string rvalue.
Variables start_date end_date : datetime.

(** The interaction a key contributes to the loop of
    [_get_interactions_in_period], computed with the code's own test of
    one record; the proofs run on it. *)
Definition loaded (key : string) : option interaction :=
  match load_interaction start_date end_date (hgetall db key) with
  | Ok (Some i) => Some i
  | _ => None
  end.

(** A key whose record raises something the loop does not catch,
    computed in the same way *)
Definition fatal (key : string) : bool :=
  match load_interaction start_date end_date (hgetall db key) with
  | Raise ValueError => false
  | Raise _ => true
  | Ok _ => false
  end.

(** [t] lies in the window: not before its start, and before its end. *)
Definition in_period (t : datetime) : Prop :=
  ~ earlier t start_date /\ earlier t end_date.

(** The record under [key] is a record of the window with timestamp
    [ts] and payload [data]: the timestamp reads as a time without
    offset that lies in the window, and the field [data], or the text
    of the empty object when the record has none, decodes to [data]. *)
Definition window_record (key ts : string) (data : json) : Prop :=
  exists t,
    hgetall db key !! "timestamp" = Some ts /\
    fromisoformat (replace_Z ts) = Ok (Naive t) /\
    in_period t /\
    json_loads (default "{}" (hgetall db key !! "data")) = Ok data.

(** The record under [key] is kept as the interaction [i]. *)
Definition kept (key : string) (i : interaction) : Prop :=
  exists ts data,
    window_record key ts data /\
    i = {| itype := default "" (hgetall db key !! "type"); idata := data |}.

(** The record under [key] is passed over: it has no timestamp, or a
    timestamp that does not parse, or one outside the window, or it lies
    in the window with a payload that does not decode. *)
Definition skipped (key : string) : Prop :=
  hgetall db key !! "timestamp" = None \/
  exists ts,
    hgetall db key !! "timestamp" = Some ts /\
    (fromisoformat (replace_Z ts) = Raise ValueError \/
     exists t,
       fromisoformat (replace_Z ts) = Ok (Naive t) /\
       (~ in_period t \/
        json_loads (default "{}" (hgetall db key !! "data"))
        = Raise ValueError)).

(** The record under [key] ends the scan: its timestamp carries an
    offset, so that it cannot be compared with the bounds of the
    window, or reading the timestamp, or the payload of a record in the
    window, raises something other than [ValueError]. *)
Definition breaks (key : string) : Prop :=
  exists ts,
    hgetall db key !! "timestamp" = Some ts /\
    ((exists t offset, fromisoformat (replace_Z ts) = Ok (Aware t offset)) \/
     (exists e, fromisoformat (replace_Z ts) = Raise e /\ e <> ValueError) \/
     (exists t e,
        fromisoformat (replace_Z ts) = Ok (Naive t) /\
        in_period t /\
        json_loads (default "{}" (hgetall db key !! "data")) = Raise e /\
        e <> ValueError)).

(** [l] holds, in the order of [keys], one interaction for each key
    that is kept, and nothing for a key that is passed over. *)
Inductive selection : list string -> list interaction -> Prop :=
  | selection_nil : selection [] []
  | selection_keep key i keys l :
      kept key i -> selection keys l -> selection (key :: keys) (i :: l)
  | selection_skip key keys l :
      skipped key -> selection keys l -> selection (key :: keys) l.

(** The record under [key] is a completed payment of the window whose
    amount is text that is not a number. *)
Definition unpriced (key : string) : Prop :=
  exists ts fields a,
    window_record key ts (JObj fields) /\
    contains "payment_completed" (default "" (hgetall db key !! "type")) = true /\
    assoc_get "amount" fields = Some (JStr a) /\
    float_of_string a = Raise ValueError.

(** The same as a test, to count such records *)
Definition unpriced_sale (key : string) : bool :=
  match hgetall db key !! "timestamp" with
  | None => false
  | Some ts =>
      match fromisoformat (replace_Z ts),
            json_loads (default "{}" (hgetall db key !! "data")) with
      | Ok (Naive t), Ok (JObj fields) =>
          bool_decide (in_period t)
          && contains "payment_completed" (default "" (hgetall db key !! "type"))
          && match assoc_get "amount" fields with
             | Some (JStr a) =>
                 match float_of_string a with
                 | Raise ValueError => true
                 | _ => false
                 end
             | _ => false
             end
      | _, _ => false
      end
  end.

End WithStore.

(** The key under which an interaction's content is tallied, if any *)
Definition content_key_of (i : interaction) : option string :=
  match idata i with
  | JObj fields =>
      match assoc_get "content" fields with
      | Some (JStr s) => if String.eqb s "" then None else Some (content_key s)
      | _ => None
      end
  | _ => None
  end.

(** The keys tallied for a list of interactions, in order *)
Fixpoint content_keys (interactions : list interaction) : list string :=
  match interactions with
  | [] => []
  | i :: rest =>
      match content_key_of i with
      | Some k => k :: content_keys rest
      | None => content_keys rest
      end
  end.

Definition has_content_key (k : string) (i : interaction) : bool :=
  match content_key_of i with
  | Some k' => String.eqb k k'
  | None => false
  end.

Definition sum_amounts (events : list conversion_event) : Q :=
  fold_left Qplus (map ce_amount events) 0%Q.

(** What the sales loop keeps true of its dict *)
Definition sales_invariant (sd : sales_data) : Prop :=
  (length (conversion_events sd) <= total_sales sd)%nat /\
  total_revenue sd = sum_amounts (conversion_events sd) /\
  orders_completed sd = 0%nat /\
  Forall (fun ev => ce_type ev = "sale_completed") (conversion_events sd).

End ScanNotions.

(** A second concrete library: its reader knows payloads with amounts
    that are text. *)
Module Demo2.

Import Datetime.

Definition documents : list json :=
  [JObj [];
   JObj [("amount", JStr "ten")];
   JObj [("amount", JStr "12.50")];
   JObj [("content", JStr "hello")]].

Definition payloads : list (string * json) :=
  map (fun j => (Demo.dumps j, j)) documents.

Definition loads (s : string) : result json :=
  match assoc_get s payloads with
  | Some j => Ok j
  | None => Raise ValueError
  end.

#[local] Instance lib : PyLib := {|
  fromisoformat := Demo.parse_iso;
  json_loads := loads;
  json_dumps := Demo.dumps;
  float_of_string := Demo.parse_float;
  py_str := Demo.to_str;
  format_1f := Demo.one_decimal
|}.

(** Two completed payments on 2024-01-15, the first with an amount that
    is not a number; and two interactions, the second with a timestamp
    that carries an offset. *)
Definition store : gmap string rvalue :=
  list_to_map
    [("payment_events:paypal",
      RList ["payment_event:paypal:2"; "payment_event:paypal:1"]);
     ("payment_event:paypal:1",
      Demo.record [("type", "payment_completed");
                   ("timestamp", "2024-01-15T11:00:00");
                   ("data", Demo.dumps (JObj [("amount", JStr "ten")]))]);
     ("payment_event:paypal:2",
      Demo.record [("type", "payment_completed");
                   ("timestamp", "2024-01-15T12:00:00");
                   ("data", Demo.dumps (JObj [("amount", JStr "12.50")]))]);
     ("interactions:twitter",
      RList ["interaction:twitter:3"; "interaction:twitter:2";
             "interaction:twitter:1"]);
     ("interaction:twitter:1",
      Demo.record [("type", "post_tweet");
                   ("timestamp", "2024-01-15T08:00:00");
                   ("data", Demo.dumps (JObj [("content", JStr "hello")]))]);
     ("interaction:twitter:2",
      Demo.record [("type", "like_tweet");
                   ("timestamp", "not a time"); ("data", "{}")]);
     ("interaction:twitter:3",
      Demo.record [("type", "get_mentions");
                   ("timestamp", "2024-01-15T09:00:00"); ("data", "{oops")]);
     ("interactions:mastodon",
      RList ["interaction:mastodon:2"; "interaction:mastodon:1"]);
     ("interaction:mastodon:1",
      Demo.record [("type", "post_status");
                   ("timestamp", "2024-01-15T08:00:00");
                   ("data", Demo.dumps (JObj [("content", JStr "hello")]))]);
     ("interaction:mastodon:2",
      Demo.record [("type", "boost_status");
                   ("timestamp", "2024-01-15T09:00:00Z"); ("data", "{}")])].

End Demo2.

(** ** analytics.py: the report composer *)

Module Report.

Import Datetime Analytics.

Record summary : Type := {
  total_social_interactions : nat;
  total_posts_created : nat;
  summary_total_sales : nat;       (* "total_sales" *)
  summary_total_revenue : Q;       (* "total_revenue" *)
  summary_total_leads : nat;       (* "total_leads" *)
  summary_conversion_rate : Q      (* "conversion_rate" *)
}.

Record performance_insight : Type := {
  pi_type : string;       (* "type" *)
  pi_message : string;    (* "message" *)
  pi_metric : Q           (* "metric" *)
}.

(** The report dict. A reducer that failed leaves [{}], here [None]. *)
Record report : Type := {
  period : string;
  start_date : string;
  end_date : string;
  generated_at : string;
  report_summary : summary;                          (* "summary" *)
  social_media : list (string * option engagement);
  sales : option sales_data;
  leads : option lead_metrics;
  performance_insights : list performance_insight
}.

(** Formatting and printing done by the Python library *)
Class ReportLib : Type := {
  (** [format(x, ".2f")] *)
  format_2f : Q -> string;
  (** [str.title] *)
  title : string -> string;
  (** [strftime('%Y-%m-%d')] *)
  strftime_date : datetime -> string;
  (** [datetime.isoformat] *)
  isoformat : datetime -> string;
  (** [json.dumps(report)] *)
  dumps_report : report -> string
}.

Definition platforms : list string := ["twitter"; "mastodon"; "discord"].

(** [metrics.get("total_interactions", 0)] *)
Definition interactions_of (metrics : option engagement) : nat :=
  match metrics with Some m => total_interactions m | None => 0%nat end.

(** [metrics.get("posts_created", 0)] *)
Definition posts_of (metrics : option engagement) : nat :=
  match metrics with Some m => posts_created m | None => 0%nat end.

(** [max(platforms, key=...)]: the first platform with the largest key.
    [best] is the best platform so far. *)
Fixpoint max_by (key : string -> nat) (best : string) (rest : list string)
  : string :=
  match rest with
  | [] => best
  | p :: rest' =>
      if (key best <? key p)%nat then max_by key p rest'
      else max_by key best rest'
  end.

Definition positive (q : Q) : bool := negb (Qle_bool q 0).

Section Composer.
Context `{PyLib} `{ReportLib}.

Definition revenue_insight (sales_data : option sales_data)
  : list performance_insight :=
  match sales_data with
  | Some sd =>
      if positive (total_revenue sd) then
        [{| pi_type := "revenue";
            pi_message :=
              "Generated $" +:+ format_2f (total_revenue sd)
              +:+ " in revenue with " +:+ pretty (Z.of_nat (total_sales sd))
              +:+ " completed sales";
            pi_metric := total_revenue sd |}]
      else []
  | None => []
  end.

Definition engagement_insight (social : list (string * option engagement))
  : list performance_insight :=
  let count := fun p =>
    interactions_of (match assoc_get p social with Some m => m | None => None end) in
  let best_platform := max_by count "twitter" ["mastodon"; "discord"] in
  let best_platform_interactions := count best_platform in
  if (0 <? best_platform_interactions)%nat then
    [{| pi_type := "engagement";
        pi_message :=
          title best_platform +:+ " had the highest engagement with "
          +:+ pretty (Z.of_nat best_platform_interactions) +:+ " interactions";
        pi_metric := inject_Z (Z.of_nat best_platform_interactions) |}]
  else [].

Definition conversion_insight (lead_metrics : option lead_metrics)
  : list performance_insight :=
  match lead_metrics with
  | Some lm =>
      if positive (lead_conversion_rate lm) then
        [{| pi_type := "conversion";
            pi_message :=
              "Lead to sale conversion rate: "
              +:+ format_1f (lead_conversion_rate lm) +:+ "%";
            pi_metric := lead_conversion_rate lm |}]
      else []
  | None => []
  end.

Definition report_key (period : string) (start_date : datetime) : string :=
  "analytics_report:" +:+ period +:+ ":" +:+ strftime_date start_date.

(** [generate_report(period)]. [now] is the clock reading that fixes the
    window and [generated] the one stored as [generated_at]. The first
    component is the returned report, [None] for the empty dict of the
    [except] branch. The expiry given to [db.set] runs in real time and
    is left out. *)
Definition generate_report (period : string) (now generated : datetime)
    (db : gmap string rvalue) : option report * gmap string rvalue :=
  match _get_date_range period now with
  | Raise _ => (None, db)
  | Ok (start, stop) =>
      let social :=
        map (fun platform =>
               (platform,
                _get_engagement_metrics platform
                  (_get_interactions_in_period db platform start stop)))
            platforms in
      let sales_data := _get_sales_data_in_period db start stop in
      let lead_metrics := _get_lead_metrics db start stop in
      let rep :=
        {| period := period;
           start_date := isoformat start;
           end_date := isoformat stop;
           generated_at := isoformat generated;
           report_summary :=
             {| total_social_interactions :=
                  list_sum (map (fun entry => interactions_of (snd entry)) social);
                total_posts_created :=
                  list_sum (map (fun entry => posts_of (snd entry)) social);
                summary_total_sales :=
                  match sales_data with Some sd => total_sales sd | None => 0%nat end;
                summary_total_revenue :=
                  match sales_data with Some sd => total_revenue sd | None => 0%Q end;
                summary_total_leads :=
                  match lead_metrics with Some lm => total_leads lm | None => 0%nat end;
                summary_conversion_rate :=
                  match lead_metrics with
                  | Some lm => lead_conversion_rate lm
                  | None => 0%Q
                  end |};
           social_media := social;
           sales := sales_data;
           leads := lead_metrics;
           performance_insights :=
             (revenue_insight sales_data ++ engagement_insight social
              ++ conversion_insight lead_metrics)%list |} in
      (Some rep, db_set db (report_key period start) (dumps_report rep))
  end.

End Composer.

End Report.

(** ** Notions for the report *)

Module ReportNotions.

Import Datetime Analytics Report.

(** The interaction count the report holds for a platform *)
Definition platform_count (social : list (string * option engagement))
    (p : string) : nat :=
  interactions_of (match assoc_get p social with Some m => m | None => None end).

(** [best] comes first among the entries of [l] with the largest key. *)
Definition first_maximal (key : string -> nat) (l : list string) (best : string)
  : Prop :=
  exists before after,
    l = (before ++ best :: after)%list /\
    (forall p, In p before -> (key p < key best)%nat) /\
    (forall p, In p after -> (key p <= key best)%nat).

End ReportNotions.

(** A printer for the examples of the report *)
Module DemoReport.

Import Datetime Report.

Definition two (n : Z) : string :=
  if n <? 10 then "0" +:+ pretty n else pretty n.

Definition date_text (t : datetime) : string :=
  pretty (year t) +:+ "-" +:+ two (month t) +:+ "-" +:+ two (day t).

Definition two_decimals (q : Q) : string :=
  let cents := (Qnum q * 100) / Zpos (Qden q) in
  pretty (cents / 100) +:+ "." +:+ two (cents mod 100).

#[local] Instance lib : ReportLib := {|
  format_2f := two_decimals;
  title := fun s => s;
  strftime_date := date_text;
  isoformat := fun t => date_text t +:+ "T" +:+ two (hour t) +:+ ":"
                        +:+ two (minute t) +:+ ":" +:+ two (second t);
  dumps_report := fun r => "report " +:+ period r +:+ " " +:+ start_date r
|}.

Definition noon : datetime := mk 2024 1 15 12 0 0 0.

(** One interaction on twitter and two each on mastodon and discord, all
    on 2024-01-15, beside the sales records of [Demo.store]. *)
Definition store : gmap string rvalue :=
  list_to_map
    [("interactions:twitter", RList ["interaction:twitter:1"]);
     ("interaction:twitter:1",
      Demo.record [("type", "post_tweet");
                   ("timestamp", "2024-01-15T08:00:00"); ("data", "{}")]);
     ("interactions:mastodon",
      RList ["interaction:mastodon:2"; "interaction:mastodon:1"]);
     ("interaction:mastodon:1",
      Demo.record [("type", "post_status");
                   ("timestamp", "2024-01-15T08:00:00"); ("data", "{}")]);
     ("interaction:mastodon:2",
      Demo.record [("type", "reply_status");
                   ("timestamp", "2024-01-15T09:00:00"); ("data", "{}")]);
     ("interactions:discord",
      RList ["interaction:discord:2"; "interaction:discord:1"]);
     ("interaction:discord:1",
      Demo.record [("type", "send_message");
                   ("timestamp", "2024-01-15T08:30:00"); ("data", "{}")]);
     ("interaction:discord:2",
      Demo.record [("type", "send_message");
                   ("timestamp", "2024-01-15T09:30:00"); ("data", "{}")])]
  ∪ Demo.store.

End DemoReport.

(** ** analytics.py: historical trends *)

Module Trends.

Import Datetime Analytics Report.

Record daily_metric : Type := {
  dm_date : string;     (* "date" *)
  dm_revenue : Q;       (* "revenue" *)
  dm_sales : nat;       (* "sales" *)
  dm_leads : nat        (* "leads" *)
}.

Record trends : Type := {
  period_days : Z;
  daily_metrics : list daily_metric;
  revenue_trend : string;
  engagement_trend : string;
  lead_trend : string
}.

(** [sum(d["revenue"] for d in week)] *)
Definition revenue_sum (week : list daily_metric) : Q :=
  fold_left Qplus (map dm_revenue week) 0%Q.

Definition Qltb (a b : Q) : bool := negb (Qle_bool b a).

(** The analysis after the loop. The factors [1.1] and [0.9] are the
    rationals 11/10 and 9/10, and the products are exact. *)
Definition analyze_trend (metrics : list daily_metric) : string :=
  if (7 <=? length metrics)%nat then
    let recent_week := firstn 7 metrics in
    let previous_week :=
      if (14 <=? length metrics)%nat then firstn 7 (skipn 7 metrics) else [] in
    match previous_week with
    | [] => "stable"
    | _ :: _ =>
        let recent_revenue := revenue_sum recent_week in
        let previous_revenue := revenue_sum previous_week in
        if Qltb (previous_revenue * (11 # 10)) recent_revenue then "increasing"
        else if Qltb recent_revenue (previous_revenue * (9 # 10)) then "decreasing"
        else "stable"
    end
  else "stable".

Section Historian.
Context `{PyLib} `{ReportLib}.
Variable db : gmap string rvalue.

(** The body of the loop for day [i] back, with the clock reading [now]
    of that turn. *)
Definition daily_metric_of (now : datetime) (i : Z) : result daily_metric :=
  date ← add_days now (- i);
  start_date ← replace_midnight date;
  end_date ← add_days start_date 1;
  let sales_data := _get_sales_data_in_period db start_date end_date in
  let lead_data := _get_lead_metrics db start_date end_date in
  Ok {| dm_date := strftime_date start_date;
        dm_revenue :=
          match sales_data with Some sd => total_revenue sd | None => 0%Q end;
        dm_sales :=
          match sales_data with Some sd => total_sales sd | None => 0%nat end;
        dm_leads :=
          match lead_data with Some lm => total_leads lm | None => 0%nat end |}.

(** [for i in range(days)], from turn [i] on; [clock i] is what
    [datetime.utcnow()] reads in turn [i]. *)
Fixpoint collect_days (clock : nat -> datetime) (i turns : nat)
    (acc : list daily_metric) : result (list daily_metric) :=
  match turns with
  | O => Ok acc
  | S turns' =>
      daily_metric ← daily_metric_of (clock i) (Z.of_nat i);
      collect_days clock (S i) turns' (acc ++ [daily_metric])
  end.

(** [get_historical_trends(days)]; [None] is the empty dict of the
    [except] branch. *)
Definition get_historical_trends (clock : nat -> datetime) (days : Z)
  : option trends :=
  match collect_days clock 0 (Z.to_nat days) [] with
  | Ok metrics =>
      Some {| period_days := days;
              daily_metrics := metrics;
              revenue_trend := analyze_trend metrics;
              engagement_trend := "stable";
              lead_trend := "stable" |}
  | Raise _ => None
  end.

End Historian.

End Trends.

(** ** Notions for the strings of the insights *)

Module TextNotions.

(** Whether the character [c] occurs in [s] *)
Fixpoint has_char (c : ascii) (s : string) : bool :=
  match s with
  | EmptyString => false
  | String c' rest => Ascii.eqb c c' || has_char c rest
  end.

Definition is_digit (c : ascii) : bool :=
  (48 <=? nat_of_ascii c)%nat && (nat_of_ascii c <=? 57)%nat.

Fixpoint digits_only (s : string) : bool :=
  match s with
  | EmptyString => true
  | String c rest => is_digit c && digits_only rest
  end.

(** [l] with [suffix] appended to its last element *)
Fixpoint suffix_last (suffix : string) (l : list string) : list string :=
  match l with
  | [] => []
  | [x] => [x +:+ suffix]
  | x :: rest => x :: suffix_last suffix rest
  end.

(** No occurrence of [sep] starts inside [a] when [sep] follows [a]. *)
Fixpoint clean_prefix (sep a : string) : bool :=
  match a with
  | EmptyString => true
  | String _ rest => negb (String.prefix sep (a +:+ sep)) && clean_prefix sep rest
  end.

End TextNotions.

(** ** auto_learning.py: the status of the learning module *)

Module LearningStatus.

Import AutoLearning.

(** The entries of the status dict that are not constants *)
Record learning_status : Type := {
  last_learning_cycle : json;
  total_cycles : json;
  patterns_learned : nat;
  recent_insights_count : nat;
  high_priority_insights : nat
}.

(** [len(x)] *)
Definition json_len (x : json) : result nat :=
  match x with
  | JStr s => Ok (String.length s)
  | JArr items => Ok (length items)
  | JObj fields => Ok (length fields)
  | _ => Raise TypeError
  end.

(** [for i in x] *)
Definition json_iter (x : json) : result (list json) :=
  match x with
  | JStr s => Ok (map JStr (chars s))
  | JArr items => Ok items
  | JObj fields => Ok (map (fun e => JStr (fst e)) fields)
  | _ => Raise TypeError
  end.

(** [i.get("priority") == "high"] *)
Definition priority_is_high (i : json) : result bool :=
  p ← dict_get_none i "priority";
  Ok (json_is_str "high" p).

(** [[i for i in l if f(i)]] *)
Fixpoint filter_result {A : Type} (f : A -> result bool) (l : list A)
  : result (list A) :=
  match l with
  | [] => Ok []
  | a :: rest =>
      keep ← f a;
      kept ← filter_result f rest;
      Ok (if keep : bool then a :: kept else kept)
  end.

Definition status_body (patterns : json) : result learning_status :=
  last ← dict_get patterns "last_analysis" (JStr "Never");
  total ← dict_get patterns "cycle_count" (JInt 0);
  learned ← json_len patterns;
  recent_insights ← dict_get patterns "generated_insights" (JArr []);
  count ← json_len recent_insights;
  items ← json_iter recent_insights;
  high ← filter_result priority_is_high items;
  Ok {| last_learning_cycle := last; total_cycles := total;
        patterns_learned := learned; recent_insights_count := count;
        high_priority_insights := length high |}.

(** [get_learning_status]; [Raise e] is the dict [{"error": str(e)}]. *)
Definition get_learning_status (m : learning_module) : result learning_status :=
  status_body (learning_patterns m).

End LearningStatus.

Module StatusNotions.

(** The keys of a patterns dict, in order *)
Definition pattern_keys (patterns : json) : list string :=
  match patterns with
  | JObj fields => map fst fields
  | _ => []
  end.

(** The four keys a learning cycle sets *)
Definition cycle_keys : list string :=
  ["last_analysis"; "analysis_results"; "generated_insights"; "cycle_count"].

End StatusNotions.

(** A library whose reader decodes the patterns document that the first
    cycle on [Demo.store] writes *)
Module DemoRestart.

Import AutoLearning.

Definition first_cycle : cycle_result * learning_module :=
  @run_learning_cycle Demo.lib Demo.analyses "t0" "t1" Demo.fresh_module.

Definition patterns : json := Eval vm_compute in learning_patterns (snd first_cycle).

Definition loads (s : string) : result json :=
  if String.eqb s (Demo.dumps patterns) then Ok patterns else Demo.loads s.

#[local] Instance lib : PyLib := {|
  fromisoformat := Demo.parse_iso;
  json_loads := loads;
  json_dumps := Demo.dumps;
  float_of_string := Demo.parse_float;
  py_str := Demo.to_str;
  format_1f := Demo.one_decimal
|}.

End DemoRestart.

(** ** db/redis_client.py: the local storage fallback

    One file per key, holding the value and its expiry. The files of
    the storage directory are a map from file names to what
    [json.loads] reads back from them; a value is what [json.dumps]
    keeps of it. Failures of the file system are left out. *)

Module LocalStorageFallback.

(** The dict written to a file *)
Record entry : Type := {
  value : json;
  expires_at : option Q
}.

(** [s.replace(a, b)] for single characters *)
Fixpoint replace_char (a b : ascii) (s : string) : string :=
  match s with
  | EmptyString => EmptyString
  | String c rest =>
      String (if Ascii.eqb c a then b else c) (replace_char a b rest)
  end.

Definition safe_key (key : string) : string :=
  replace_char "/" "_" (replace_char ":" "_" key).

(** The name of the file inside the storage directory *)
Definition _get_file_path (key : string) : string := safe_key key +:+ ".json".

(** [int(x)] of a stored value; the reading of a string is the
    library's. *)
Class StorageLib : Type := {
  int_of_string : string -> result Z
}.

(** [set(key, value, ex)] at clock reading [now] *)
Definition set (fs : gmap string entry) (key : string) (v : json)
    (ex : option Z) (now : Q) : gmap string entry :=
  <[_get_file_path key :=
      {| value := v;
         expires_at := option_map (fun seconds => (now + inject_Z seconds)%Q) ex |}]>
    fs.

(** [delete(key)]: the number of files removed *)
Definition delete (fs : gmap string entry) (key : string)
  : nat * gmap string entry :=
  match fs !! _get_file_path key with
  | Some _ => (1%nat, base.delete (_get_file_path key) fs)
  | None => (0%nat, fs)
  end.

(** [data.get("expires_at") and now > data["expires_at"]] *)
Definition expired (data : entry) (now : Q) : bool :=
  match expires_at data with
  | Some t => negb (Qeq_bool t 0) && negb (Qle_bool now t)
  | None => false
  end.

(** [get(key)]; [JNull] is [None]. *)
Definition get (fs : gmap string entry) (key : string) (now : Q)
  : json * gmap string entry :=
  match fs !! _get_file_path key with
  | None => (JNull, fs)
  | Some data =>
      if expired data now then (JNull, snd (delete fs key))
      else (value data, fs)
  end.

Definition hgetall (fs : gmap string entry) (key : string) (now : Q)
  : list (string * json) * gmap string entry :=
  let '(hash_data, fs) := get fs key now in
  match hash_data with
  | JObj fields => (fields, fs)
  | _ => ([], fs)
  end.

(** [existing.update(mapping)] *)
Definition update (existing mapping : list (string * json))
  : list (string * json) :=
  fold_left (fun d kv => assoc_set (fst kv) (snd kv) d) mapping existing.

Definition hset (fs : gmap string entry) (key : string)
    (mapping : list (string * json)) (now : Q) : nat * gmap string entry :=
  let '(existing, fs) := hgetall fs key now in
  (length mapping, set fs key (JObj (update existing mapping)) None now).

Definition hget (fs : gmap string entry) (key field : string) (now : Q)
  : json * gmap string entry :=
  let '(hash_data, fs) := get fs key now in
  match hash_data with
  | JObj ((_ :: _) as fields) =>
      (match assoc_get field fields with Some v => v | None => JNull end, fs)
  | _ => (JNull, fs)
  end.

(** [int(current)] *)
Definition to_int `{StorageLib} (current : json) : result Z :=
  match current with
  | JStr s => int_of_string s
  | JInt n => Ok n
  | JBool b => Ok (if b then 1 else 0)
  | JFloat q => Ok (Z.quot (Qnum q) (Zpos (Qden q)))
  | _ => Raise TypeError
  end.

Definition incr `{StorageLib} (fs : gmap string entry) (key : string) (now : Q)
  : Z * gmap string entry :=
  let '(current, fs) := get fs key now in
  match (if truthy current then to_int current else Ok 0) with
  | Ok n => (n + 1, set fs key (JStr (pretty (n + 1))) None now)
  | Raise _ => (0, fs)
  end.

Definition lpush (fs : gmap string entry) (key : string) (values : list json)
    (now : Q) : nat * gmap string entry :=
  let '(current, fs) := get fs key now in
  let pushed :=
    match current with
    | JArr ((_ :: _) as items) => (values ++ items)%list
    | _ => values
    end in
  (length pushed, set fs key (JArr pushed) None now).

(** An index of a slice, brought into [0 .. len] *)
Definition clamp (len i : Z) : Z :=
  if i <? 0 then Z.max (i + len) 0 else Z.min i len.

(** [l[start:stop]] *)
Definition slice {A : Type} (l : list A) (start stop : Z) : list A :=
  let len := Z.of_nat (length l) in
  firstn (Z.to_nat (clamp len stop - clamp len start))
    (skipn (Z.to_nat (clamp len start)) l).

(** [l[start:]] *)
Definition slice_from {A : Type} (l : list A) (start : Z) : list A :=
  skipn (Z.to_nat (clamp (Z.of_nat (length l)) start)) l.

Definition lrange (fs : gmap string entry) (key : string) (start stop : Z)
    (now : Q) : list json * gmap string entry :=
  let '(current, fs) := get fs key now in
  match current with
  | JArr ((_ :: _) as items) =>
      (if stop =? -1 then slice_from items start else slice items start (stop + 1),
       fs)
  | _ => ([], fs)
  end.

End LocalStorageFallback.

(** A reader of decimal numbers for the examples of the storage *)
Module DemoStorage.

#[local] Instance lib : LocalStorageFallback.StorageLib := {|
  LocalStorageFallback.int_of_string := fun s =>
    match Demo.number 0 s with
    | Some n => if String.eqb s "" then Raise ValueError else Ok n
    | None => Raise ValueError
    end
|}.

End DemoStorage.

(** * Properties *)

(** ** The period windower *)

Module WindowerFacts.

Import Datetime Analytics.

Example date_range_daily :
  _get_date_range "daily" (mk 2024 2 28 13 5 7 9)
  = Ok (mk 2024 2 28 0 0 0 0, mk 2024 2 29 0 0 0 0).
Proof. reflexivity. Qed.

Example date_range_weekly :
  _get_date_range "weekly" (mk 2026 11 3 13 5 7 9)
  = Ok (mk 2026 11 2 0 0 0 0, mk 2026 11 9 0 0 0 0).
Proof. reflexivity. Qed.

Example date_range_monthly :
  _get_date_range "monthly" (mk 2023 12 31 23 59 59 5)
  = Ok (mk 2023 12 1 0 0 0 0, mk 2024 1 1 0 0 0 0).
Proof. reflexivity. Qed.

Example date_range_last_day :
  _get_date_range "daily" (mk 9999 12 31 8 0 0 0) = Raise OverflowError.
Proof. reflexivity. Qed.

Lemma validb_spec t : validb t = true <-> valid t.
Proof.
  unfold validb, valid.
  rewrite !andb_true_iff, !Z.leb_le, !Z.ltb_lt. tauto.
Qed.

Lemma make_valid y m d h mi s us :
  valid (mk y m d h mi s us) -> make y m d h mi s us = Ok (mk y m d h mi s us).
Proof.
  intros Hv. unfold make. apply validb_spec in Hv. now rewrite Hv.
Qed.

Lemma days_in_month_bounds y m : 28 <= days_in_month y m <= 31.
Proof.
  unfold days_in_month.
  repeat match goal with |- context [if ?b then _ else _] => destruct b end; lia.
Qed.

Lemma replace_midnight_valid t :
  valid t ->
  replace_midnight t = Ok (mk (year t) (month t) (day t) 0 0 0 0).
Proof.
  intros Hv. apply make_valid. unfold valid in *; simpl. lia.
Qed.

Lemma is_leap_true y : is_leap y = true -> y mod 4 = 0.
Proof.
  unfold is_leap. rewrite andb_true_iff, Z.eqb_eq. tauto.
Qed.

(** Day numbers stay inside the calendar, and only the last day of year
    9999 reaches the end of it. *)
Lemma toordinal_bounds t :
  valid t ->
  0 < toordinal t <= MAXORDINAL /\
  (toordinal t = MAXORDINAL -> year t = 9999 /\ month t = 12 /\ day t = 31).
Proof.
  destruct t as [y m d h mi s us].
  unfold valid, toordinal, ymd2ord, days_before_year, days_before_month,
    days_in_month, MINYEAR, MAXYEAR, MAXORDINAL; simpl.
  intros (Hy & Hm & Hd & _).
  pose proof (is_leap_true y) as Hleap.
  assert (Hcases : m = 1 \/ m = 2 \/ m = 3 \/ m = 4 \/ m = 5 \/ m = 6 \/ m = 7
                   \/ m = 8 \/ m = 9 \/ m = 10 \/ m = 11 \/ m = 12) by lia.
  revert Hd.
  destruct (is_leap y);
    [specialize (Hleap eq_refl) | clear Hleap];
    repeat (destruct Hcases as [Hc | Hcases]; [subst m |]); try subst m;
    simpl; intros Hd; Z.to_euclidean_division_equations; lia.
Qed.

Lemma add_one_day_ok t :
  valid t -> toordinal t < MAXORDINAL -> is_ok (add_days t 1) = true.
Proof.
  intros Hv Hlt. destruct (toordinal_bounds t Hv) as [[Hpos _] _].
  unfold add_days.
  replace ((0 <? toordinal t + 1) && (toordinal t + 1 <=? MAXORDINAL))
    with true.
  - now destruct (ord2ymd (toordinal t + 1)) as [[? ?] ?].
  - symmetry. apply andb_true_iff. rewrite Z.ltb_lt, Z.leb_le. lia.
Qed.

(** C5. For every [now] in December the monthly window starts on the
    first of that December at midnight and ends on the first of January
    of the next year: [end_date] has year [now.year + 1] and month 1.
    [now] is a reading of the clock, a valid [datetime] whose next year
    exists ([now.year < MAXYEAR]). *)
Theorem monthly_december_rollover (now : datetime) :
  valid now -> month now = 12 -> year now < MAXYEAR ->
  exists start_date end_date,
    _get_date_range "monthly" now = Ok (start_date, end_date) /\
    start_date = mk (year now) 12 1 0 0 0 0 /\
    year end_date = year now + 1 /\ month end_date = 1 /\
    end_date = mk (year now + 1) 1 1 0 0 0 0.
Proof.
  intros Hv Hm Hy.
  exists (mk (year now) 12 1 0 0 0 0), (mk (year now + 1) 1 1 0 0 0 0).
  split; [| repeat split].
  unfold _get_date_range; simpl.
  unfold replace_first_midnight. rewrite Hm.
  rewrite make_valid.
  - simpl. unfold replace_year_month; simpl. rewrite make_valid; [reflexivity |].
    unfold valid, MINYEAR, MAXYEAR in *; simpl. unfold days_in_month; simpl. lia.
  - unfold valid, MINYEAR, MAXYEAR in *; simpl. unfold days_in_month; simpl. lia.
Qed.

Lemma monthly_december_rollover_witness :
  exists start_date end_date,
    _get_date_range "monthly" (mk 2025 12 24 18 30 0 0)
      = Ok (start_date, end_date) /\
    start_date = mk 2025 12 1 0 0 0 0 /\
    year end_date = 2026 /\ month end_date = 1 /\
    end_date = mk 2026 1 1 0 0 0 0.
Proof.
  apply (monthly_december_rollover (mk 2025 12 24 18 30 0 0)).
  - apply validb_spec. reflexivity.
  - reflexivity.
  - unfold MAXYEAR; simpl. lia.
Defined.

(** C6. A period name other than daily, weekly and monthly gives what
    "daily" gives, for every [now]; and no error is raised: the window
    is returned for every valid [now] before the last day of the
    calendar, where [start + timedelta(days=1)] exists. *)
Theorem unknown_period_is_daily (period : string) (now : datetime) :
  period <> "daily" -> period <> "weekly" -> period <> "monthly" ->
  _get_date_range period now = _get_date_range "daily" now /\
  (valid now ->
   (year now, month now, day now) <> (9999, 12, 31) ->
   exists start_date end_date,
     _get_date_range period now = Ok (start_date, end_date) /\
     start_date = mk (year now) (month now) (day now) 0 0 0 0).
Proof.
  intros Hd Hw Hm.
  assert (Heq : _get_date_range period now = _get_date_range "daily" now).
  { unfold _get_date_range.
    apply String.eqb_neq in Hd, Hw, Hm. rewrite Hd, Hw, Hm. reflexivity. }
  split; [exact Heq |].
  intros Hv Hlast. rewrite Heq. unfold _get_date_range; simpl.
  rewrite (replace_midnight_valid now Hv); simpl.
  set (start_date := mk (year now) (month now) (day now) 0 0 0 0).
  assert (Hvs : valid start_date).
  { unfold valid in *; simpl. lia. }
  assert (Hord : toordinal start_date < MAXORDINAL).
  { destruct (toordinal_bounds start_date Hvs) as [[_ Hle] Hmax].
    destruct (Z.eq_dec (toordinal start_date) MAXORDINAL) as [E | NE]; [| lia].
    destruct (Hmax E) as (Hy' & Hm' & Hd'). simpl in *.
    exfalso. apply Hlast. congruence. }
  pose proof (add_one_day_ok start_date Hvs Hord) as Hok.
  destruct (add_days start_date 1) as [end_date | e]; [| discriminate].
  simpl. exists start_date, end_date. split; reflexivity.
Qed.

Lemma unknown_period_is_daily_witness :
  _get_date_range "hourly" (mk 2026 11 3 14 22 5 0)
    = _get_date_range "daily" (mk 2026 11 3 14 22 5 0) /\
  exists start_date end_date,
    _get_date_range "hourly" (mk 2026 11 3 14 22 5 0)
      = Ok (start_date, end_date) /\
    start_date = mk 2026 11 3 0 0 0 0.
Proof.
  destruct (unknown_period_is_daily "hourly" (mk 2026 11 3 14 22 5 0))
    as [Heq Hok]; [discriminate | discriminate | discriminate |].
  split; [exact Heq |].
  apply Hok.
  - apply validb_spec. reflexivity.
  - discriminate.
Defined.

End WindowerFacts.

(** ** The engagement reducer *)

Module EngagementFacts.

Import Datetime Analytics Notions.

Example engagement_example :
  _get_engagement_metrics "twitter"
    [{| itype := "post"; idata := JObj [] |};
     {| itype := "post"; idata := JObj [("content", JStr "hello")] |};
     {| itype := "reply"; idata := JObj [] |};
     {| itype := "like"; idata := JObj [] |}]
  = Some {| total_interactions := 4; posts_created := 2; replies_sent := 1;
            mentions_received := 0; likes_given := 1; shares_made := 0;
            engagement_rate := (2 # 2) * 100; response_time_avg := 0;
            top_performing_content := [("hello", 1%nat)] |}.
Proof. reflexivity. Qed.

Lemma count_type_tally c t m :
  tally c (count_type t m)
  = (tally c m + if bool_decide (first_match t = Some c) then 1 else 0)%nat.
Proof.
  unfold count_type, first_match, categories, selects; simpl.
  destruct (contains "post" t || contains "tweet" t || contains "status" t);
    [destruct c; simpl; lia |].
  destruct (contains "reply" t); [destruct c; simpl; lia |].
  destruct (contains "mention" t); [destruct c; simpl; lia |].
  destruct (contains "like" t || contains "favourite" t);
    [destruct c; simpl; lia |].
  destruct (contains "boost" t || contains "retweet" t);
    destruct c; simpl; lia.
Qed.

Lemma count_type_total t m :
  total_interactions (count_type t m) = total_interactions m.
Proof.
  unfold count_type.
  repeat match goal with |- context [if ?b then _ else _] => destruct b end;
    reflexivity.
Qed.

Lemma count_type_rate t m : engagement_rate (count_type t m) = engagement_rate m.
Proof.
  unfold count_type.
  repeat match goal with |- context [if ?b then _ else _] => destruct b end;
    reflexivity.
Qed.

(** One record moves the five counters together by at most one. *)
Lemma count_type_tallied t m :
  (tallied m <= tallied (count_type t m) <= tallied m + 1)%nat.
Proof.
  unfold count_type, tallied.
  repeat match goal with |- context [if ?b then _ else _] => destruct b end;
    simpl; lia.
Qed.

Lemma scan_interactions_ok l : forall m cp m' cp',
  scan_interactions l m cp = Ok (m', cp') ->
  total_interactions m' = total_interactions m /\
  engagement_rate m' = engagement_rate m /\
  (forall c, tally c m'
             = (tally c m + length (List.filter (classified_as c) l))%nat) /\
  (tallied m' <= tallied m + length l)%nat.
Proof.
  induction l as [| i rest IH]; intros m cp m' cp' Hscan; simpl in Hscan.
  - injection Hscan as <- <-. repeat split; intros; simpl; lia.
  - destruct (track_content (idata i) cp) as [cp1 | e]; [| discriminate].
    simpl in Hscan. apply IH in Hscan as (Ht & Hr & Hc & Hs).
    rewrite count_type_total in Ht. rewrite count_type_rate in Hr.
    repeat split; auto.
    + intros c. rewrite Hc, count_type_tally. simpl.
      unfold classified_as at 2.
      destruct (bool_decide (first_match (itype i) = Some c)); simpl; lia.
    + pose proof (count_type_tallied (itype i) m). simpl. lia.
Qed.

(** The scan raises nothing but the errors of the payload access. *)
Lemma scan_interactions_raise l : forall m cp e,
  scan_interactions l m cp = Raise e -> e = AttributeError \/ e = TypeError.
Proof.
  induction l as [| i rest IH]; intros m cp e Hscan; simpl in Hscan;
    [discriminate |].
  destruct (track_content (idata i) cp) as [cp1 | e1] eqn:Htc; simpl in Hscan.
  - eauto.
  - injection Hscan as <-. unfold track_content, dict_get in Htc.
    destruct (idata i); simpl in Htc; try (injection Htc as <-; auto).
    destruct (truthy _); [| discriminate].
    destruct (match assoc_get "content" fields with
              | Some v => v | None => JStr "" end);
      try discriminate; injection Htc as <-; auto.
Qed.

Lemma track_content_plain data cp :
  plain_content data -> is_ok (track_content data cp) = true.
Proof.
  intros (fields & -> & Hc). unfold track_content; simpl.
  destruct (assoc_get "content" fields) as [j |]; simpl.
  - destruct j; simpl in *; try (rewrite Hc; reflexivity);
      try (subst; reflexivity);
      repeat match goal with
             | |- context [if ?b then _ else _] => destruct b
             | |- context [match ?l with [] => _ | _ :: _ => _ end] => destruct l
             end; try reflexivity; try discriminate.
  - reflexivity.
Qed.

Lemma scan_interactions_plain l : forall m cp,
  Forall (fun i => plain_content (idata i)) l ->
  is_ok (scan_interactions l m cp) = true.
Proof.
  induction l as [| i rest IH]; intros m cp Hall; simpl; [reflexivity |].
  inversion Hall as [| ? ? Hi Hrest]; subst.
  pose proof (track_content_plain (idata i) cp Hi) as Hok.
  destruct (track_content (idata i) cp); [| discriminate]. simpl. now apply IH.
Qed.

(** What the body returns once the scan is through: the division is
    only reached with a positive number of posts. *)
Lemma engagement_body_after_scan l m cp :
  scan_interactions l (engagement_init (length l)) [] = Ok (m, cp) ->
  engagement_body l
  = Ok (finish_engagement m
          (if (0 <? posts_created m)%nat
           then (inject_Z (Z.of_nat (replies_sent m + likes_given m + shares_made m))
                 / inject_Z (Z.of_nat (posts_created m)) * 100)%Q
           else engagement_rate m)
          (firstn 5 (sort_desc cp))).
Proof.
  intros Hscan. unfold engagement_body. rewrite Hscan. simpl.
  destruct (0 <? posts_created m)%nat eqn:Hp; [| reflexivity].
  apply Nat.ltb_lt in Hp. unfold truediv.
  destruct (Z.of_nat (posts_created m) =? 0) eqn:Hz; [| reflexivity].
  apply Z.eqb_eq in Hz. lia.
Qed.

Lemma engagement_total platform l :
  Forall (fun i => plain_content (idata i)) l ->
  exists m, _get_engagement_metrics platform l = Some m.
Proof.
  intros Hall. unfold _get_engagement_metrics.
  pose proof (scan_interactions_plain l (engagement_init (length l)) [] Hall) as Hok.
  destruct (scan_interactions l (engagement_init (length l)) [])
    as [[m cp] | e] eqn:Hscan; [| discriminate].
  rewrite (engagement_body_after_scan l m cp Hscan). eauto.
Qed.

Lemma engagement_metrics_inv platform l r :
  _get_engagement_metrics platform l = Some r ->
  exists m cp,
    scan_interactions l (engagement_init (length l)) [] = Ok (m, cp) /\
    r = finish_engagement m
          (if (0 <? posts_created m)%nat
           then (inject_Z (Z.of_nat (replies_sent m + likes_given m + shares_made m))
                 / inject_Z (Z.of_nat (posts_created m)) * 100)%Q
           else engagement_rate m)
          (firstn 5 (sort_desc cp)).
Proof.
  unfold _get_engagement_metrics. intros Hr.
  destruct (scan_interactions l (engagement_init (length l)) [])
    as [[m cp] | e] eqn:Hscan.
  - rewrite (engagement_body_after_scan l m cp Hscan) in Hr.
    injection Hr as <-. eauto.
  - unfold engagement_body in Hr. rewrite Hscan in Hr. discriminate.
Qed.

(** C3, as the code has it. Every record is classified by substring
    match on its type tag into at most one of the five categories, the
    first match winning in the order post, reply, mention, like, share:
    the counter of a category grows by one exactly on the records whose
    first matching category it is, so the returned counters are the
    numbers of records so classified. The categories are selected by
    post/tweet/status, reply, mention, like/favourite and boost/retweet:
    a tag containing "boost" and nothing of higher priority is tallied
    in [shares_made], while the substring "share" selects nothing. *)
Theorem engagement_classification (platform : string)
    (interactions : list interaction) :
  (forall i m c,
     tally c (count_type (itype i) m)
     = (tally c m + if classified_as c i then 1 else 0)%nat) /\
  (forall m, _get_engagement_metrics platform interactions = Some m ->
     forall c, tally c m = length (List.filter (classified_as c) interactions)) /\
  (Forall (fun i => plain_content (idata i)) interactions ->
   exists m, _get_engagement_metrics platform interactions = Some m) /\
  (forall i, contains "boost" (itype i) = true ->
     selects CatPost (itype i) = false -> selects CatReply (itype i) = false ->
     selects CatMention (itype i) = false -> selects CatLike (itype i) = false ->
     classified_as CatShare i = true) /\
  first_match "share" = None.
Proof.
  split; [| split; [| split; [| split]]].
  - intros i m c. apply count_type_tally.
  - intros m Hm c.
    apply engagement_metrics_inv in Hm as (m0 & cp & Hscan & ->).
    apply scan_interactions_ok in Hscan as (_ & _ & Hc & _).
    specialize (Hc c). destruct c; simpl in *; exact Hc.
  - apply engagement_total.
  - intros i Hboost Hp Hr Hm Hl. unfold classified_as, first_match, categories.
    simpl in *. rewrite Hp, Hr, Hm, Hl, Hboost. reflexivity.
  - reflexivity.
Qed.

Lemma engagement_classification_witness :
  exists m,
    _get_engagement_metrics "mastodon"
      [{| itype := "boost"; idata := JObj [] |};
       {| itype := "reply_to_post"; idata := JObj [("content", JStr "thanks")] |};
       {| itype := "share"; idata := JObj [] |}] = Some m /\
    tally CatPost m = 1%nat /\ tally CatReply m = 0%nat /\
    tally CatShare m = 1%nat.
Proof.
  pose proof (engagement_classification "mastodon"
      [{| itype := "boost"; idata := JObj [] |};
       {| itype := "reply_to_post"; idata := JObj [("content", JStr "thanks")] |};
       {| itype := "share"; idata := JObj [] |}]) as (_ & Hcount & Htotal & _).
  destruct Htotal as [m Hm].
  - repeat constructor; eexists; (split; [reflexivity | simpl; exact I]).
  - exists m. split; [exact Hm |].
    rewrite !(Hcount m Hm). repeat split; reflexivity.
Defined.

(** C3 as stated fails: a record whose tag is "share" contains the
    substring "share" and is tallied neither in [shares_made] nor in any
    other category. *)
Lemma share_tag_not_tallied :
  contains "share" "share" = true /\
  exists m,
    _get_engagement_metrics "twitter"
      [{| itype := "share"; idata := JObj [] |}] = Some m /\
    shares_made m = 0%nat /\ tallied m = 0%nat /\
    total_interactions m = 1%nat.
Proof.
  split; [reflexivity |].
  eexists. split; [reflexivity |]. repeat split; reflexivity.
Qed.

(** C10. Every record increments at most one of the five counters, so
    in the metrics the reducer returns their sum never exceeds
    [total_interactions], the number of records. *)
Theorem engagement_counters_bounded (platform : string)
    (interactions : list interaction) :
  (forall i m, (tallied (count_type (itype i) m) <= tallied m + 1)%nat) /\
  match _get_engagement_metrics platform interactions with
  | Some m =>
      (posts_created m + replies_sent m + mentions_received m
       + likes_given m + shares_made m <= total_interactions m)%nat /\
      total_interactions m = length interactions
  | None => True
  end /\
  (Forall (fun i => plain_content (idata i)) interactions ->
   exists m, _get_engagement_metrics platform interactions = Some m /\
             (tallied m <= total_interactions m)%nat).
Proof.
  assert (Hinv : forall m,
            _get_engagement_metrics platform interactions = Some m ->
            (tallied m <= total_interactions m)%nat /\
            total_interactions m = length interactions).
  { intros m Hm.
    apply engagement_metrics_inv in Hm as (m0 & cp & Hscan & ->).
    apply scan_interactions_ok in Hscan as (Ht & _ & _ & Hs).
    unfold tallied in *. simpl in *. lia. }
  split; [| split].
  - intros i m. apply count_type_tallied.
  - destruct (_get_engagement_metrics platform interactions) as [m |] eqn:Hm;
      [| exact I].
    apply (Hinv m eq_refl).
  - intros Hall. destruct (engagement_total platform interactions Hall) as [m Hm].
    exists m. split; [exact Hm |]. apply (Hinv m Hm).
Qed.

Lemma engagement_counters_bounded_witness :
  exists m,
    _get_engagement_metrics "discord"
      [{| itype := "post_status"; idata := JObj [] |};
       {| itype := "like_and_reply"; idata := JObj [] |};
       {| itype := "search"; idata := JObj [] |}] = Some m /\
    (tallied m <= total_interactions m)%nat.
Proof.
  pose proof (engagement_counters_bounded "discord"
      [{| itype := "post_status"; idata := JObj [] |};
       {| itype := "like_and_reply"; idata := JObj [] |};
       {| itype := "search"; idata := JObj [] |}]) as (_ & _ & Htotal).
  apply Htotal.
  repeat constructor; eexists; (split; [reflexivity | simpl; exact I]).
Defined.

End EngagementFacts.

(** ** The sales and lead reducers *)

Module ReducerFacts.

Import Datetime Analytics Notions.

Example sales_example :
  @_get_sales_data_in_period Demo.lib Demo.store Demo.day_start Demo.day_end
  = Some {| total_sales := 2; total_revenue := 0 + 20 + 10; total_refunds := 1;
            refund_amount := 0 + 5; orders_created := 0; orders_completed := 0;
            conversion_events :=
              [{| ce_type := "sale_completed"; ce_amount := 20;
                  ce_timestamp := "2024-01-15T12:00:00" |};
               {| ce_type := "sale_completed"; ce_amount := 10;
                  ce_timestamp := "2024-01-15T11:00:00" |}];
            net_revenue := 0 + 20 + 10 - (0 + 5); conversion_rate := 0 |}.
Proof. vm_compute. reflexivity. Qed.

Section WithStore.
Context `{PyLib}.
Variable db : gmap string rvalue.
Variables start_date end_date : datetime.

Lemma truediv_pos a b : (0 < b)%nat ->
  truediv (Z.of_nat a) (Z.of_nat b)
  = Ok (inject_Z (Z.of_nat a) / inject_Z (Z.of_nat b))%Q.
Proof.
  intros Hb. unfold truediv.
  destruct (Z.of_nat b =? 0) eqn:Hz; [| reflexivity].
  apply Z.eqb_eq in Hz. lia.
Qed.

(** After the scan, the sales body returns: the quotient is only taken
    with a positive number of orders. *)
Lemma sales_body_after_scan sd :
  scan_payment_events db start_date end_date
    (lrange db "payment_events:paypal" (-1)) sales_init = Ok sd ->
  sales_body db start_date end_date
  = Ok (finish_sales sd (total_revenue sd - refund_amount sd)
          (if (0 <? orders_created sd)%nat
           then (inject_Z (Z.of_nat (total_sales sd))
                 / inject_Z (Z.of_nat (orders_created sd)) * 100)%Q
           else 0%Q)).
Proof.
  intros Hscan. unfold sales_body. rewrite Hscan. simpl.
  destruct (0 <? orders_created sd)%nat eqn:Hp; [| reflexivity].
  apply Nat.ltb_lt in Hp. now rewrite truediv_pos.
Qed.

Lemma sales_data_inv r :
  _get_sales_data_in_period db start_date end_date = Some r ->
  exists sd,
    scan_payment_events db start_date end_date
      (lrange db "payment_events:paypal" (-1)) sales_init = Ok sd /\
    r = finish_sales sd (total_revenue sd - refund_amount sd)
          (if (0 <? orders_created sd)%nat
           then (inject_Z (Z.of_nat (total_sales sd))
                 / inject_Z (Z.of_nat (orders_created sd)) * 100)%Q
           else 0%Q).
Proof.
  unfold _get_sales_data_in_period. intros Hr.
  destruct (scan_payment_events db start_date end_date
              (lrange db "payment_events:paypal" (-1)) sales_init)
    as [sd | e] eqn:Hscan.
  - rewrite (sales_body_after_scan sd Hscan) in Hr. injection Hr as <-. eauto.
  - unfold sales_body in Hr. rewrite Hscan in Hr. discriminate.
Qed.

Lemma lead_body_after_scan st :
  scan_sales_interactions db start_date end_date
    (lrange db "sales_interactions" (-1)) lead_init = Ok st ->
  lead_body db start_date end_date = Ok (lead_result db start_date end_date st).
Proof.
  intros Hscan. unfold lead_body, lead_result. rewrite Hscan. simpl.
  destruct (0 <? size (unique_customers st))%nat eqn:Hp; [| reflexivity].
  apply Nat.ltb_lt in Hp. rewrite !truediv_pos by exact Hp. reflexivity.
Qed.

Lemma lead_metrics_inv m :
  _get_lead_metrics db start_date end_date = Some m ->
  exists st,
    scan_sales_interactions db start_date end_date
      (lrange db "sales_interactions" (-1)) lead_init = Ok st /\
    m = lead_result db start_date end_date st.
Proof.
  unfold _get_lead_metrics. intros Hm.
  destruct (scan_sales_interactions db start_date end_date
              (lrange db "sales_interactions" (-1)) lead_init)
    as [st | e] eqn:Hscan.
  - rewrite (lead_body_after_scan st Hscan) in Hm. injection Hm as <-. eauto.
  - unfold lead_body in Hm. rewrite Hscan in Hm. discriminate.
Qed.

(** What one key adds to the locals of the lead loop, whether the step
    ends normally or in an exception. *)
Lemma lead_event_effect key st :
  let st' := fst (lead_event db start_date end_date (hgetall db key) st) in
  qualified st'
  = (qualified st
     + if qualified_interaction db start_date end_date key then 1 else 0)%nat /\
  unique_customers st'
  = match lead_customer db start_date end_date key with
    | Some c => {[c]} ∪ unique_customers st
    | None => unique_customers st
    end.
Proof.
  unfold lead_event, qualified_interaction, lead_customer, history_length.
  destruct (hgetall db key !! "timestamp") as [ts |]; simpl; [| split; [lia | done]].
  destruct (timestamp_in_window start_date end_date ts) as [[|] | e]; simpl;
    try (split; [lia | done]).
  destruct (String.eqb (default "" (hgetall db key !! "customer_id")) "");
    simpl; [split; [lia | done] |].
  destruct (lead_platform _); simpl;
    (split; [| done]);
    destruct (1 <? length _)%nat; lia.
Qed.

Lemma scan_sales_interactions_effect keys : forall st st',
  scan_sales_interactions db start_date end_date keys st = Ok st' ->
  qualified st'
  = (qualified st
     + length (List.filter (qualified_interaction db start_date end_date) keys))%nat /\
  unique_customers st'
  = window_customers db start_date end_date keys ∪ unique_customers st.
Proof.
  induction keys as [| key rest IH]; intros st st' Hscan; simpl in Hscan.
  - injection Hscan as <-. split; [simpl; lia |].
    unfold window_customers; simpl. set_solver.
  - pose proof (lead_event_effect key st) as [Hq Hu]. simpl in Hq, Hu.
    destruct (lead_event db start_date end_date (hgetall db key) st)
      as [st1 r]; simpl in *.
    assert (Hnext : scan_sales_interactions db start_date end_date rest st1
                    = Ok st').
    { destruct r as [[] | []]; try discriminate; exact Hscan. }
    apply IH in Hnext as [Hq' Hu']. split.
    + rewrite Hq', Hq.
      destruct (qualified_interaction db start_date end_date key); simpl; lia.
    + rewrite Hu', Hu. unfold window_customers; simpl.
      destruct (lead_customer db start_date end_date key); simpl; set_solver.
Qed.

End WithStore.

(** C4. The rate computations are guarded against zero denominators.
    None of the three reducers raises on its division: the engagement
    body never raises [ZeroDivisionError], and the sales and lead bodies
    return once their scan is through. The engagement rate is 0 when
    [posts_created] is 0, whatever the other counters are; the sales
    conversion rate is 0 when [orders_created] is 0; the lead conversion
    rate is 0 when [total_leads] is 0. *)
Theorem rates_guarded `{PyLib} (db : gmap string rvalue)
    (start_date end_date : datetime) (platform : string)
    (interactions : list interaction) :
  (engagement_body interactions <> Raise ZeroDivisionError /\
   forall m, _get_engagement_metrics platform interactions = Some m ->
     posts_created m = 0%nat -> engagement_rate m = 0%Q) /\
  ((forall sd,
      scan_payment_events db start_date end_date
        (lrange db "payment_events:paypal" (-1)) sales_init = Ok sd ->
      is_ok (sales_body db start_date end_date) = true) /\
   forall r, _get_sales_data_in_period db start_date end_date = Some r ->
     orders_created r = 0%nat -> conversion_rate r = 0%Q) /\
  ((forall st,
      scan_sales_interactions db start_date end_date
        (lrange db "sales_interactions" (-1)) lead_init = Ok st ->
      is_ok (lead_body db start_date end_date) = true) /\
   forall m, _get_lead_metrics db start_date end_date = Some m ->
     total_leads m = 0%nat ->
     lead_conversion_rate m = 0%Q /\ lead_quality_score m = 0%Q).
Proof.
  split; [| split]; split.
  - destruct (scan_interactions interactions
                (engagement_init (length interactions)) [])
      as [[m cp] | e] eqn:Hscan.
    + rewrite (EngagementFacts.engagement_body_after_scan _ _ _ Hscan).
      discriminate.
    + unfold engagement_body. rewrite Hscan. simpl.
      apply EngagementFacts.scan_interactions_raise in Hscan as [-> | ->];
        discriminate.
  - intros m Hm Hposts.
    apply EngagementFacts.engagement_metrics_inv in Hm as (m0 & cp & Hscan & ->).
    simpl in *. rewrite Hposts. simpl.
    apply EngagementFacts.scan_interactions_ok in Hscan as (_ & Hr & _).
    exact Hr.
  - intros sd Hscan. now rewrite (sales_body_after_scan _ _ _ sd Hscan).
  - intros r Hr Horders.
    apply sales_data_inv in Hr as (sd & _ & ->). simpl in *.
    now rewrite Horders.
  - intros st Hscan. now rewrite (lead_body_after_scan _ _ _ st Hscan).
  - intros m Hm Hleads.
    apply lead_metrics_inv in Hm as (st & _ & ->). simpl in *.
    now rewrite Hleads.
Qed.

Lemma rates_guarded_witness :
  (exists m,
     _get_engagement_metrics "twitter"
       [{| itype := "reply"; idata := JObj [] |};
        {| itype := "like"; idata := JObj [] |}] = Some m /\
     replies_sent m = 1%nat /\ likes_given m = 1%nat /\
     engagement_rate m = 0%Q) /\
  (exists r,
     @_get_sales_data_in_period Demo.lib Demo.store Demo.day_start Demo.day_end
       = Some r /\
     total_sales r = 2%nat /\ conversion_rate r = 0%Q) /\
  (exists m,
     @_get_lead_metrics Demo.lib ∅ Demo.day_start Demo.day_end = Some m /\
     lead_conversion_rate m = 0%Q /\ lead_quality_score m = 0%Q).
Proof.
  pose proof (@rates_guarded Demo.lib Demo.store Demo.day_start Demo.day_end
                "twitter"
                [{| itype := "reply"; idata := JObj [] |};
                 {| itype := "like"; idata := JObj [] |}])
    as ((_ & He) & (_ & Hs) & _).
  pose proof (@rates_guarded Demo.lib ∅ Demo.day_start Demo.day_end "twitter" [])
    as (_ & _ & (_ & Hl)).
  split; [| split].
  - eexists. split; [vm_compute; reflexivity |]. split; [reflexivity |].
    split; [reflexivity |]. apply He; reflexivity.
  - eexists. split; [vm_compute; reflexivity |]. split; [reflexivity |].
    apply Hs; vm_compute; reflexivity.
  - eexists. split; [vm_compute; reflexivity |]. apply Hl; vm_compute; reflexivity.
Defined.

Example lead_example :
  @_get_lead_metrics Demo.lib Demo.store Demo.day_start Demo.day_end
  = Some {| total_leads := 1; new_customers := 1; qualified_leads := 2;
            lead_conversion_rate := (2 # 1) * 100;
            lead_sources := [(JStr "twitter", 2%nat)];
            lead_quality_score := (2 # 1) * 100 |}.
Proof. vm_compute. reflexivity. Qed.

(** C9. [qualified_leads] counts the in-window sales interactions whose
    customer has more than one interaction in total, one per
    interaction, while [total_leads] counts the distinct customers of
    the window. A customer with several interactions in the window is
    therefore counted several times: there is an input on which
    [qualified_leads] exceeds [total_leads] and [lead_quality_score]
    exceeds 100. *)
Theorem qualified_leads_per_interaction :
  (forall (lib : PyLib) (db : gmap string rvalue)
          (start_date end_date : datetime) (m : lead_metrics),
     _get_lead_metrics db start_date end_date = Some m ->
     qualified_leads m
     = length (List.filter (qualified_interaction db start_date end_date)
                 (lrange db "sales_interactions" (-1))) /\
     total_leads m
     = size (window_customers db start_date end_date
               (lrange db "sales_interactions" (-1)))) /\
  (exists (lib : PyLib) (db : gmap string rvalue)
          (start_date end_date : datetime) (m : lead_metrics),
     _get_lead_metrics db start_date end_date = Some m /\
     (total_leads m < qualified_leads m)%nat /\
     (100 < lead_quality_score m)%Q).
Proof.
  split.
  - intros lib db start_date end_date m Hm.
    apply lead_metrics_inv in Hm as (st & Hscan & ->).
    apply scan_sales_interactions_effect in Hscan as [Hq Hu].
    simpl in *. rewrite Hq, Hu. split; [reflexivity |].
    f_equal. set_solver.
  - exists Demo.lib, Demo.store, Demo.day_start, Demo.day_end.
    eexists. split; [vm_compute; reflexivity |].
    split; [vm_compute; lia | reflexivity].
Qed.

Lemma qualified_leads_per_interaction_witness :
  @_get_lead_metrics Demo.lib Demo.store Demo.day_start Demo.day_end
    = Some Demo.lead_report /\
  qualified_leads Demo.lead_report
  = length (List.filter
              (@qualified_interaction Demo.lib Demo.store Demo.day_start Demo.day_end)
              (lrange Demo.store "sales_interactions" (-1))) /\
  total_leads Demo.lead_report
  = size (@window_customers Demo.lib Demo.store Demo.day_start Demo.day_end
            (lrange Demo.store "sales_interactions" (-1))).
Proof.
  assert (Hm : @_get_lead_metrics Demo.lib Demo.store Demo.day_start Demo.day_end
               = Some Demo.lead_report) by (vm_compute; reflexivity).
  split; [exact Hm |].
  exact (proj1 qualified_leads_per_interaction
           Demo.lib Demo.store Demo.day_start Demo.day_end Demo.lead_report Hm).
Defined.


End ReducerFacts.

(** ** Counters and the frequency ranking *)

Module CounterFacts.

Import Notions.

Section Counting.
Context {K : Type} (eqb : K -> K -> bool).
Hypothesis eqb_eq : forall a b, eqb a b = true <-> a = b.

Lemma eqb_refl k : eqb k k = true.
Proof. now apply eqb_eq. Qed.

Lemma counter_get_incr k k' c :
  counter_get eqb k (counter_incr eqb k' c)
  = (counter_get eqb k c + if eqb k k' then 1 else 0)%nat.
Proof.
  induction c as [| [k'' n] rest IH]; simpl.
  - destruct (eqb k k'); reflexivity.
  - destruct (eqb k' k'') eqn:E; simpl.
    + apply eqb_eq in E. subst k''.
      destruct (eqb k k'); lia.
    + destruct (eqb k k'') eqn:E2; [| exact IH].
      apply eqb_eq in E2. subst k''.
      destruct (eqb k k') eqn:E3; [| lia].
      apply eqb_eq in E3. subst k'. rewrite eqb_refl in E. discriminate.
Qed.

Lemma counter_get_fold k l : forall c,
  counter_get eqb k (fold_left (fun c p => counter_incr eqb p c) l c)
  = (counter_get eqb k c + length (List.filter (eqb k) l))%nat.
Proof.
  induction l as [| p rest IH]; intros c; simpl; [lia |].
  rewrite IH, counter_get_incr. destruct (eqb k p); simpl; lia.
Qed.

Lemma counter_incr_keys k c :
  map fst (counter_incr eqb k c) = map fst c \/
  (~ In k (map fst c) /\ map fst (counter_incr eqb k c) = (map fst c ++ [k])%list).
Proof.
  induction c as [| [k' n] rest IH]; simpl.
  - right. split; [tauto | reflexivity].
  - destruct (eqb k k') eqn:E; simpl; [left; reflexivity |].
    destruct IH as [-> | [Hnot ->]]; [left; reflexivity |].
    right. split; [| reflexivity].
    intros [-> | Hin]; [| tauto].
    rewrite eqb_refl in E. discriminate.
Qed.

Lemma counter_incr_well_formed k c :
  well_formed c -> well_formed (counter_incr eqb k c).
Proof.
  intros [Hnd Hpos]. split.
  - destruct (counter_incr_keys k c) as [-> | [Hnot ->]]; [exact Hnd |].
    apply NoDup_app; [exact Hnd | repeat constructor; simpl; tauto |].
    intros x Hx [<- | []]. tauto.
  - clear Hnd. induction c as [| [k' n] rest IH]; simpl.
    + repeat constructor.
    + inversion Hpos as [| ? ? Hn Hrest]; subst.
      destruct (eqb k k'); constructor; simpl in *; auto; lia.
Qed.

Lemma fold_well_formed l : forall c,
  well_formed c ->
  well_formed (fold_left (fun c p => counter_incr eqb p c) l c).
Proof.
  induction l as [| p rest IH]; intros c Hc; simpl; [exact Hc |].
  apply IH. now apply counter_incr_well_formed.
Qed.

Lemma counter_get_in k n c :
  NoDup (map fst c) -> In (k, n) c -> counter_get eqb k c = n.
Proof.
  induction c as [| [k' n'] rest IH]; simpl; intros Hnd Hin; [tauto |].
  inversion Hnd as [| ? ? Hnot Hrest]; subst.
  destruct Hin as [E | Hin].
  - injection E as -> ->. now rewrite eqb_refl.
  - destruct (eqb k k') eqn:E; [| now apply IH].
    apply eqb_eq in E. subst k'.
    exfalso. apply Hnot. now apply (in_map fst) in Hin.
Qed.

Lemma counter_get_none k c :
  ~ In k (map fst c) -> counter_get eqb k c = 0%nat.
Proof.
  induction c as [| [k' n'] rest IH]; simpl; intros Hnot; [reflexivity |].
  destruct (eqb k k') eqn:E.
  - apply eqb_eq in E. subst k'. tauto.
  - apply IH. tauto.
Qed.

Lemma in_counter k c :
  (0 < counter_get eqb k c)%nat -> In (k, counter_get eqb k c) c.
Proof.
  induction c as [| [k' n'] rest IH]; simpl; intros Hpos; [lia |].
  destruct (eqb k k') eqn:E.
  - apply eqb_eq in E. subst k'. now left.
  - right. now apply IH.
Qed.

End Counting.

Section Ranking.
Context {K : Type}.
Implicit Types (c l : list (K * nat)) (x : K * nat).

Lemma insert_desc_perm x l : Permutation (insert_desc x l) (x :: l).
Proof.
  induction l as [| y rest IH]; simpl; [reflexivity |].
  destruct (snd x <? snd y)%nat; [| reflexivity].
  rewrite IH. apply perm_swap.
Qed.

Lemma sort_desc_perm c : Permutation (sort_desc c) c.
Proof.
  induction c as [| x rest IH]; simpl; [reflexivity |].
  unfold sort_desc in *. simpl. rewrite insert_desc_perm. now constructor.
Qed.

Lemma insert_desc_sorted x l : descending l -> descending (insert_desc x l).
Proof.
  unfold descending.
  induction l as [| y rest IH]; simpl; intros Hs.
  - repeat constructor.
  - inversion Hs as [| ? ? Hrest Hall]; subst.
    destruct (snd x <? snd y)%nat eqn:E.
    + apply Nat.ltb_lt in E. constructor; [now apply IH |].
      eapply Permutation_Forall; [symmetry; apply insert_desc_perm |].
      constructor; [lia | exact Hall].
    + apply Nat.ltb_ge in E. constructor; [exact Hs |].
      constructor; [exact E |].
      eapply Forall_impl; [| exact Hall]. simpl. intros a Ha. lia.
Qed.

Lemma sort_desc_sorted c : descending (sort_desc c).
Proof.
  induction c as [| x rest IH]; simpl; [constructor |].
  now apply insert_desc_sorted.
Qed.

Lemma in_firstn {A : Type} n (l : list A) a : In a (firstn n l) -> In a l.
Proof.
  intros Ha. rewrite <- (firstn_skipn n l). apply in_or_app. now left.
Qed.

Lemma in_skipn {A : Type} n (l : list A) a : In a (skipn n l) -> In a l.
Proof.
  intros Ha. rewrite <- (firstn_skipn n l). apply in_or_app. now right.
Qed.

(** In a ranking, whatever is cut off by [firstn] counts no more than
    what is kept. *)
Lemma descending_cut n l a b :
  descending l -> In a (firstn n l) -> In b (skipn n l) ->
  (snd b <= snd a)%nat.
Proof.
  unfold descending. revert n.
  induction l as [| y rest IH]; intros n Hs Ha Hb.
  - now rewrite firstn_nil in Ha.
  - destruct n as [| n]; simpl in *; [tauto |].
    inversion Hs as [| ? ? Hrest Hall]; subst.
    destruct Ha as [<- | Ha].
    + rewrite Forall_forall in Hall. apply Hall.
      eapply in_skipn. exact Hb.
    + eapply IH; eauto.
Qed.

Lemma descending_firstn n l : descending l -> descending (firstn n l).
Proof.
  unfold descending. revert n.
  induction l as [| y rest IH]; intros n Hs; [now rewrite firstn_nil |].
  destruct n as [| n]; simpl; [constructor |].
  inversion Hs as [| ? ? Hrest Hall]; subst.
  constructor; [now apply IH |].
  rewrite Forall_forall in *. intros b Hb. apply Hall.
  eapply in_firstn. exact Hb.
Qed.

Lemma descending_filter (f : K * nat -> bool) l :
  descending l -> descending (List.filter f l).
Proof.
  unfold descending.
  induction l as [| y rest IH]; simpl; intros Hs; [constructor |].
  inversion Hs as [| ? ? Hrest Hall]; subst.
  destruct (f y); [| now apply IH].
  constructor; [now apply IH |].
  rewrite Forall_forall in *. intros b Hb. apply Hall.
  now apply filter_In in Hb as [Hb _].
Qed.

Lemma nodup_keys_firstn n l :
  NoDup (map fst l) -> NoDup (map fst (firstn n l)).
Proof.
  intros Hnd. rewrite <- (firstn_skipn n l), map_app in Hnd.
  now apply NoDup_app_remove_r in Hnd.
Qed.

Lemma nodup_keys_filter (f : K * nat -> bool) l :
  NoDup (map fst l) -> NoDup (map fst (List.filter f l)).
Proof.
  induction l as [| y rest IH]; simpl; intros Hnd; [constructor |].
  inversion Hnd as [| ? ? Hnot Hrest]; subst.
  destruct (f y); simpl; [| now apply IH].
  constructor; [| now apply IH].
  intros Hin. apply Hnot.
  apply in_map_iff in Hin as (e & He & Hin).
  apply filter_In in Hin as [Hin _].
  rewrite <- He. now apply in_map.
Qed.

End Ranking.

End CounterFacts.

(** ** The common-pattern miner *)

Module MinerFacts.

Import AutoLearning Notions CounterFacts.

Lemma pattern_eqb_eq a b : pattern_eqb a b = true <-> a = b.
Proof. unfold pattern_eqb. apply bool_decide_eq_true. Qed.

(** The lengths enumerated for a sequence are those of 2, 3 and 4 that
    fit into it. *)
Lemma lengths_spec (s : list string) :
  seq 2 (Nat.min 5 (length s + 1) - 2)
  = List.filter (fun len => (len <=? length s)%nat) [2; 3; 4]%nat.
Proof.
  destruct s as [| a [| b [| c [| d rest]]]]; try reflexivity.
  simpl length. rewrite Nat.add_1_r. reflexivity.
Qed.

Lemma window_length (s : list string) len i :
  (i + len <= length s)%nat -> length (firstn len (skipn i s)) = len.
Proof.
  intros Hle. rewrite length_firstn, length_skipn. lia.
Qed.

Lemma in_windows (s : list string) len p :
  (len <= length s)%nat -> In p (windows s len) ->
  length p = len /\
  exists i, (i + len <= length s)%nat /\ p = firstn len (skipn i s).
Proof.
  intros Hle Hin. unfold windows in Hin.
  apply in_map_iff in Hin as (i & <- & Hi). apply in_seq in Hi.
  split; [apply window_length; lia |].
  exists i. split; [lia | reflexivity].
Qed.

Lemma in_sequence_patterns (s p : list string) :
  In p (sequence_patterns s) ->
  (2 <= length p <= 4)%nat /\
  exists i, (i + length p <= length s)%nat /\
            p = firstn (length p) (skipn i s).
Proof.
  unfold sequence_patterns. rewrite lengths_spec. intros Hin.
  apply in_flat_map in Hin as (len & Hlen & Hin).
  apply filter_In in Hlen as [Hlen Hfit]. apply Nat.leb_le in Hfit.
  destruct (in_windows s len p Hfit Hin) as [Hp (i & Hi & Heq)].
  split.
  - simpl in Hlen. lia.
  - exists i. rewrite Hp. split; [exact Hi | exact Heq].
Qed.

Lemma count_flat_map {A B : Type} (f : B -> bool) (g : A -> list B) l :
  length (List.filter f (flat_map g l))
  = list_sum (map (fun a => length (List.filter f (g a))) l).
Proof.
  induction l as [| a rest IH]; simpl; [reflexivity |].
  now rewrite filter_app, length_app, IH.
Qed.

Lemma count_map {A B : Type} (f : B -> bool) (g : A -> B) l :
  length (List.filter f (map g l))
  = length (List.filter (fun a => f (g a)) l).
Proof.
  induction l as [| a rest IH]; simpl; [reflexivity |].
  destruct (f (g a)); simpl; now rewrite IH.
Qed.

Lemma filter_ext_length {A : Type} (f g : A -> bool) l :
  (forall a, f a = g a) ->
  length (List.filter f l) = length (List.filter g l).
Proof.
  intros Hext. induction l as [| a rest IH]; simpl; [reflexivity |].
  rewrite Hext. destruct (g a); simpl; now rewrite IH.
Qed.

(** Windows of the pattern's own length: one per position at which the
    pattern occurs. *)
Lemma count_windows_same (p s : list string) :
  length (List.filter (pattern_eqb p) (windows s (length p)))
  = occurrences_in p s.
Proof.
  unfold windows, occurrences_in. rewrite count_map.
  apply filter_ext_length. intros i. unfold pattern_eqb, occurs_at.
  apply bool_decide_ext. split; congruence.
Qed.

Lemma count_windows_other (p s : list string) len :
  (len <= length s)%nat -> len <> length p ->
  length (List.filter (pattern_eqb p) (windows s len)) = 0%nat.
Proof.
  intros Hle Hne.
  destruct (List.filter (pattern_eqb p) (windows s len)) as [| w rest] eqn:E;
    [reflexivity |].
  assert (Hin : In w (List.filter (pattern_eqb p) (windows s len)))
    by (rewrite E; now left).
  apply filter_In in Hin as [Hin Heq]. apply pattern_eqb_eq in Heq. subst w.
  apply in_windows in Hin as [Hlen _]; [| exact Hle]. congruence.
Qed.

Lemma occurrences_in_long (p s : list string) :
  (length s < length p)%nat -> occurrences_in p s = 0%nat.
Proof.
  intros Hlt. unfold occurrences_in.
  replace (length s - length p + 1)%nat with 1%nat by lia. simpl.
  unfold occurs_at. rewrite skipn_O.
  rewrite bool_decide_eq_false_2; [reflexivity |].
  intros Heq. apply (f_equal (@length string)) in Heq.
  rewrite length_firstn in Heq. lia.
Qed.

(** The enumeration of one sequence yields a pattern as often as the
    pattern occurs in the sequence. *)
Lemma count_sequence_patterns (p s : list string) :
  (2 <= length p <= 4)%nat ->
  length (List.filter (pattern_eqb p) (sequence_patterns s))
  = occurrences_in p s.
Proof.
  intros Hp. unfold sequence_patterns. rewrite lengths_spec, count_flat_map.
  assert (Hone : forall len, (len <= length s)%nat ->
            length (List.filter (pattern_eqb p) (windows s len))
            = if (len =? length p)%nat then occurrences_in p s else 0%nat).
  { intros len Hle. destruct (len =? length p)%nat eqn:E.
    - apply Nat.eqb_eq in E. subst len. apply count_windows_same.
    - apply Nat.eqb_neq in E. now apply count_windows_other. }
  assert (Hlong : (length s < length p)%nat -> occurrences_in p s = 0%nat)
    by apply occurrences_in_long.
  assert (Hcases : length p = 2%nat \/ length p = 3%nat \/ length p = 4%nat)
    by lia.
  cbn [List.filter].
  destruct (2 <=? length s)%nat eqn:E2; destruct (3 <=? length s)%nat eqn:E3;
    destruct (4 <=? length s)%nat eqn:E4;
    repeat match goal with
           | H : (_ <=? _)%nat = true |- _ => apply Nat.leb_le in H
           | H : (_ <=? _)%nat = false |- _ => apply Nat.leb_gt in H
           end;
    try lia;
    cbn [map list_sum]; rewrite ?Hone by lia;
    destruct Hcases as [Hc | [Hc | Hc]]; rewrite Hc in *;
    cbn [Nat.eqb]; rewrite ?Hlong by lia; cbn [list_sum fold_right]; lia.
Qed.

Lemma pattern_counts_spec (p : list string) (sequences : list (list string)) :
  (2 <= length p <= 4)%nat ->
  counter_get pattern_eqb p (pattern_counts sequences)
  = occurrences p sequences.
Proof.
  intros Hp. unfold pattern_counts, occurrences.
  rewrite (counter_get_fold pattern_eqb pattern_eqb_eq). simpl.
  rewrite count_flat_map. f_equal.
  apply map_ext. intros s. now apply count_sequence_patterns.
Qed.

Lemma pattern_counts_well_formed sequences :
  well_formed (pattern_counts sequences).
Proof.
  unfold pattern_counts.
  apply (fold_well_formed pattern_eqb pattern_eqb_eq).
  split; constructor.
Qed.

(** An entry of the counter is a window of some sequence, counted as
    often as it occurs. *)
Lemma pattern_counts_entry p n sequences :
  In (p, n) (pattern_counts sequences) ->
  (2 <= length p <= 4)%nat /\ n = occurrences p sequences /\ (0 < n)%nat.
Proof.
  intros Hin.
  destruct (pattern_counts_well_formed sequences) as [Hnd Hpos].
  assert (Hn : counter_get pattern_eqb p (pattern_counts sequences) = n)
    by (apply (counter_get_in pattern_eqb pattern_eqb_eq); assumption).
  assert (Hn0 : (0 < n)%nat).
  { rewrite Forall_forall in Hpos. apply (Hpos (p, n) Hin). }
  assert (Hlen : (2 <= length p <= 4)%nat).
  { unfold pattern_counts in Hn.
    rewrite (counter_get_fold pattern_eqb pattern_eqb_eq) in Hn. simpl in Hn.
    destruct (List.filter (pattern_eqb p) (flat_map sequence_patterns sequences))
      as [| w rest] eqn:E; [simpl in Hn; lia |].
    assert (Hw : In w (List.filter (pattern_eqb p)
                         (flat_map sequence_patterns sequences)))
      by (rewrite E; now left).
    apply filter_In in Hw as [Hw Heq]. apply pattern_eqb_eq in Heq. subst w.
    apply in_flat_map in Hw as (s & _ & Hw).
    now apply in_sequence_patterns in Hw as [Hlen _]. }
  split; [exact Hlen |]. split; [| exact Hn0].
  rewrite <- Hn. now apply pattern_counts_spec.
Qed.

Lemma report_patterns_ok n (entries : list (list string * nat)) :
  (0 < n)%nat ->
  map_result (report_pattern n) entries
  = Ok (map (report_of n) entries).
Proof.
  intros Hn. induction entries as [| e rest IH]; [reflexivity |].
  cbn [map_result map]. rewrite IH. unfold report_pattern.
  rewrite (ReducerFacts.truediv_pos (snd e) n Hn). reflexivity.
Qed.

Lemma reports_sorted n (entries : list (list string * nat)) :
  descending entries ->
  StronglySorted (fun a b => (frequency b <= frequency a)%nat)
    (map (report_of n) entries).
Proof.
  unfold descending.
  induction entries as [| e rest IH]; simpl; intros Hs; [constructor |].
  inversion Hs as [| ? ? Hrest Hall]; subst.
  constructor; [now apply IH |].
  rewrite Forall_forall in *. intros r Hr.
  apply in_map_iff in Hr as (e' & <- & He'). simpl. now apply Hall.
Qed.

Lemma find_nonempty sequences :
  (0 < length sequences)%nat ->
  _find_common_patterns sequences
  = map_result (report_pattern (length sequences))
      (List.filter (fun entry => (1 <? snd entry)%nat)
         (most_common 5 (pattern_counts sequences))).
Proof.
  destruct sequences; simpl; [lia | reflexivity].
Qed.

Example common_patterns_example :
  _find_common_patterns [["A"; "B"; "C"]; ["A"; "B"; "D"]; ["A"; "B"; "C"]]
  = Ok [{| pattern := ["A"; "B"]; frequency := 3; percentage := (3 # 3) * 100 |};
        {| pattern := ["B"; "C"]; frequency := 2; percentage := (2 # 3) * 100 |};
        {| pattern := ["A"; "B"; "C"]; frequency := 2;
           percentage := (2 # 3) * 100 |}].
Proof. reflexivity. Qed.

(** C1. On [[A,B,C],[A,B,D],[A,B,C]] the miner reports the pattern
    (A,B) with frequency 3 and percentage 100. In general it returns a
    list of at most 5 distinct patterns ranked by decreasing frequency;
    each reported pattern is a contiguous run of length 2 to 4, its
    frequency is the number of positions at which it occurs in the
    sequences and is at least 2, and its percentage is
    frequency / number of sequences * 100. The list is the top of the
    ranking: a run that occurs more often than a reported pattern is
    reported too, and every run of length 2 to 4 that occurs at least
    twice is reported, unless five patterns are reported that occur at
    least as often as it does. So with at most five runs that occur
    twice or more, the reported patterns are exactly those runs. *)
Theorem common_patterns_spec :
  (exists r rest,
     _find_common_patterns
       [["A"; "B"; "C"]; ["A"; "B"; "D"]; ["A"; "B"; "C"]] = Ok (r :: rest) /\
     pattern r = ["A"; "B"] /\ frequency r = 3%nat /\
     (percentage r == 100)%Q) /\
  forall sequences : list (list string),
    exists l,
      _find_common_patterns sequences = Ok l /\
      (length l <= 5)%nat /\
      NoDup (map pattern l) /\
      StronglySorted (fun a b => (frequency b <= frequency a)%nat) l /\
      (forall r, In r l ->
         (2 <= length (pattern r) <= 4)%nat /\
         frequency r = occurrences (pattern r) sequences /\
         (2 <= frequency r)%nat /\
         percentage r
         = (inject_Z (Z.of_nat (frequency r))
            / inject_Z (Z.of_nat (length sequences)) * 100)%Q) /\
      (forall r q, In r l ->
         (2 <= length q <= 4)%nat ->
         (frequency r < occurrences q sequences)%nat ->
         In q (map pattern l)) /\
      (forall q,
         (2 <= length q <= 4)%nat ->
         (2 <= occurrences q sequences)%nat ->
         In q (map pattern l) \/
         (length l = 5%nat /\
          forall r, In r l ->
            (occurrences q sequences <= frequency r)%nat)).
Proof.
  split.
  { eexists. eexists. split; [reflexivity |]. repeat split; reflexivity. }
  intros sequences.
  destruct (Nat.eq_dec (length sequences) 0) as [Hempty | Hsome].
  { destruct sequences; [| discriminate].
    exists []. simpl.
    split; [reflexivity |]. split; [lia |]. split; [constructor |].
    split; [constructor |]. split; [intros r [] |]. split; [intros r q [] |].
    intros q _ Hocc. unfold occurrences in Hocc. simpl in Hocc. lia. }
  set (n := length sequences).
  assert (Hn : (0 < n)%nat) by (unfold n; lia).
  set (ranking := sort_desc (pattern_counts sequences)).
  set (kept := List.filter (fun entry => (1 <? snd entry)%nat) (firstn 5 ranking)).
  exists (map (report_of n) kept).
  assert (Hperm : Permutation ranking (pattern_counts sequences))
    by apply sort_desc_perm.
  assert (Hsorted : descending ranking) by apply sort_desc_sorted.
  assert (Hkeys : NoDup (map fst ranking)).
  { eapply Permutation_NoDup; [apply Permutation_map; symmetry; exact Hperm |].
    apply pattern_counts_well_formed. }
  assert (Hkept : forall e, In e kept <->
                            In e (firstn 5 ranking) /\ (1 < snd e)%nat).
  { intros e. unfold kept. rewrite filter_In, Nat.ltb_lt. reflexivity. }
  assert (Hranked : forall q, (2 <= length q <= 4)%nat ->
            (0 < occurrences q sequences)%nat ->
            In (q, occurrences q sequences) ranking).
  { intros q Hq Hpos.
    rewrite <- (pattern_counts_spec q sequences Hq) in *.
    apply (Permutation_in _ (Permutation_sym Hperm)).
    apply in_counter; [apply pattern_eqb_eq | exact Hpos]. }
  split; [| split; [| split; [| split; [| split; [| split]]]]].
  - rewrite (find_nonempty sequences Hn).
    unfold most_common. fold ranking. fold kept. fold n.
    now apply report_patterns_ok.
  - rewrite length_map. unfold kept.
    etransitivity; [apply filter_length_le |].
    rewrite length_firstn. lia.
  - rewrite map_map. simpl. change (fun x => fst x) with (@fst (list string) nat).
    unfold kept. apply nodup_keys_filter, nodup_keys_firstn. exact Hkeys.
  - apply reports_sorted. unfold kept.
    apply descending_filter, descending_firstn. exact Hsorted.
  - intros r Hr. apply in_map_iff in Hr as ([p c] & <- & He).
    apply Hkept in He as [He Hc]. simpl in *.
    apply in_firstn in He.
    apply (Permutation_in _ Hperm) in He.
    destruct (pattern_counts_entry p c sequences He) as (Hlen & Hocc & _).
    repeat split; try lia; try exact Hocc.
  - intros r q Hr Hq Hmore.
    apply in_map_iff in Hr as ([p c] & <- & He).
    apply Hkept in He as [He Hc]. simpl in *.
    set (k := occurrences q sequences) in *.
    assert (Hin : In (q, k) ranking) by (apply Hranked; [exact Hq | lia]).
    rewrite <- (firstn_skipn 5 ranking) in Hin.
    apply in_app_or in Hin as [Hin | Hin].
    + apply in_map_iff. exists (report_of n (q, k)). split; [reflexivity |].
      apply in_map, Hkept. split; [exact Hin | simpl; lia].
    + pose proof (descending_cut 5 ranking (p, c) (q, k) Hsorted He Hin) as Hle.
      simpl in Hle. lia.
  - intros q Hq Hocc.
    set (k := occurrences q sequences) in *.
    assert (Hin : In (q, k) ranking) by (apply Hranked; [exact Hq | lia]).
    rewrite <- (firstn_skipn 5 ranking) in Hin.
    apply in_app_or in Hin as [Hin | Hin].
    + left. apply in_map_iff. exists (report_of n (q, k)).
      split; [reflexivity |].
      apply in_map, Hkept. split; [exact Hin | simpl; lia].
    + right.
      assert (Hfull : length (firstn 5 ranking) = 5%nat).
      { rewrite length_firstn.
        assert (Hrest : (0 < length (skipn 5 ranking))%nat)
          by (destruct (skipn 5 ranking); [contradiction | simpl; lia]).
        rewrite length_skipn in Hrest. lia. }
      assert (Habove : forall e, In e (firstn 5 ranking) -> (k <= snd e)%nat).
      { intros e He.
        apply (descending_cut 5 ranking e (q, k) Hsorted He Hin). }
      assert (Hall : kept = firstn 5 ranking).
      { unfold kept. clear Hkept Hfull.
        induction (firstn 5 ranking) as [| e rest IH]; [reflexivity |].
        cbn [List.filter].
        assert (He : (1 <? snd e)%nat = true).
        { apply Nat.ltb_lt. specialize (Habove e (or_introl eq_refl)). lia. }
        rewrite He. f_equal. apply IH.
        intros e' He'. apply Habove. now right. }
      split; [rewrite length_map, Hall; exact Hfull |].
      intros r Hr. apply in_map_iff in Hr as (e & <- & He).
      rewrite Hall in He. simpl. now apply Habove.
Qed.

Lemma common_patterns_spec_witness :
  exists l,
    _find_common_patterns [["x"; "y"; "x"; "y"]; ["x"; "y"]] = Ok l /\
    In ["x"; "y"] (map pattern l) /\
    (forall r, In r l ->
       pattern r = ["x"; "y"] /\ frequency r = 3%nat /\
       (percentage r == 150)%Q).
Proof.
  destruct common_patterns_spec as [_ Hgeneral].
  destruct (Hgeneral [["x"; "y"; "x"; "y"]; ["x"; "y"]])
    as (l & Hl & _ & _ & _ & Hreported & _ & Hcomplete).
  exists l. split; [exact Hl |].
  assert (Hone : exists r, l = [r] /\ pattern r = ["x"; "y"]).
  { vm_compute in Hl. injection Hl as <-. eexists. split; reflexivity. }
  destruct Hone as (r0 & -> & Hp0).
  split.
  - destruct (Hcomplete ["x"; "y"]) as [Hin | [Hlen _]];
      [simpl; lia | vm_compute; lia | exact Hin | discriminate Hlen].
  - intros r [<- | []].
    destruct (Hreported r0 (or_introl eq_refl)) as (_ & Hfreq & _ & Hpct).
    rewrite Hp0 in Hfreq.
    assert (Hthree : frequency r0 = 3%nat) by (rewrite Hfreq; reflexivity).
    split; [exact Hp0 |]. split; [exact Hthree |].
    rewrite Hpct, Hthree. reflexivity.
Defined.

End MinerFacts.

(** ** The learning module *)

Module LearningFacts.

Import AutoLearning Notions.

Ltac bind_in H :=
  match type of H with
  | context [mbind _ ?x] =>
      let E := fresh "E" in
      destruct x eqn:E; simpl in H; try discriminate H
  end.

Example insights_example :
  map insight_text (@_generate_insights Demo.lib Demo.sample_results)
  = ["Top performing keywords: alpha, beta";
     "Best posting times for twitter: 9, 17:00";
     "Average customer needs 2.5 touchpoints before conversion"].
Proof. vm_compute. reflexivity. Qed.

(** The strategy read back from the text of these insights; the last
    hour keeps the ":00" the text ends with. *)
Example strategy_example :
  @derive_strategy Demo.lib (@_generate_insights Demo.lib Demo.sample_results)
  = {| priority_keywords := Some ["alpha"; "beta"];
       timing_strategy := [("twitter", ["9"; "17:00"])];
       recommended_touchpoints := Some (inject_Z 2 + inject_Z 5 / inject_Z (10 ^ 1))%Q;
       content_preferences := None |}.
Proof. vm_compute. reflexivity. Qed.

Example optimizations_present :
  apply_learned_optimizations {| db := ∅; learning_patterns := Demo.learned |}
    "post" "twitter"
  = Some {| recommended_keywords := JArr [];
            optimal_length := JArr [JInt 80; JInt 120];
            best_posting_time := JNull; content_style := JStr "general" |}.
Proof. reflexivity. Qed.

Lemma body_absent patterns content_type platform o :
  platform_absent patterns platform ->
  optimizations_body patterns content_type platform = Ok o ->
  optimal_length o = JNull.
Proof.
  intros (lengths & Hl & Habs) Hbody.
  unfold learned_lengths in Hl. unfold optimizations_body in Hbody.
  destruct (dict_get patterns "analysis_results" (JObj [])) as [ar | e];
    simpl in *; [| discriminate].
  destruct (dict_get ar "content_performance" (JObj [])) as [cp | e];
    simpl in *; [| discriminate].
  rewrite Hl in Hbody.
  destruct (dict_get_none cp "high_performing_keywords") as [kw | e];
    simpl in Hbody; [| discriminate].
  destruct (if truthy kw then slice_to 5 kw else Ok (JArr [])) as [kws | e];
    simpl in Hbody; [| discriminate].
  rewrite Habs in Hbody. simpl in Hbody.
  repeat bind_in Hbody.
  injection Hbody as <-. reflexivity.
Qed.

Lemma body_default patterns content_type platform lengths entry o :
  learned_lengths patterns = Ok (JObj lengths) ->
  assoc_get platform lengths = Some (JObj entry) ->
  assoc_get "recommended_range" entry = None ->
  optimizations_body patterns content_type platform = Ok o ->
  optimal_length o = default_range.
Proof.
  intros Hl Hentry Hrange Hbody.
  unfold learned_lengths in Hl. unfold optimizations_body in Hbody.
  destruct (dict_get patterns "analysis_results" (JObj [])) as [ar | e];
    simpl in *; [| discriminate].
  destruct (dict_get ar "content_performance" (JObj [])) as [cp | e];
    simpl in *; [| discriminate].
  rewrite Hl in Hbody.
  destruct (dict_get_none cp "high_performing_keywords") as [kw | e];
    simpl in Hbody; [| discriminate].
  destruct (if truthy kw then slice_to 5 kw else Ok (JArr [])) as [kws | e];
    simpl in Hbody; [| discriminate].
  rewrite Hentry in Hbody. simpl in Hbody. rewrite Hrange in Hbody.
  simpl in Hbody.
  repeat bind_in Hbody.
  injection Hbody as <-. reflexivity.
Qed.

(** C8, as the code has it. For a platform absent from the learned
    [optimal_content_length] data the returned [optimal_length] is
    [None]: the [100, 200] default is not applied there. The default is
    what is returned for a platform whose learned entry is a dict without
    [recommended_range]. Before anything was learned (no
    [analysis_results] in the patterns) all four defaults are returned,
    [optimal_length] being [None]. *)
Theorem optimal_length_fallback (m : learning_module)
    (content_type platform : string) :
  (platform_absent (learning_patterns m) platform ->
   match apply_learned_optimizations m content_type platform with
   | Some o => optimal_length o = JNull
   | None => True
   end) /\
  (forall lengths entry,
     learned_lengths (learning_patterns m) = Ok (JObj lengths) ->
     assoc_get platform lengths = Some (JObj entry) ->
     assoc_get "recommended_range" entry = None ->
     match apply_learned_optimizations m content_type platform with
     | Some o => optimal_length o = default_range
     | None => True
     end) /\
  (forall fields,
     learning_patterns m = JObj fields ->
     assoc_get "analysis_results" fields = None ->
     apply_learned_optimizations m content_type platform
     = Some {| recommended_keywords := JArr []; optimal_length := JNull;
               best_posting_time := JNull; content_style := JStr "general" |}).
Proof.
  split; [| split].
  - intros Habs. unfold apply_learned_optimizations.
    destruct (optimizations_body (learning_patterns m) content_type platform)
      as [o | e] eqn:Hbody; [| exact I].
    eapply body_absent; eauto.
  - intros lengths entry Hl Hentry Hrange. unfold apply_learned_optimizations.
    destruct (optimizations_body (learning_patterns m) content_type platform)
      as [o | e] eqn:Hbody; [| exact I].
    eapply body_default; eauto.
  - intros fields Hfields Hnone. unfold apply_learned_optimizations.
    rewrite Hfields. unfold optimizations_body. simpl. rewrite Hnone.
    reflexivity.
Qed.

Lemma optimal_length_fallback_witness :
  apply_learned_optimizations {| db := ∅; learning_patterns := Demo.learned |}
    "post" "discord"
  = Some {| recommended_keywords := JArr []; optimal_length := JNull;
            best_posting_time := JNull; content_style := JStr "general" |} /\
  match apply_learned_optimizations
          {| db := ∅; learning_patterns := Demo.learned |} "post" "discord" with
  | Some o => optimal_length o = JNull
  | None => True
  end /\
  match apply_learned_optimizations
          {| db := ∅; learning_patterns := Demo.learned |} "post" "mastodon" with
  | Some o => optimal_length o = default_range
  | None => True
  end /\
  apply_learned_optimizations
    {| db := ∅; learning_patterns := initial_patterns |} "post" "twitter"
  = Some {| recommended_keywords := JArr []; optimal_length := JNull;
            best_posting_time := JNull; content_style := JStr "general" |}.
Proof.
  split; [reflexivity |]. split; [| split].
  - apply (optimal_length_fallback
             {| db := ∅; learning_patterns := Demo.learned |} "post" "discord").
    eexists. split; reflexivity.
  - eapply (proj1 (proj2 (optimal_length_fallback
             {| db := ∅; learning_patterns := Demo.learned |} "post" "mastodon")));
      reflexivity.
  - eapply (proj2 (proj2 (optimal_length_fallback
             {| db := ∅; learning_patterns := initial_patterns |} "post" "twitter")));
      reflexivity.
Defined.

(** C8 as stated fails: discord is absent from the learned lengths, and
    the returned [optimal_length] is [None], not [100, 200]. *)
Lemma absent_platform_gets_no_length :
  platform_absent Demo.learned "discord" /\
  exists o,
    apply_learned_optimizations
      {| db := ∅; learning_patterns := Demo.learned |} "post" "discord" = Some o /\
    optimal_length o = JNull /\ optimal_length o <> JArr [JInt 100; JInt 200].
Proof.
  split.
  - eexists. split; reflexivity.
  - eexists. split; [reflexivity |]. split; [reflexivity | discriminate].
Qed.

(** *** The store under the writes of a cycle *)

Lemma assoc_get_set_eq {V : Type} k (v : V) l :
  assoc_get k (assoc_set k v l) = Some v.
Proof.
  induction l as [| [k' v'] rest IH]; simpl.
  - now rewrite String.eqb_refl.
  - destruct (String.eqb k k') eqn:E; simpl; rewrite E; [reflexivity | exact IH].
Qed.

Lemma hgetall_set (db : gmap string rvalue) key value k :
  (forall h, db !! key <> Some (RHash h)) ->
  hgetall (db_set db key value) k = hgetall db k.
Proof.
  intros Hdoc. unfold hgetall, db_set.
  destruct (decide (key = k)) as [-> | Hne].
  - rewrite lookup_insert_eq.
    destruct (db !! k) as [[s | l | h] |] eqn:E; try reflexivity.
    exfalso. exact (Hdoc h eq_refl).
  - now rewrite lookup_insert_ne.
Qed.

Lemma lrange_set (db : gmap string rvalue) key value k stop :
  key <> k -> lrange (db_set db key value) k stop = lrange db k stop.
Proof.
  intros Hne. unfold lrange, db_set. now rewrite lookup_insert_ne.
Qed.

Lemma fetch_set (db : gmap string rvalue) key value k stop :
  (forall h, db !! key <> Some (RHash h)) -> key <> k ->
  fetch (db_set db key value) k stop = fetch db k stop.
Proof.
  intros Hdoc Hne. unfold fetch. rewrite lrange_set by exact Hne.
  apply map_ext. intros a. now apply hgetall_set.
Qed.

Lemma documents_after_set (db : gmap string rvalue) key value :
  documents_are_strings db -> documents_are_strings (db_set db key value).
Proof.
  intros Hdocs k h Hk. unfold db_set.
  destruct (decide (key = k)) as [-> | Hne].
  - rewrite lookup_insert_eq. discriminate.
  - rewrite lookup_insert_ne by exact Hne. now apply Hdocs.
Qed.

Section Cycle.
Context `{PyLib} `{Analyses}.

(** Writing a document leaves what the three analyses read as it was. *)
Lemma analyses_after_set (db : gmap string rvalue) key value :
  key = "strategy_updates" \/ key = "learning_patterns" ->
  documents_are_strings db ->
  _analyze_content_performance (db_set db key value)
    = _analyze_content_performance db /\
  _analyze_timing_patterns (db_set db key value) = _analyze_timing_patterns db /\
  _analyze_sales_patterns (db_set db key value) = _analyze_sales_patterns db.
Proof.
  intros Hkey Hdocs.
  assert (Hdoc : forall h, db !! key <> Some (RHash h))
    by (intros h; now apply Hdocs).
  unfold _analyze_content_performance, _analyze_timing_patterns,
    _analyze_sales_patterns, platforms.
  cbn [map].
  rewrite !fetch_set; try exact Hdoc; try (repeat split; reflexivity);
    destruct Hkey as [-> | ->]; intros E; simpl in E; discriminate E.
Qed.

(** The update of the patterns goes through exactly when [cycle_count]
    is absent or a number, and adds one to it. *)
Lemma updated_patterns_ok now results insights patterns c :
  cycle_count patterns = Some c ->
  exists patterns',
    updated_patterns now results insights patterns = Ok patterns' /\
    exists c', cycle_count patterns' = Some c' /\ (c' == c + 1)%Q.
Proof.
  unfold cycle_count, updated_patterns.
  destruct patterns as [| b | n | q | s | items | fields]; simpl;
    try discriminate.
  intros Hc.
  destruct (match assoc_get "cycle_count" fields with
            | Some v => v
            | None => JInt 0
            end) as [| b | n | q | s | items | fs]; simpl in *;
    try discriminate; injection Hc as <-;
    (eexists; split; [reflexivity |]); simpl;
    rewrite assoc_get_set_eq; simpl; (eexists; split; [reflexivity |]).
  - destruct b; reflexivity.
  - unfold Qeq; simpl. lia.
  - reflexivity.
Qed.

Lemma updated_patterns_raise now results insights patterns e :
  updated_patterns now results insights patterns = Raise e ->
  cycle_count patterns = None /\ (e = AttributeError \/ e = TypeError).
Proof.
  unfold cycle_count, updated_patterns.
  destruct patterns as [| b | n | q | s | items | fields]; simpl;
    try (intros Hr; injection Hr as <-; auto).
  destruct (match assoc_get "cycle_count" fields with
            | Some v => v
            | None => JInt 0
            end) as [| b | n | q | s | items | fs]; simpl;
    try discriminate; intros Hr; injection Hr as <-; auto.
Qed.

Lemma updated_patterns_none now results insights patterns :
  cycle_count patterns = None ->
  exists e, updated_patterns now results insights patterns = Raise e.
Proof.
  intros Hnone.
  destruct (updated_patterns now results insights patterns) as [p | e] eqn:Hu;
    [| eauto].
  exfalso. revert Hnone Hu. unfold cycle_count, updated_patterns.
  destruct patterns as [| b | n | q | s | items | fields]; simpl;
    try discriminate.
  destruct (match assoc_get "cycle_count" fields with
            | Some v => v
            | None => JInt 0
            end) as [| b | n | q | s | items | fs]; simpl; discriminate.
Qed.

(** The analysis document of a cycle *)
Lemma results_after_writes (store : gmap string rvalue) v1 v2 :
  documents_are_strings store ->
  let store' := db_set (db_set store "strategy_updates" v1) "learning_patterns" v2 in
  _analyze_content_performance store' = _analyze_content_performance store /\
  _analyze_timing_patterns store' = _analyze_timing_patterns store /\
  _analyze_sales_patterns store' = _analyze_sales_patterns store.
Proof.
  intros Hdocs store'. unfold store'.
  destruct (analyses_after_set (db_set store "strategy_updates" v1)
              "learning_patterns" v2) as (E1 & E2 & E3);
    [now right | now apply documents_after_set |].
  destruct (analyses_after_set store "strategy_updates" v1) as (F1 & F2 & F3);
    [now left | exact Hdocs |].
  rewrite E1, E2, E3, F1, F2, F3. auto.
Qed.

(** A call that finds a usable [cycle_count] returns the summary and
    leaves the module with the updated patterns, saved. *)
Lemma cycle_succeeds now done (m : learning_module) c :
  cycle_count (learning_patterns m) = Some c ->
  exists p c',
    run_learning_cycle now done m
    = (CycleSummary
         {| cycle_completed_at := done;
            insights_generated :=
              length (_generate_insights (cycle_results (db m)));
            analysis_results := cycle_results (db m);
            insights := _generate_insights (cycle_results (db m));
            improvements_implemented :=
              length (List.filter is_high
                        (_generate_insights (cycle_results (db m)))) |},
       _save_patterns
         {| db := _update_strategies
                    (_generate_insights (cycle_results (db m))) (db m);
            learning_patterns := p |}) /\
    cycle_count p = Some c' /\ (c' == c + 1)%Q.
Proof.
  intros Hc. unfold run_learning_cycle. fold (cycle_results (db m)).
  cbn [db learning_patterns].
  destruct (updated_patterns_ok now (cycle_results (db m))
              (_generate_insights (cycle_results (db m)))
              (learning_patterns m) c Hc) as (p & Hp & c' & Hc' & Hq).
  rewrite Hp. exists p, c'. auto.
Qed.

(** C2, as the code has it. When an exception escapes
    [run_learning_cycle] the call returns [{"error": ...}]; the patterns
    in memory and the persisted [learning_patterns] document, like every
    key other than [strategy_updates], are as they were before the call.
    The [strategy_updates] document has already been written by
    [_update_strategies] at that point and is not restored. The call
    fails exactly when the patterns are not a dict or their
    [cycle_count] is not a number. *)
Theorem failed_cycle_effects (now done : string) (m : learning_module) :
  ((exists e m', run_learning_cycle now done m = (CycleError e, m'))
   <-> cycle_count (learning_patterns m) = None) /\
  forall e m', run_learning_cycle now done m = (CycleError e, m') ->
    learning_patterns m' = learning_patterns m /\
    db m' !! "learning_patterns" = db m !! "learning_patterns" /\
    (forall key, key <> "strategy_updates" -> db m' !! key = db m !! key) /\
    exists insights,
      db m' = _update_strategies insights (db m) /\
      db m' !! "strategy_updates"
      = Some (RStr (json_dumps (strategy_json (derive_strategy insights)))).
Proof.
  unfold run_learning_cycle.
  set (results := cycle_results (db m)).
  set (insights := _generate_insights results). cbn [db learning_patterns].
  split; [split |].
  - intros (e & m' & Hrun).
    destruct (updated_patterns now results insights (learning_patterns m))
      as [p | e'] eqn:Hu; [discriminate |].
    now apply updated_patterns_raise in Hu as [Hnone _].
  - intros Hnone.
    destruct (updated_patterns_none now results insights _ Hnone) as [e Hu].
    rewrite Hu. eauto.
  - intros e m' Hrun.
    destruct (updated_patterns now results insights (learning_patterns m))
      as [p | e'] eqn:Hu; [discriminate |].
    injection Hrun as <- <-. cbn [db learning_patterns].
    split; [reflexivity |].
    unfold _update_strategies, db_set.
    split; [now rewrite lookup_insert_ne |].
    split; [intros key Hkey; now rewrite lookup_insert_ne |].
    exists insights. split; [reflexivity |]. apply lookup_insert_eq.
Qed.



(** Every call that returns a summary has found a [cycle_count] (absent
    counts as 0), leaves one that is higher by exactly 1, and has
    persisted the patterns it leaves. *)
Lemma successful_cycle_counts now done (m m' : learning_module) s :
  run_learning_cycle now done m = (CycleSummary s, m') ->
  exists c c',
    cycle_count (learning_patterns m) = Some c /\
    cycle_count (learning_patterns m') = Some c' /\ (c' == c + 1)%Q /\
    db m' !! "learning_patterns"
      = Some (RStr (json_dumps (learning_patterns m'))).
Proof.
  intros Hrun.
  destruct (cycle_count (learning_patterns m)) as [c |] eqn:Hc.
  - destruct (cycle_succeeds now done m c Hc) as (p & c' & Hrun' & Hc' & Hq).
    rewrite Hrun' in Hrun. injection Hrun as _ <-.
    exists c, c'. cbn [learning_patterns db _save_patterns].
    split; [reflexivity |]. split; [exact Hc' |]. split; [exact Hq |].
    unfold db_set. apply lookup_insert_eq.
  - unfold run_learning_cycle in Hrun.
    destruct (updated_patterns_none now (cycle_results (db m))
                (_generate_insights (cycle_results (db m)))
                (learning_patterns m) Hc) as [e He].
    cbn [db learning_patterns] in Hrun. rewrite He in Hrun. discriminate.
Qed.

(** C7. Two successive cycles over a store that nothing else writes to
    produce the same insights (and the same analysis document): what the
    first cycle persists is not read by the analyses of the second.
    Every call that returns a summary persists the patterns with a
    [cycle_count] exactly one above the count it found, so the persisted
    count grows by 1 with each of the two calls. For the two calls to
    succeed the module starts from patterns whose [cycle_count] is
    absent or a number, and the store keeps its two documents as
    strings. *)
Theorem learning_cycle_repeatable
    (now1 done1 now2 done2 : string) (m : learning_module) (c : Q) :
  (forall now done m0 m0' s,
     run_learning_cycle now done m0 = (CycleSummary s, m0') ->
     exists c0 c0',
       cycle_count (learning_patterns m0) = Some c0 /\
       cycle_count (learning_patterns m0') = Some c0' /\ (c0' == c0 + 1)%Q /\
       db m0' !! "learning_patterns"
         = Some (RStr (json_dumps (learning_patterns m0')))) /\
  (documents_are_strings (db m) ->
   cycle_count (learning_patterns m) = Some c ->
   exists s1 m1 s2 m2 c1 c2,
     run_learning_cycle now1 done1 m = (CycleSummary s1, m1) /\
     run_learning_cycle now2 done2 m1 = (CycleSummary s2, m2) /\
     insights s2 = insights s1 /\
     analysis_results s2 = analysis_results s1 /\
     db m1 !! "learning_patterns"
       = Some (RStr (json_dumps (learning_patterns m1))) /\
     db m2 !! "learning_patterns"
       = Some (RStr (json_dumps (learning_patterns m2))) /\
     cycle_count (learning_patterns m1) = Some c1 /\ (c1 == c + 1)%Q /\
     cycle_count (learning_patterns m2) = Some c2 /\ (c2 == c1 + 1)%Q).
Proof.
  split; [intros now done m0 m0' s; apply successful_cycle_counts |].
  intros Hdocs Hc.
  destruct (cycle_succeeds now1 done1 m c Hc) as (p1 & c1 & Hrun1 & Hc1 & Hq1).
  set (found := _generate_insights (cycle_results (db m))) in *.
  set (m1 := _save_patterns
               {| db := _update_strategies found (db m); learning_patterns := p1 |})
    in *.
  assert (Hresults : cycle_results (db m1) = cycle_results (db m)).
  { unfold cycle_results, m1, _save_patterns, _update_strategies.
    cbn [db learning_patterns].
    destruct (results_after_writes (db m)
                (json_dumps (strategy_json (derive_strategy found)))
                (json_dumps p1) Hdocs) as (E1 & E2 & E3).
    rewrite E1, E2, E3. reflexivity. }
  destruct (cycle_succeeds now2 done2 m1 c1 Hc1) as (p2 & c2 & Hrun2 & Hc2 & Hq2).
  rewrite Hresults in Hrun2. fold found in Hrun2.
  eexists _, m1, _, _, c1, c2.
  split; [exact Hrun1 |]. split; [exact Hrun2 |].
  cbn [insights analysis_results].
  split; [reflexivity |]. split; [reflexivity |].
  split; [unfold m1, _save_patterns, db_set; cbn [db learning_patterns];
          apply lookup_insert_eq |].
  split; [unfold _save_patterns, db_set; cbn [db learning_patterns];
          apply lookup_insert_eq |].
  split; [exact Hc1 |]. split; [exact Hq1 |].
  split; [exact Hc2 | exact Hq2].
Qed.


End Cycle.

Lemma failed_cycle_effects_witness :
  Demo.odd_outcome = (CycleError TypeError, snd Demo.odd_outcome) /\
  learning_patterns (snd Demo.odd_outcome) = learning_patterns Demo.odd_module /\
  db (snd Demo.odd_outcome) !! "learning_patterns"
    = db Demo.odd_module !! "learning_patterns".
Proof.
  assert (Hrun : Demo.odd_outcome = (CycleError TypeError, snd Demo.odd_outcome)).
  { rewrite (surjective_pairing Demo.odd_outcome) at 1.
    apply (f_equal (fun r => (r, snd Demo.odd_outcome))).
    vm_compute. reflexivity. }
  split; [exact Hrun |].
  destruct (@failed_cycle_effects Demo.lib Demo.analyses "t0" "t1"
              Demo.odd_module) as [_ Hfail].
  destruct (Hfail TypeError (snd Demo.odd_outcome) Hrun) as (Hmem & Hdoc & _).
  split; [exact Hmem | exact Hdoc].
Defined.

(** C2 as stated fails. The store holds a patterns document that is a
    JSON object with a [cycle_count] that is text; [initialize] loads
    it, and the cycle ends in the TypeError of adding 1 to that count,
    after [_update_strategies] has run: the call returns the error, and
    the store that had no [strategy_updates] document before the call
    holds one after it. *)
Lemma failed_cycle_writes_strategy :
  db Demo.odd_module !! "learning_patterns"
    = Some (RStr (Demo.dumps (JObj [("cycle_count", JStr "three")]))) /\
  learning_patterns Demo.odd_module = JObj [("cycle_count", JStr "three")] /\
  fst Demo.odd_outcome = CycleError TypeError /\
  db Demo.odd_module !! "strategy_updates" = None /\
  db (snd Demo.odd_outcome) !! "strategy_updates"
    = Some (RStr Demo.empty_strategy_document) /\
  db (snd Demo.odd_outcome) <> db Demo.odd_module.
Proof.
  split; [vm_compute; reflexivity |].
  split; [vm_compute; reflexivity |].
  split; [vm_compute; reflexivity |].
  split; [vm_compute; reflexivity |].
  split; [vm_compute; reflexivity |].
  intros Heq. apply (f_equal (fun d => d !! "strategy_updates")) in Heq.
  vm_compute in Heq. discriminate Heq.
Qed.

Lemma learning_cycle_repeatable_witness :
  exists s1 m1 s2 m2 c1 c2,
    @run_learning_cycle Demo.lib Demo.analyses "t0" "t1" Demo.fresh_module
      = (CycleSummary s1, m1) /\
    @run_learning_cycle Demo.lib Demo.analyses "t2" "t3" m1
      = (CycleSummary s2, m2) /\
    insights s2 = insights s1 /\
    analysis_results s2 = analysis_results s1 /\
    db m1 !! "learning_patterns"
      = Some (RStr (Demo.dumps (learning_patterns m1))) /\
    db m2 !! "learning_patterns"
      = Some (RStr (Demo.dumps (learning_patterns m2))) /\
    cycle_count (learning_patterns m1) = Some c1 /\ (c1 == 0 + 1)%Q /\
    cycle_count (learning_patterns m2) = Some c2 /\ (c2 == c1 + 1)%Q.
Proof.
  apply (@learning_cycle_repeatable Demo.lib Demo.analyses
           "t0" "t1" "t2" "t3" Demo.fresh_module 0).
  - intros key h [-> | ->]; vm_compute; discriminate.
  - vm_compute. reflexivity.
Defined.

Example second_cycle_count :
  cycle_count
    (learning_patterns
       (snd (@run_learning_cycle Demo.lib Demo.analyses "t2" "t3"
               (snd (@run_learning_cycle Demo.lib Demo.analyses "t0" "t1"
                       Demo.fresh_module)))))
  = Some (inject_Z 2).
Proof. vm_compute. reflexivity. Qed.

End LearningFacts.

(** ** The calendar and the three windows *)

Module CalendarFacts.
Import Datetime Analytics.

Lemma is_leap_spec y :
  is_leap y = true <-> (y mod 4 = 0 /\ (y mod 100 <> 0 \/ y mod 400 = 0)).
Proof.
  unfold is_leap.
  rewrite andb_true_iff, orb_true_iff, negb_true_iff, !Z.eqb_eq, Z.eqb_neq.
  tauto.
Qed.

Ltac month_cases m :=
  let H := fresh "Hcases" in
  assert (H : m = 1 \/ m = 2 \/ m = 3 \/ m = 4 \/ m = 5 \/ m = 6 \/ m = 7
              \/ m = 8 \/ m = 9 \/ m = 10 \/ m = 11 \/ m = 12) by lia;
  repeat (destruct H as [H | H]; [subst m |]); try subst m.

Lemma days_before_next_month y m :
  1 <= m <= 11 ->
  days_before_month y (m + 1) = days_before_month y m + days_in_month y m.
Proof.
  intros Hm. unfold days_before_month, days_in_month.
  month_cases m; try lia; destruct (is_leap y); reflexivity.
Qed.

Lemma days_before_month_12 y :
  days_before_month y 12 = 334 + (if is_leap y then 1 else 0).
Proof. unfold days_before_month. destruct (is_leap y); reflexivity. Qed.

Lemma month_of_inv fuel : forall y m n,
  1 <= m -> m + Z.of_nat fuel = 12 -> 0 <= n ->
  days_before_month y m + n < 365 + (if is_leap y then 1 else 0) ->
  exists m' d, month_of fuel y m n = (m', d) /\ m <= m' <= 12 /\
               1 <= d <= days_in_month y m' /\
               days_before_month y m' + d = days_before_month y m + n + 1.
Proof.
  induction fuel as [| fuel IH]; intros y m n Hm Hfuel Hn Hlt.
  - assert (m = 12) by lia. subst m. exists 12, (n + 1). simpl.
    rewrite days_before_month_12 in *.
    split; [reflexivity |]. unfold days_in_month. simpl. lia.
  - cbn [month_of].
    destruct (Z.ltb_spec n (days_in_month y m)) as [Hin | Hout].
    + exists m, (n + 1). split; [reflexivity |]. lia.
    + destruct (IH y (m + 1) (n - days_in_month y m)) as (m' & d & E & Hm' & Hd & Hsum);
        try lia.
      * rewrite days_before_next_month by lia. lia.
      * exists m', d. rewrite E. split; [reflexivity |].
        rewrite days_before_next_month in Hsum by lia. lia.
Qed.

(** A day number of the calendar is the number of the date it decodes to. *)
Lemma ord2ymd_spec n :
  0 < n <= MAXORDINAL ->
  exists y m d, ord2ymd n = (y, m, d) /\
    MINYEAR <= y <= MAXYEAR /\ 1 <= m <= 12 /\ 1 <= d <= days_in_month y m /\
    ymd2ord y m d = n.
Proof.
  intros Hn. unfold ord2ymd, MAXORDINAL, MINYEAR, MAXYEAR in *.
  set (n0 := n - 1).
  set (n400 := n0 / 146097). set (r1 := n0 mod 146097).
  set (n100 := r1 / 36524). set (r2 := r1 mod 36524).
  set (n4 := r2 / 1461). set (r3 := r2 mod 1461).
  set (n1 := r3 / 365). set (r4 := r3 mod 365).
  set (y := n400 * 400 + 1 + n100 * 100 + n4 * 4 + n1).
  assert (Hfacts :
    n0 = 146097 * n400 + r1 /\ 0 <= r1 < 146097 /\
    r1 = 36524 * n100 + r2 /\ 0 <= r2 < 36524 /\
    r2 = 1461 * n4 + r3 /\ 0 <= r3 < 1461 /\
    r3 = 365 * n1 + r4 /\ 0 <= r4 < 365 /\ 0 <= n0 < 3652059 /\ n = n0 + 1).
  { unfold n400, r1, n100, r2, n4, r3, n1, r4, n0.
    repeat split; try (apply Z.div_mod; lia); try (apply Z.mod_pos_bound; lia); lia. }
  clearbody n400 r1 n100 r2 n4 r3 n1 r4 n0.
  destruct Hfacts as (E0 & B1 & E1 & B2 & E2 & B3 & E3 & B4 & B0 & En).
  assert (Hn400 : 0 <= n400 <= 24) by lia.
  assert (Hn100 : 0 <= n100 <= 4) by lia.
  assert (Hn4 : 0 <= n4 <= 24) by lia.
  assert (Hn1 : 0 <= n1 <= 4) by lia.
  destruct ((n1 =? 4) || (n100 =? 4)) eqn:Hedge.
  - exists (y - 1), 12, 31. split; [reflexivity |].
    apply orb_true_iff in Hedge. rewrite !Z.eqb_eq in Hedge.
    assert (Hleap : is_leap (y - 1) = true).
    { apply is_leap_spec. unfold y.
      destruct Hedge as [-> | ->].
      - assert (n4 <= 23) by lia.
        Z.to_euclidean_division_equations; lia.
      - assert (n4 = 0) by lia. assert (n1 = 0) by lia. subst n4 n1.
        Z.to_euclidean_division_equations; lia. }
    unfold ymd2ord, days_before_year, days_before_month, days_in_month.
    rewrite Hleap. cbn [Z.eqb Z.ltb Z.compare Pos.compare Pos.compare_cont Pos.eqb andb orb].
    unfold y.
    destruct Hedge as [-> | ->].
    + assert (n4 <= 23) by lia.
      Z.to_euclidean_division_equations; lia.
    + assert (n4 = 0) by lia. assert (n1 = 0) by lia. subst n4 n1.
      Z.to_euclidean_division_equations; lia.
  - apply orb_false_iff in Hedge. rewrite !Z.eqb_neq in Hedge.
    assert (Hjan : days_before_month y 1 = 0).
    { unfold days_before_month. now destruct (is_leap y). }
    destruct (month_of_inv 11 y 1 r4) as (m & d & E & Hm & Hd & Hsum).
    + lia.
    + reflexivity.
    + lia.
    + rewrite Hjan. destruct (is_leap y); lia.
    + rewrite E. exists y, m, d. split; [reflexivity |].
      rewrite Hjan in Hsum.
      assert (Hy : days_before_year y = n0 - r4).
      { unfold days_before_year, y.
        Z.to_euclidean_division_equations; lia. }
      unfold ymd2ord. rewrite Hy.
      repeat split; try lia; unfold y; lia.
Qed.


Lemma add_days_spec t n t' :
  valid t -> add_days t n = Ok t' ->
  valid t' /\ toordinal t' = toordinal t + n /\
  hour t' = hour t /\ minute t' = minute t /\ second t' = second t /\
  microsecond t' = microsecond t.
Proof.
  intros Hv Hadd. unfold add_days in Hadd.
  destruct ((0 <? toordinal t + n) && (toordinal t + n <=? MAXORDINAL)) eqn:Hr;
    [| discriminate].
  apply andb_true_iff in Hr. rewrite Z.ltb_lt, Z.leb_le in Hr.
  destruct (ord2ymd_spec (toordinal t + n)) as (y & m & d & E & Hy & Hm & Hd & Ho);
    [lia |].
  rewrite E in Hadd. injection Hadd as <-.
  unfold valid, toordinal in *. simpl. repeat split; try lia; tauto.
Qed.

Lemma add_days_ok t n :
  0 < toordinal t + n <= MAXORDINAL -> exists t', add_days t n = Ok t'.
Proof.
  intros Hr. unfold add_days.
  replace ((0 <? toordinal t + n) && (toordinal t + n <=? MAXORDINAL)) with true.
  - destruct (ord2ymd (toordinal t + n)) as [[y m] d]. eauto.
  - symmetry. apply andb_true_iff. rewrite Z.ltb_lt, Z.leb_le. lia.
Qed.

(** Days before a year grow with the year. *)
Lemma days_before_year_mono a b :
  1 <= a -> a <= b -> days_before_year a <= days_before_year b.
Proof.
  intros Ha Hab. unfold days_before_year.
  Z.to_euclidean_division_equations; lia.
Qed.

Lemma days_before_year_next y :
  1 <= y ->
  days_before_year (y + 1)
  = days_before_year y + 365 + (if is_leap y then 1 else 0).
Proof.
  intros Hy. unfold days_before_year.
  destruct (is_leap y) eqn:E.
  - apply is_leap_spec in E. Z.to_euclidean_division_equations; lia.
  - assert (Hn : ~ (y mod 4 = 0 /\ (y mod 100 <> 0 \/ y mod 400 = 0))).
    { intros H. apply is_leap_spec in H. congruence. }
    Z.to_euclidean_division_equations; lia.
Qed.

Lemma days_before_month_bounds y m d :
  1 <= m <= 12 -> 1 <= d <= days_in_month y m ->
  0 < days_before_month y m + d <= 365 + (if is_leap y then 1 else 0).
Proof.
  intros Hm. unfold days_before_month, days_in_month.
  month_cases m; destruct (is_leap y); simpl; lia.
Qed.

Lemma days_before_month_mono y m m' d :
  1 <= m -> m < m' -> m' <= 12 -> d <= days_in_month y m ->
  days_before_month y m + d <= days_before_month y m'.
Proof.
  intros Hm Hlt Hm' Hd. revert Hd. unfold days_before_month, days_in_month.
  month_cases m; try lia; month_cases m'; try lia;
    destruct (is_leap y); simpl; lia.
Qed.

(** On valid dates the day number orders as the date does. *)
Lemma toordinal_lt_date a b :
  valid a -> valid b -> toordinal a < toordinal b ->
  year a < year b \/
  (year a = year b /\
   (month a < month b \/ (month a = month b /\ day a < day b))).
Proof.
  intros (Hya & Hma & Hda & _) (Hyb & Hmb & Hdb & _).
  unfold toordinal, ymd2ord, MINYEAR, MAXYEAR in *. intros Hlt.
  destruct (Z.lt_trichotomy (year a) (year b)) as [Hy | [Hy | Hy]]; [now left | |].
  - right. split; [exact Hy |]. rewrite Hy in *.
    destruct (Z.lt_trichotomy (month a) (month b)) as [Hm | [Hm | Hm]];
      [now left | |].
    + right. split; [exact Hm |]. rewrite Hm in *. lia.
    + pose proof (days_before_month_mono (year b) (month b) (month a) (day b)).
      lia.
  - pose proof (days_before_year_mono (year b + 1) (year a)).
    pose proof (days_before_year_next (year b)).
    pose proof (days_before_month_bounds (year b) (month b) (day b)).
    pose proof (days_before_month_bounds (year a) (month a) (day a)).
    destruct (is_leap (year b)); lia.
Qed.

Lemma lex_date_lt a b :
  year a < year b \/
  (year a = year b /\
   (month a < month b \/ (month a = month b /\ day a < day b))) ->
  lex_ltb (dt_fields a) (dt_fields b) = true.
Proof.
  intros H. unfold dt_fields, lex_ltb.
  repeat match goal with
         | |- context [if ?x <? ?y then _ else _] => destruct (Z.ltb_spec x y)
         end; try reflexivity; lia.
Qed.

Lemma lex_midnight_le t :
  valid t ->
  lex_leb (dt_fields (mk (year t) (month t) (day t) 0 0 0 0)) (dt_fields t)
  = true.
Proof.
  intros (_ & _ & _ & Hh & Hmi & Hs & Hus). unfold dt_fields, lex_leb. simpl.
  repeat match goal with
         | |- context [if ?x <? ?y then _ else _] => destruct (Z.ltb_spec x y)
         end; try reflexivity; lia.
Qed.

Lemma lex_date_le a b :
  valid b -> hour a = 0 -> minute a = 0 -> second a = 0 -> microsecond a = 0 ->
  year a < year b \/
  (year a = year b /\
   (month a < month b \/ (month a = month b /\ day a <= day b))) ->
  lex_leb (dt_fields a) (dt_fields b) = true.
Proof.
  intros (_ & _ & _ & Hh & Hmi & Hs & Hus) Ha1 Ha2 Ha3 Ha4 H.
  unfold dt_fields, lex_leb. rewrite Ha1, Ha2, Ha3, Ha4.
  repeat match goal with
         | |- context [if ?x <? ?y then _ else _] => destruct (Z.ltb_spec x y)
         end; try reflexivity; lia.
Qed.


Lemma date_lt_toordinal a b :
  valid a -> valid b ->
  year a < year b \/
  (year a = year b /\
   (month a < month b \/ (month a = month b /\ day a < day b))) ->
  toordinal a < toordinal b.
Proof.
  intros (Hya & Hma & Hda & _) (Hyb & Hmb & Hdb & _).
  unfold toordinal, ymd2ord, MINYEAR, MAXYEAR in *.
  intros [Hy | [Hy [Hm | [Hm Hd]]]].
  - pose proof (days_before_year_mono (year a + 1) (year b)).
    pose proof (days_before_year_next (year a)).
    pose proof (days_before_month_bounds (year a) (month a) (day a)).
    pose proof (days_before_month_bounds (year b) (month b) (day b)).
    destruct (is_leap (year a)); lia.
  - rewrite Hy in *.
    pose proof (days_before_month_mono (year b) (month a) (month b) (day a)).
    lia.
  - rewrite Hy, Hm in *. lia.
Qed.

Lemma toordinal_inj a b :
  valid a -> valid b -> toordinal a = toordinal b ->
  year a = year b /\ month a = month b /\ day a = day b.
Proof.
  intros Ha Hb Heq.
  destruct (Z.lt_trichotomy (year a) (year b)) as [H | [H | H]].
  - pose proof (date_lt_toordinal a b Ha Hb). lia.
  - destruct (Z.lt_trichotomy (month a) (month b)) as [H' | [H' | H']].
    + pose proof (date_lt_toordinal a b Ha Hb). lia.
    + destruct (Z.lt_trichotomy (day a) (day b)) as [H'' | [H'' | H'']].
      * pose proof (date_lt_toordinal a b Ha Hb). lia.
      * auto.
      * pose proof (date_lt_toordinal b a Hb Ha). lia.
    + pose proof (date_lt_toordinal b a Hb Ha). lia.
  - pose proof (date_lt_toordinal b a Hb Ha). lia.
Qed.

Lemma toordinal_le_date a b :
  valid a -> valid b -> toordinal a <= toordinal b ->
  year a < year b \/
  (year a = year b /\
   (month a < month b \/ (month a = month b /\ day a <= day b))).
Proof.
  intros Ha Hb Hle.
  destruct (Z.eq_dec (toordinal a) (toordinal b)) as [E | NE].
  - destruct (toordinal_inj a b Ha Hb E) as (Hy & Hm & Hd). right.
    split; [exact Hy |]. right. split; [exact Hm | lia].
  - destruct (toordinal_lt_date a b Ha Hb) as [H | [Hy [H | [Hm H]]]];
      [lia | tauto | | ].
    + right. split; [exact Hy |]. now left.
    + right. split; [exact Hy |]. right. split; [exact Hm | lia].
Qed.

Lemma valid_midnight t :
  valid t -> valid (mk (year t) (month t) (day t) 0 0 0 0).
Proof. unfold valid; simpl. lia. Qed.

(** The window test between two midnights, by day numbers *)
Lemma in_window_by_ordinal s e now :
  valid s -> valid e -> valid now ->
  hour s = 0 -> minute s = 0 -> second s = 0 -> microsecond s = 0 ->
  toordinal s <= toordinal now < toordinal e ->
  in_window s e (Naive now) = Ok true.
Proof.
  intros Hs He Hnow H1 H2 H3 H4 [Hle Hlt]. unfold in_window.
  rewrite (lex_date_le s now Hnow H1 H2 H3 H4
             (toordinal_le_date s now Hs Hnow Hle)).
  rewrite (lex_date_lt now e (toordinal_lt_date now e Hnow He Hlt)).
  reflexivity.
Qed.

(** X1. The daily window runs from the midnight of [now] to the next
    midnight, and [now] lies inside it. It exists for every [now] before
    the last day of year 9999. *)
Theorem daily_window (now : datetime) :
  valid now -> toordinal now < MAXORDINAL ->
  exists start_date end_date,
    _get_date_range "daily" now = Ok (start_date, end_date) /\
    start_date = mk (year now) (month now) (day now) 0 0 0 0 /\
    valid end_date /\ toordinal end_date = toordinal now + 1 /\
    hour end_date = 0 /\ minute end_date = 0 /\ second end_date = 0 /\
    microsecond end_date = 0 /\
    in_window start_date end_date (Naive now) = Ok true.
Proof.
  intros Hv Hlast.
  set (s := mk (year now) (month now) (day now) 0 0 0 0).
  assert (Hs : valid s) by now apply valid_midnight.
  assert (Hos : toordinal s = toordinal now) by reflexivity.
  destruct (WindowerFacts.toordinal_bounds now Hv) as [[Hpos _] _].
  destruct (add_days_ok s 1) as [e He]; [lia |].
  destruct (add_days_spec s 1 e Hs He) as (Hve & Hoe & Hh & Hmi & Hse & Hus).
  exists s, e.
  assert (Hrange : _get_date_range "daily" now = Ok (s, e)).
  { unfold _get_date_range. simpl.
    rewrite (WindowerFacts.replace_midnight_valid now Hv). simpl. fold s.
    now rewrite He. }
  repeat match goal with |- _ /\ _ => split end;
    try assumption; try reflexivity; try lia.
  apply in_window_by_ordinal; try assumption; try reflexivity. lia.
Qed.

Lemma weekday_range t : valid t -> 0 <= weekday t <= 6 /\ weekday t < toordinal t.
Proof.
  intros Hv. destruct (WindowerFacts.toordinal_bounds t Hv) as [[Hpos _] _].
  unfold weekday. Z.to_euclidean_division_equations; lia.
Qed.

(** X2. The weekly window starts on a Monday at midnight, at most six
    days before [now], ends seven days later, and [now] lies inside it.
    It exists whenever the Monday after it is inside the calendar. *)
Theorem weekly_window (now : datetime) :
  valid now -> toordinal now - weekday now + 7 <= MAXORDINAL ->
  exists start_date end_date,
    _get_date_range "weekly" now = Ok (start_date, end_date) /\
    valid start_date /\ weekday start_date = 0 /\
    toordinal start_date = toordinal now - weekday now /\
    0 <= weekday now <= 6 /\
    hour start_date = 0 /\ minute start_date = 0 /\ second start_date = 0 /\
    microsecond start_date = 0 /\
    valid end_date /\ toordinal end_date = toordinal start_date + 7 /\
    hour end_date = 0 /\ minute end_date = 0 /\ second end_date = 0 /\
    microsecond end_date = 0 /\
    in_window start_date end_date (Naive now) = Ok true.
Proof.
  intros Hv Hroom.
  destruct (weekday_range now Hv) as [Hw Hwlt].
  destruct (WindowerFacts.toordinal_bounds now Hv) as [[Hpos Hmax] _].
  destruct (add_days_ok now (- weekday now)) as [shifted Hsh]; [lia |].
  destruct (add_days_spec now (- weekday now) shifted Hv Hsh)
    as (Hvsh & Hosh & _).
  set (s := mk (year shifted) (month shifted) (day shifted) 0 0 0 0).
  assert (Hs : valid s) by now apply valid_midnight.
  assert (Hos : toordinal s = toordinal now - weekday now).
  { change (toordinal s) with (toordinal shifted). lia. }
  destruct (add_days_ok s 7) as [e He]; [lia |].
  destruct (add_days_spec s 7 e Hs He) as (Hve & Hoe & Hh & Hmi & Hse & Hus).
  exists s, e.
  assert (Hrange : _get_date_range "weekly" now = Ok (s, e)).
  { unfold _get_date_range. simpl. rewrite Hsh. simpl.
    rewrite (WindowerFacts.replace_midnight_valid shifted Hvsh). simpl. fold s.
    now rewrite He. }
  assert (Hmonday : weekday s = 0).
  { unfold weekday in *. rewrite Hos.
    Z.to_euclidean_division_equations; lia. }
  repeat match goal with |- _ /\ _ => split end;
    try assumption; try reflexivity; try lia.
  apply in_window_by_ordinal; try assumption; try reflexivity. lia.
Qed.

(** X3. The monthly window runs from the first of the month of [now] at
    midnight to the first of the next month, in any month, and [now] lies
    inside it. It exists for every [now] before December 9999. *)
Theorem monthly_window (now : datetime) :
  valid now -> month now < 12 \/ year now < MAXYEAR ->
  exists start_date end_date,
    _get_date_range "monthly" now = Ok (start_date, end_date) /\
    start_date = mk (year now) (month now) 1 0 0 0 0 /\
    end_date = (if month now =? 12
                then mk (year now + 1) 1 1 0 0 0 0
                else mk (year now) (month now + 1) 1 0 0 0 0) /\
    in_window start_date end_date (Naive now) = Ok true.
Proof.
  intros Hv Hroom.
  set (s := mk (year now) (month now) 1 0 0 0 0).
  set (e := if month now =? 12 then mk (year now + 1) 1 1 0 0 0 0
            else mk (year now) (month now + 1) 1 0 0 0 0).
  assert (Hdim : forall y m, 1 <= days_in_month y m).
  { intros y m. pose proof (WindowerFacts.days_in_month_bounds y m). lia. }
  assert (Hs : valid s).
  { unfold valid in *; simpl. specialize (Hdim (year now) (month now)). lia. }
  assert (He : valid e).
  { unfold e, valid, MINYEAR, MAXYEAR in *.
    destruct (Z.eqb_spec (month now) 12); simpl.
    - specialize (Hdim (year now + 1) 1). lia.
    - specialize (Hdim (year now) (month now + 1)). lia. }
  exists s, e.
  assert (Hend : (if month now =? 12
                  then replace_year_month s (year now + 1) 1
                  else replace_month s (month now + 1)) = Ok e).
  { unfold e in *. unfold replace_year_month, replace_month.
    destruct (month now =? 12); simpl; now apply WindowerFacts.make_valid. }
  assert (Hrange : _get_date_range "monthly" now = Ok (s, e)).
  { unfold _get_date_range. simpl.
    unfold replace_first_midnight.
    rewrite (WindowerFacts.make_valid _ _ _ _ _ _ _ Hs). simpl. fold s.
    now rewrite Hend. }
  split; [exact Hrange |]. split; [reflexivity |]. split; [reflexivity |].
  unfold in_window.
  rewrite (lex_date_le s now Hv eq_refl eq_refl eq_refl eq_refl).
  - rewrite (lex_date_lt now e); [reflexivity |].
    unfold e. destruct (Z.eqb_spec (month now) 12); simpl.
    + left. lia.
    + right. split; [reflexivity |]. left. lia.
  - simpl. right. split; [reflexivity |]. right.
    split; [reflexivity |]. unfold valid in Hv. lia.
Qed.

Lemma daily_window_witness :
  exists start_date end_date,
    _get_date_range "daily" (mk 2024 2 28 13 5 7 9)
      = Ok (start_date, end_date) /\
    start_date = mk 2024 2 28 0 0 0 0 /\
    valid end_date /\ toordinal end_date = toordinal (mk 2024 2 28 13 5 7 9) + 1 /\
    hour end_date = 0 /\ minute end_date = 0 /\ second end_date = 0 /\
    microsecond end_date = 0 /\
    in_window start_date end_date (Naive (mk 2024 2 28 13 5 7 9)) = Ok true.
Proof.
  apply (daily_window (mk 2024 2 28 13 5 7 9)).
  - apply WindowerFacts.validb_spec. reflexivity.
  - vm_compute. reflexivity.
Defined.

Lemma weekly_window_witness :
  exists start_date end_date,
    _get_date_range "weekly" (mk 2026 11 3 13 5 7 9)
      = Ok (start_date, end_date) /\
    valid start_date /\ weekday start_date = 0 /\
    toordinal start_date
      = toordinal (mk 2026 11 3 13 5 7 9) - weekday (mk 2026 11 3 13 5 7 9) /\
    0 <= weekday (mk 2026 11 3 13 5 7 9) <= 6 /\
    hour start_date = 0 /\ minute start_date = 0 /\ second start_date = 0 /\
    microsecond start_date = 0 /\
    valid end_date /\ toordinal end_date = toordinal start_date + 7 /\
    hour end_date = 0 /\ minute end_date = 0 /\ second end_date = 0 /\
    microsecond end_date = 0 /\
    in_window start_date end_date (Naive (mk 2026 11 3 13 5 7 9)) = Ok true.
Proof.
  apply (weekly_window (mk 2026 11 3 13 5 7 9)).
  - apply WindowerFacts.validb_spec. reflexivity.
  - vm_compute. discriminate.
Defined.

Lemma monthly_window_witness :
  exists start_date end_date,
    _get_date_range "monthly" (mk 2024 2 29 23 59 59 5)
      = Ok (start_date, end_date) /\
    start_date = mk 2024 2 1 0 0 0 0 /\
    end_date = mk 2024 3 1 0 0 0 0 /\
    in_window start_date end_date (Naive (mk 2024 2 29 23 59 59 5)) = Ok true.
Proof.
  apply (monthly_window (mk 2024 2 29 23 59 59 5)).
  - apply WindowerFacts.validb_spec. reflexivity.
  - left. simpl. lia.
Defined.

End CalendarFacts.

(** ** The scans of the reducers *)

Module ScanFacts.

Import Datetime Analytics ScanNotions.

Ltac order_cases :=
  repeat match goal with
         | |- context [(?x <? ?y)] =>
             destruct (Z.ltb_spec x y); cbn [lex_ltb lex_leb]
         end.

Lemma earlier_ltb a b :
  lex_ltb (dt_fields a) (dt_fields b) = true <-> earlier a b.
Proof.
  unfold earlier, dt_fields. cbn [lex_ltb]. order_cases;
    (split; [intros Ht; try discriminate Ht; lia | intros He; try reflexivity; lia]).
Qed.

Lemma earlier_leb a b :
  lex_leb (dt_fields a) (dt_fields b) = true <-> ~ earlier b a.
Proof.
  unfold earlier, dt_fields. cbn [lex_leb]. order_cases;
    (split; [intros Ht; try discriminate Ht; lia
            | intros He; try reflexivity; exfalso; apply He; lia]).
Qed.

Section WithStore.
Context `{PyLib}.
Variable db : gmap string rvalue.
Variables start_date end_date : datetime.

Lemma collect_interactions_spec keys : forall acc,
  (forallb (fun key => negb (fatal db start_date end_date key)) keys = true ->
   collect_interactions db start_date end_date keys acc
   = Ok (acc ++ omap (loaded db start_date end_date) keys)%list) /\
  (existsb (fatal db start_date end_date) keys = true ->
   is_ok (collect_interactions db start_date end_date keys acc) = false).
Proof.
  induction keys as [| key rest IH]; intros acc; simpl.
  - split; [intros _; now rewrite app_nil_r | discriminate].
  - unfold fatal at 1 3, loaded at 1.
    destruct (load_interaction start_date end_date (hgetall db key))
      as [[i |] | []] eqn:E; simpl;
      try (split; [discriminate | reflexivity]);
      destruct (IH acc) as [IHok IHbad];
      try (destruct (IH (acc ++ [i])%list) as [IHok' IHbad']).
    + split; [| exact IHbad'].
      intros Hall. rewrite (IHok' Hall). now rewrite <- app_assoc.
    + split; assumption.
    + split; assumption.
Qed.

Lemma interactions_when_fatal platform :
  existsb (fatal db start_date end_date)
    (lrange db ("interactions:" +:+ platform) (-1)) = true ->
  _get_interactions_in_period db platform start_date end_date = [].
Proof.
  intros Hex. unfold _get_interactions_in_period.
  destruct (collect_interactions_spec
              (lrange db ("interactions:" +:+ platform) (-1)) []) as [_ Hbad].
  specialize (Hbad Hex).
  now destruct (collect_interactions db start_date end_date _ []).
Qed.

Lemma interactions_when_sound platform :
  forallb (fun key => negb (fatal db start_date end_date key))
    (lrange db ("interactions:" +:+ platform) (-1)) = true ->
  _get_interactions_in_period db platform start_date end_date
  = omap (loaded db start_date end_date)
      (lrange db ("interactions:" +:+ platform) (-1)).
Proof.
  intros Hall. unfold _get_interactions_in_period.
  destruct (collect_interactions_spec
              (lrange db ("interactions:" +:+ platform) (-1)) []) as [Hok _].
  now rewrite (Hok Hall).
Qed.

Lemma interactions_length platform :
  (length (_get_interactions_in_period db platform start_date end_date)
   <= length (lrange db ("interactions:" +:+ platform) (-1)))%nat.
Proof.
  set (keys := lrange db ("interactions:" +:+ platform) (-1)).
  destruct (existsb (fatal db start_date end_date) keys) eqn:Hex.
  - rewrite (interactions_when_fatal platform Hex). simpl. lia.
  - rewrite interactions_when_sound; fold keys.
    + clear. induction keys as [| k rest IH]; simpl; [lia |].
      destruct (loaded db start_date end_date k); simpl; unfold omap in *; lia.
    + clear -Hex. induction keys as [| k rest IH]; simpl in *; [reflexivity |].
      apply orb_false_iff in Hex as [-> Hrest]. simpl. now apply IH.
Qed.

Lemma window_test t :
  lex_leb (dt_fields start_date) (dt_fields t)
  && lex_ltb (dt_fields t) (dt_fields end_date) = true
  <-> in_period start_date end_date t.
Proof.
  unfold in_period. now rewrite andb_true_iff, earlier_leb, earlier_ltb.
Qed.

Lemma window_test_false t :
  lex_leb (dt_fields start_date) (dt_fields t)
  && lex_ltb (dt_fields t) (dt_fields end_date) = false
  <-> ~ in_period start_date end_date t.
Proof.
  rewrite <- window_test. now destruct (_ && _).
Qed.

(** The test of one record, with its exceptions written out *)
Lemma load_interaction_eq (h : gmap string string) :
  load_interaction start_date end_date h
  = match h !! "timestamp" with
    | None => Ok None
    | Some ts =>
        match fromisoformat (replace_Z ts) with
        | Raise e => Raise e
        | Ok (Aware _ _) => Raise TypeError
        | Ok (Naive t) =>
            if lex_leb (dt_fields start_date) (dt_fields t)
               && lex_ltb (dt_fields t) (dt_fields end_date)
            then match json_loads (default "{}" (h !! "data")) with
                 | Ok data =>
                     Ok (Some {| itype := default "" (h !! "type");
                                 idata := data |})
                 | Raise e => Raise e
                 end
            else Ok None
        end
    end.
Proof.
  unfold load_interaction, timestamp_in_window.
  destruct (h !! "timestamp") as [ts |]; [| reflexivity].
  destruct (fromisoformat (replace_Z ts)) as [[t | t o] | e]; reflexivity.
Qed.

(** What the code does with one record, in the terms of the notions *)
Lemma kept_spec key i :
  kept db start_date end_date key i <->
  load_interaction start_date end_date (hgetall db key) = Ok (Some i).
Proof.
  rewrite load_interaction_eq. unfold kept, window_record. split.
  - intros (ts & data & (t & Hts & Ht & Hin & Hdata) & ->).
    rewrite Hts, Ht. cbv beta iota. apply window_test in Hin.
    rewrite Hin, Hdata. reflexivity.
  - destruct (hgetall db key !! "timestamp") as [ts |] eqn:Hts;
      [| discriminate].
    destruct (fromisoformat (replace_Z ts)) as [[t | t o] | e] eqn:Ht;
      try discriminate.
    destruct (lex_leb (dt_fields start_date) (dt_fields t)
              && lex_ltb (dt_fields t) (dt_fields end_date)) eqn:Hw;
      [| discriminate].
    destruct (json_loads (default "{}" (hgetall db key !! "data")))
      as [data | e] eqn:Hd; [| discriminate].
    intros [= <-]. exists ts, data. split; [| reflexivity].
    exists t. apply window_test in Hw. auto.
Qed.

Lemma skipped_spec key :
  skipped db start_date end_date key <->
  load_interaction start_date end_date (hgetall db key) = Ok None \/
  load_interaction start_date end_date (hgetall db key) = Raise ValueError.
Proof.
  rewrite load_interaction_eq. unfold skipped. split.
  - intros [Hts | (ts & Hts & [Ht | (t & Ht & [Hout | Hd])])]; rewrite Hts.
    + now left.
    + rewrite Ht. now right.
    + rewrite Ht. cbv beta iota. apply window_test_false in Hout.
      rewrite Hout. now left.
    + rewrite Ht. cbv beta iota.
      destruct (lex_leb (dt_fields start_date) (dt_fields t)
                && lex_ltb (dt_fields t) (dt_fields end_date));
        [rewrite Hd; now right | now left].
  - destruct (hgetall db key !! "timestamp") as [ts |] eqn:Hts;
      [| intros _; now left].
    intros Hload. right. exists ts. split; [reflexivity |].
    destruct (fromisoformat (replace_Z ts)) as [[t | t o] | e] eqn:Ht.
    + right. exists t. split; [reflexivity |].
      destruct (lex_leb (dt_fields start_date) (dt_fields t)
                && lex_ltb (dt_fields t) (dt_fields end_date)) eqn:Hw.
      * destruct (json_loads (default "{}" (hgetall db key !! "data")))
          as [data | e] eqn:Hd.
        -- destruct Hload as [Hload | Hload]; discriminate Hload.
        -- destruct Hload as [Hload | Hload]; [discriminate Hload |].
           injection Hload as ->. now right.
      * left. now apply window_test_false.
    + destruct Hload as [Hload | Hload]; discriminate Hload.
    + destruct Hload as [Hload | Hload]; [discriminate Hload |].
      injection Hload as ->. now left.
Qed.

Lemma breaks_spec key :
  breaks db start_date end_date key <->
  exists e,
    load_interaction start_date end_date (hgetall db key) = Raise e /\
    e <> ValueError.
Proof.
  rewrite load_interaction_eq. unfold breaks. split.
  - intros (ts & Hts & [(t & o & Ht) | [(e & Ht & He) | (t & e & Ht & Hin & Hd & He)]]);
      rewrite Hts, Ht; cbv beta iota.
    + exists TypeError. split; [reflexivity | discriminate].
    + exists e. split; [reflexivity | exact He].
    + apply window_test in Hin. rewrite Hin, Hd.
      exists e. split; [reflexivity | exact He].
  - intros (e & Hload & He).
    destruct (hgetall db key !! "timestamp") as [ts |] eqn:Hts;
      [| discriminate Hload].
    exists ts. split; [reflexivity |].
    destruct (fromisoformat (replace_Z ts)) as [[t | t o] | e'] eqn:Ht.
    + right. right.
      destruct (lex_leb (dt_fields start_date) (dt_fields t)
                && lex_ltb (dt_fields t) (dt_fields end_date)) eqn:Hw;
        [| discriminate Hload].
      destruct (json_loads (default "{}" (hgetall db key !! "data")))
        as [data | e'] eqn:Hd; [discriminate Hload |].
      injection Hload as ->. exists t, e.
      apply window_test in Hw. auto.
    + left. now exists t, o.
    + right. left. injection Hload as ->. now exists e.
Qed.

Lemma fatal_spec key :
  fatal db start_date end_date key = true <-> breaks db start_date end_date key.
Proof.
  rewrite breaks_spec. unfold fatal.
  destruct (load_interaction start_date end_date (hgetall db key))
    as [o | e].
  - split; [discriminate | intros (e & He & _); discriminate He].
  - destruct e;
      (split;
       [intros Hf;
        first [discriminate Hf | eexists; split; [reflexivity | discriminate]]
       | intros (e & He & Hne);
         first [reflexivity | injection He as <-; now contradiction Hne]]).
Qed.

Lemma loaded_spec key i :
  loaded db start_date end_date key = Some i <-> kept db start_date end_date key i.
Proof.
  rewrite kept_spec. unfold loaded.
  destruct (load_interaction start_date end_date (hgetall db key))
    as [[i' |] | e]; split; intros E; try discriminate E; congruence.
Qed.

Lemma record_cases key :
  (exists i, kept db start_date end_date key i) \/
  skipped db start_date end_date key \/
  breaks db start_date end_date key.
Proof.
  destruct (load_interaction start_date end_date (hgetall db key))
    as [[i |] | e] eqn:E.
  - left. exists i. now apply kept_spec.
  - right. left. apply skipped_spec. now left.
  - destruct e;
      try (right; right; apply breaks_spec; eexists; split;
           [exact E | discriminate]).
    right. left. apply skipped_spec. now right.
Qed.

Lemma selection_loaded keys :
  forallb (fun key => negb (fatal db start_date end_date key)) keys = true ->
  selection db start_date end_date keys
    (omap (loaded db start_date end_date) keys).
Proof.
  induction keys as [| key rest IH]; cbn [forallb]; intros Hall.
  - constructor.
  - apply andb_true_iff in Hall as [Hkey Hrest].
    change (omap (loaded db start_date end_date) (key :: rest))
      with (match loaded db start_date end_date key with
            | Some i => i :: omap (loaded db start_date end_date) rest
            | None => omap (loaded db start_date end_date) rest
            end).
    destruct (loaded db start_date end_date key) as [i |] eqn:E.
    + apply selection_keep; [now apply loaded_spec | now apply IH].
    + apply selection_skip; [| now apply IH].
      destruct (record_cases key) as [[i Hi] | [Hs | Hb]]; [| exact Hs |].
      * apply loaded_spec in Hi. congruence.
      * apply fatal_spec in Hb. rewrite Hb in Hkey. discriminate Hkey.
Qed.

Lemma selection_unique keys l :
  selection db start_date end_date keys l ->
  l = omap (loaded db start_date end_date) keys.
Proof.
  induction 1 as [| key i keys l Hkept _ IH | key keys l Hskip _ IH].
  - reflexivity.
  - apply loaded_spec in Hkept.
    change (omap (loaded db start_date end_date) (key :: keys))
      with (match loaded db start_date end_date key with
            | Some i => i :: omap (loaded db start_date end_date) keys
            | None => omap (loaded db start_date end_date) keys
            end).
    now rewrite Hkept, IH.
  - change (omap (loaded db start_date end_date) (key :: keys))
      with (match loaded db start_date end_date key with
            | Some i => i :: omap (loaded db start_date end_date) keys
            | None => omap (loaded db start_date end_date) keys
            end).
    apply skipped_spec in Hskip. unfold loaded at 1.
    destruct Hskip as [-> | ->]; exact IH.
Qed.

Lemma sound_keys keys :
  (forall key, In key keys -> ~ breaks db start_date end_date key) ->
  forallb (fun key => negb (fatal db start_date end_date key)) keys = true.
Proof.
  intros Hsound. apply forallb_forall. intros key Hin.
  destruct (fatal db start_date end_date key) eqn:E; [| reflexivity].
  apply fatal_spec in E. now apply Hsound in E.
Qed.

(** X4. [_get_interactions_in_period] keeps, in list order, the records
    of the platform's list whose timestamp lies in the window and whose
    payload decodes, each with its type and its decoded payload. A
    record without a timestamp, with a timestamp or a payload that
    raises [ValueError], or outside the window is passed over and the
    scan goes on; the result is the one list that selects the keys in
    this way. Any other exception from one record, such as the
    [TypeError] of comparing a timestamp that carries an offset with
    the naive window bounds, makes the whole result the empty list.
    Every record is of one of the three kinds, and the result is never
    longer than the list of keys. *)
Theorem interactions_scan (platform : string) :
  let keys := lrange db ("interactions:" +:+ platform) (-1) in
  let found := _get_interactions_in_period db platform start_date end_date in
  ((forall key, In key keys -> ~ breaks db start_date end_date key) ->
   selection db start_date end_date keys found /\
   forall l, selection db start_date end_date keys l -> l = found) /\
  ((exists key, In key keys /\ breaks db start_date end_date key) ->
   found = []) /\
  (forall key ts t offset,
     In key keys ->
     hgetall db key !! "timestamp" = Some ts ->
     fromisoformat (replace_Z ts) = Ok (Aware t offset) ->
     found = []) /\
  (forall key,
     (exists i, kept db start_date end_date key i) \/
     skipped db start_date end_date key \/
     breaks db start_date end_date key) /\
  (forall key i,
     kept db start_date end_date key i ->
     ~ skipped db start_date end_date key /\
     ~ breaks db start_date end_date key /\
     forall i', kept db start_date end_date key i' -> i' = i) /\
  (forall key,
     skipped db start_date end_date key -> ~ breaks db start_date end_date key) /\
  (length found <= length keys)%nat.
Proof.
  intros keys found.
  split; [| split; [| split; [| split; [| split; [| split]]]]].
  - intros Hsound. apply sound_keys in Hsound.
    unfold found. rewrite (interactions_when_sound platform Hsound).
    split; [now apply selection_loaded |].
    intros l Hl. now apply selection_unique.
  - intros (key & Hin & Hb). apply interactions_when_fatal.
    apply existsb_exists. exists key. split; [exact Hin |].
    now apply fatal_spec.
  - intros key ts t offset Hin Hts Hparse. apply interactions_when_fatal.
    apply existsb_exists. exists key. split; [exact Hin |].
    unfold fatal, load_interaction, timestamp_in_window.
    rewrite Hts, Hparse. reflexivity.
  - apply record_cases.
  - intros key i Hkept. apply kept_spec in Hkept.
    split; [| split].
    + intros Hs. apply skipped_spec in Hs. destruct Hs; congruence.
    + intros Hb. apply breaks_spec in Hb as (e & He & _). congruence.
    + intros i' Hi'. apply kept_spec in Hi'. congruence.
  - intros key Hs Hb. apply skipped_spec in Hs.
    apply breaks_spec in Hb as (e & He & Hne).
    destruct Hs as [Hs | Hs]; congruence.
  - apply interactions_length.
Qed.

Lemma sum_amounts_snoc events ev :
  sum_amounts (events ++ [ev]) = (sum_amounts events + ce_amount ev)%Q.
Proof.
  unfold sum_amounts. now rewrite map_app, fold_left_app.
Qed.

Lemma sales_event_invariant event sd :
  sales_invariant sd ->
  sales_invariant (fst (sales_event start_date end_date event sd)).
Proof.
  intros (Hlen & Hrev & Hoc & Hty). unfold sales_event.
  destruct (event !! "timestamp") as [ts |]; [| now repeat split].
  destruct (timestamp_in_window start_date end_date ts) as [[|] | e];
    try now repeat split.
  destruct (json_loads (default "{}" (event !! "data"))) as [event_data | e];
    [| now repeat split].
  destruct (contains "payment_completed" (default "" (event !! "type"))).
  { destruct (event_amount event_data) as [amount | e]; simpl.
    - repeat split; simpl.
      + rewrite length_app. simpl. lia.
      + rewrite sum_amounts_snoc. simpl. now rewrite Hrev.
      + exact Hoc.
      + apply Forall_app. split; [exact Hty |]. now repeat constructor.
    - repeat split; simpl; auto. }
  destruct (contains "order_created" (default "" (event !! "type")));
    [now repeat split |].
  destruct (contains "payment_refunded" (default "" (event !! "type")));
    [| now repeat split].
  destruct (event_amount event_data); now repeat split.
Qed.

Lemma scan_payment_events_invariant keys : forall sd sd',
  sales_invariant sd ->
  scan_payment_events db start_date end_date keys sd = Ok sd' ->
  sales_invariant sd'.
Proof.
  induction keys as [| key rest IH]; intros sd sd' Hinv Hscan; simpl in Hscan.
  - now injection Hscan as <-.
  - pose proof (sales_event_invariant (hgetall db key) sd Hinv) as Hstep.
    destruct (sales_event start_date end_date (hgetall db key) sd) as [sd1 r].
    simpl in Hstep.
    destruct r as [[] | []]; try discriminate; eapply IH; eauto.
Qed.

Lemma timestamp_in_window_eq ts :
  timestamp_in_window start_date end_date ts
  = match fromisoformat (replace_Z ts) with
    | Raise e => Raise e
    | Ok (Aware _ _) => Raise TypeError
    | Ok (Naive t) =>
        Ok (lex_leb (dt_fields start_date) (dt_fields t)
            && lex_ltb (dt_fields t) (dt_fields end_date))
    end.
Proof.
  unfold timestamp_in_window.
  destruct (fromisoformat (replace_Z ts)) as [[t | t o] | e]; reflexivity.
Qed.

Lemma window_decided t :
  bool_decide (in_period start_date end_date t)
  = lex_leb (dt_fields start_date) (dt_fields t)
    && lex_ltb (dt_fields t) (dt_fields end_date).
Proof.
  destruct (lex_leb (dt_fields start_date) (dt_fields t)
            && lex_ltb (dt_fields t) (dt_fields end_date)) eqn:Hw.
  - apply bool_decide_eq_true_2. now apply window_test.
  - apply bool_decide_eq_false_2. now apply window_test_false.
Qed.

Lemma unpriced_sale_spec key :
  unpriced_sale db start_date end_date key = true
  <-> unpriced db start_date end_date key.
Proof.
  unfold unpriced_sale, unpriced, window_record. split.
  - destruct (hgetall db key !! "timestamp") as [ts |] eqn:Hts;
      [| discriminate].
    destruct (fromisoformat (replace_Z ts)) as [[t | t o] | e] eqn:Ht;
      try discriminate.
    destruct (json_loads (default "{}" (hgetall db key !! "data")))
      as [[| | | | | | fields] | e] eqn:Hd; try discriminate.
    intros Htest.
    apply andb_true_iff in Htest as [Htest Hamount].
    apply andb_true_iff in Htest as [Hin Htype].
    apply bool_decide_eq_true in Hin.
    destruct (assoc_get "amount" fields) as [[| | | | a | |] |] eqn:Ha;
      try discriminate Hamount.
    destruct (float_of_string a) as [q | []] eqn:Hf; try discriminate Hamount.
    exists ts, fields, a. split; [exists t; auto | auto].
  - intros (ts & fields & a & (t & Hts & Ht & Hin & Hd) & Htype & Ha & Hf).
    rewrite Hts, Ht, Hd, Htype, Ha, Hf.
    now rewrite (bool_decide_eq_true_2 _ Hin).
Qed.

(** One event moves the sales ahead of the conversion events exactly
    when it is a sale without a price. *)
Lemma sales_event_gap key sd :
  let out := sales_event start_date end_date (hgetall db key) sd in
  snd out = Ok () \/ snd out = Raise ValueError ->
  (total_sales (fst out) + length (conversion_events sd)
   = total_sales sd + length (conversion_events (fst out))
     + (if unpriced_sale db start_date end_date key then 1 else 0))%nat.
Proof.
  unfold sales_event, unpriced_sale.
  destruct (hgetall db key !! "timestamp") as [ts |]; [| simpl; lia].
  rewrite timestamp_in_window_eq.
  destruct (fromisoformat (replace_Z ts)) as [[t | t o] | e];
    [| simpl; lia | simpl; lia].
  rewrite window_decided.
  destruct (json_loads (default "{}" (hgetall db key !! "data")))
    as [data | e];
    [| destruct (lex_leb (dt_fields start_date) (dt_fields t)
                 && lex_ltb (dt_fields t) (dt_fields end_date)); simpl; lia].
  destruct (lex_leb (dt_fields start_date) (dt_fields t)
            && lex_ltb (dt_fields t) (dt_fields end_date));
    [| destruct data; simpl; lia].
  cbv zeta. rewrite andb_true_l.
  destruct (contains "payment_completed"
              (default "" (hgetall db key !! "type"))).
  - unfold event_amount, dict_get.
    destruct data as [| | | | | | fields];
      try (simpl; intros [Hc | Hc]; discriminate Hc).
    cbv beta iota delta [mbind result_bind].
    destruct (assoc_get "amount" fields) as [[| b | n | q | a | items | fs] |];
      cbn [to_float andb fst snd];
      try (intros [Hc | Hc]; discriminate Hc);
      try (intros _; cbn [add_revenue conversion_events total_sales
                            incr_total_sales];
           rewrite List.length_app; simpl; lia).
    destruct (float_of_string a) as [q | []]; cbn [fst snd];
      try (intros [Hc | Hc]; discriminate Hc);
      intros _; cbn [add_revenue conversion_events total_sales
                       incr_total_sales];
      rewrite ?List.length_app; simpl; lia.
  - assert (Hno : forall j : json,
              (if match j with
                  | JObj fields =>
                      false
                      && match assoc_get "amount" fields with
                         | Some (JStr a) =>
                             match float_of_string a with
                             | Raise ValueError => true
                             | _ => false
                             end
                         | _ => false
                         end
                  | _ => false
                  end then 1 else 0)%nat = 0%nat)
      by (intros []; reflexivity).
    rewrite Hno.
    destruct (contains "order_created" (default "" (hgetall db key !! "type")));
      [simpl; lia |].
    destruct (contains "payment_refunded"
                (default "" (hgetall db key !! "type"))); [| simpl; lia].
    destruct (event_amount data); simpl; lia.
Qed.

Lemma scan_payment_events_gap keys : forall sd sd',
  scan_payment_events db start_date end_date keys sd = Ok sd' ->
  (total_sales sd' + length (conversion_events sd)
   = total_sales sd + length (conversion_events sd')
     + length (List.filter (unpriced_sale db start_date end_date) keys))%nat.
Proof.
  induction keys as [| key rest IH]; intros sd sd' Hscan; simpl in Hscan.
  - injection Hscan as <-. simpl. lia.
  - pose proof (sales_event_gap key sd) as Hstep. cbv zeta in Hstep.
    destruct (sales_event start_date end_date (hgetall db key) sd) as [sd1 r].
    cbn [fst snd] in Hstep. cbn [List.filter].
    destruct r as [[] | []]; try discriminate Hscan;
      (specialize (IH sd1 sd' Hscan);
       assert (Hone : (total_sales sd1 + length (conversion_events sd)
                       = total_sales sd + length (conversion_events sd1)
                         + (if unpriced_sale db start_date end_date key
                            then 1 else 0))%nat)
         by (apply Hstep; auto);
       destruct (unpriced_sale db start_date end_date key); simpl; lia).
Qed.

End WithStore.

(** X5. In the sales data the reducer returns, [total_revenue] is the
    sum of the amounts of the conversion events, every conversion event
    is a completed sale, there are no more conversion events than
    counted sales, [net_revenue] is [total_revenue - refund_amount], and
    [orders_completed] is 0, a counter the scan never touches. The sales
    exceed the conversion events by the number of listed records that
    are completed payments of the window with an amount that is text
    and not a number: such a record is counted as a sale before
    [float] raises [ValueError], and adds neither a conversion event
    nor revenue. So with one such record listed there are fewer
    conversion events than sales. *)
Theorem sales_data_invariants (lib : PyLib) (db : gmap string rvalue)
    (start_date end_date : datetime) (sd : sales_data) :
  _get_sales_data_in_period db start_date end_date = Some sd ->
  let keys := lrange db "payment_events:paypal" (-1) in
  (length (conversion_events sd) <= total_sales sd)%nat /\
  total_revenue sd = sum_amounts (conversion_events sd) /\
  net_revenue sd = (total_revenue sd - refund_amount sd)%Q /\
  orders_completed sd = 0%nat /\
  Forall (fun ev => ce_type ev = "sale_completed") (conversion_events sd) /\
  total_sales sd
  = (length (conversion_events sd)
     + length (List.filter (unpriced_sale db start_date end_date) keys))%nat /\
  (forall key,
     unpriced_sale db start_date end_date key = true
     <-> unpriced db start_date end_date key) /\
  (forall key,
     In key keys -> unpriced db start_date end_date key ->
     (length (conversion_events sd) < total_sales sd)%nat).
Proof.
  intros Hsd keys.
  apply ReducerFacts.sales_data_inv in Hsd as (sd0 & Hscan & ->).
  pose proof (scan_payment_events_gap db start_date end_date _ _ _ Hscan)
    as Hgap.
  apply scan_payment_events_invariant in Hscan as (Hlen & Hrev & Hoc & Hty);
    [| repeat split; simpl; auto].
  fold keys in Hgap. cbn [total_sales conversion_events sales_init length] in Hgap.
  cbn [finish_sales total_sales conversion_events total_revenue net_revenue
       refund_amount orders_completed].
  split; [exact Hlen |]. split; [exact Hrev |]. split; [reflexivity |].
  split; [exact Hoc |]. split; [exact Hty |]. split; [lia |].
  split; [intros key; apply unpriced_sale_spec |].
  intros key Hin Hun. apply unpriced_sale_spec in Hun.
  assert (Hpos : (0 < length (List.filter (unpriced_sale db start_date end_date)
                                keys))%nat).
  { assert (Hk : In key (List.filter (unpriced_sale db start_date end_date) keys))
      by (apply filter_In; auto).
    destruct (List.filter (unpriced_sale db start_date end_date) keys);
      [contradiction | simpl; lia]. }
  lia.
Qed.

Lemma sales_data_invariants_witness :
  exists sd,
    @_get_sales_data_in_period Demo2.lib Demo2.store Demo.day_start Demo.day_end
      = Some sd /\
    @unpriced Demo2.lib Demo2.store Demo.day_start Demo.day_end
      "payment_event:paypal:1" /\
    total_sales sd = (length (conversion_events sd) + 1)%nat /\
    (length (conversion_events sd) < total_sales sd)%nat /\
    total_revenue sd = sum_amounts (conversion_events sd).
Proof.
  destruct (@_get_sales_data_in_period Demo2.lib Demo2.store
              Demo.day_start Demo.day_end) as [sd |] eqn:Hsd;
    [| vm_compute in Hsd; discriminate Hsd].
  exists sd. split; [reflexivity |].
  destruct (sales_data_invariants Demo2.lib Demo2.store
              Demo.day_start Demo.day_end sd Hsd)
    as (_ & Hrev & _ & _ & _ & Hcount & Hspec & Hless).
  assert (Hun : @unpriced Demo2.lib Demo2.store Demo.day_start Demo.day_end
                  "payment_event:paypal:1")
    by (apply Hspec; vm_compute; reflexivity).
  split; [exact Hun |]. split; [| split; [| exact Hrev]].
  - rewrite Hcount. f_equal.
  - apply (Hless "payment_event:paypal:1"); [| exact Hun].
    vm_compute. auto.
Defined.

Lemma interactions_scan_witness :
  @selection Demo2.lib Demo2.store Demo.day_start Demo.day_end
    (lrange Demo2.store "interactions:twitter" (-1))
    (@_get_interactions_in_period Demo2.lib Demo2.store "twitter"
       Demo.day_start Demo.day_end) /\
  @kept Demo2.lib Demo2.store Demo.day_start Demo.day_end
    "interaction:twitter:1"
    {| itype := "post_tweet"; idata := JObj [("content", JStr "hello")] |} /\
  @skipped Demo2.lib Demo2.store Demo.day_start Demo.day_end
    "interaction:twitter:2" /\
  @skipped Demo2.lib Demo2.store Demo.day_start Demo.day_end
    "interaction:twitter:3" /\
  @breaks Demo2.lib Demo2.store Demo.day_start Demo.day_end
    "interaction:mastodon:2" /\
  @_get_interactions_in_period Demo2.lib Demo2.store "mastodon"
    Demo.day_start Demo.day_end = [].
Proof.
  pose proof (@interactions_scan Demo2.lib Demo2.store Demo.day_start
                Demo.day_end "twitter") as Htwitter.
  pose proof (@interactions_scan Demo2.lib Demo2.store Demo.day_start
                Demo.day_end "mastodon") as Hmastodon.
  cbv zeta in Htwitter, Hmastodon.
  destruct Htwitter as (Hsound & _).
  destruct Hmastodon as (_ & Hbroken & _).
  assert (Hb : @breaks Demo2.lib Demo2.store Demo.day_start Demo.day_end
                 "interaction:mastodon:2").
  { apply fatal_spec. vm_compute. reflexivity. }
  split; [| split; [| split; [| split; [| split]]]].
  - apply Hsound. intros key Hin Hbreaks.
    apply fatal_spec in Hbreaks.
    vm_compute in Hin.
    destruct Hin as [<- | [<- | [<- | []]]];
      vm_compute in Hbreaks; discriminate Hbreaks.
  - apply kept_spec. vm_compute. reflexivity.
  - apply skipped_spec. right. vm_compute. reflexivity.
  - apply skipped_spec. right. vm_compute. reflexivity.
  - exact Hb.
  - apply Hbroken. exists "interaction:mastodon:2".
    split; [vm_compute; auto | exact Hb].
Defined.

Example interactions_scan_example :
  @_get_interactions_in_period Demo2.lib Demo2.store "twitter"
    Demo.day_start Demo.day_end
  = [{| itype := "post_tweet"; idata := JObj [("content", JStr "hello")] |}].
Proof. vm_compute. reflexivity. Qed.

End ScanFacts.

(** ** The content ranking of the engagement reducer *)

Module TopContentFacts.

Import Datetime Analytics Notions ScanNotions CounterFacts.

Lemma string_eqb_eq a b : String.eqb a b = true <-> a = b.
Proof. apply String.eqb_eq. Qed.

Lemma length_append (a b : string) :
  String.length (a +:+ b) = (String.length a + String.length b)%nat.
Proof. induction a as [| c a IH]; simpl; [reflexivity | now rewrite IH]. Qed.

Lemma length_str_take n : forall s, (String.length (str_take n s) <= n)%nat.
Proof.
  unfold str_take.
  induction n as [| n IH]; intros [| c s]; simpl; try lia.
  specialize (IH s). lia.
Qed.

Lemma content_key_length s : (String.length (content_key s) <= 53)%nat.
Proof.
  unfold content_key.
  destruct (50 <? String.length s)%nat eqn:E.
  - rewrite length_append. pose proof (length_str_take 50 s). simpl. lia.
  - apply Nat.ltb_ge in E. lia.
Qed.

Lemma track_content_spec i cp cp' :
  track_content (idata i) cp = Ok cp' ->
  cp' = match content_key_of i with
        | Some k => counter_incr String.eqb k cp
        | None => cp
        end.
Proof.
  unfold track_content, content_key_of, dict_get.
  destruct (idata i) as [| b | n | q | s | items | fields]; simpl;
    try discriminate.
  destruct (assoc_get "content" fields) as [[| b | n | q | s | items | fs] |];
    simpl;
    repeat match goal with
           | |- context [if ?c then _ else _] => destruct c eqn:?
           | |- context [match ?l with [] => _ | _ :: _ => _ end] => destruct l
           end; simpl in *; try discriminate; intros E; now injection E as <-.
Qed.

Lemma scan_content l : forall m cp m' cp',
  scan_interactions l m cp = Ok (m', cp') ->
  cp' = fold_left (fun c k => counter_incr String.eqb k c) (content_keys l) cp.
Proof.
  induction l as [| i rest IH]; intros m cp m' cp' Hscan; simpl in Hscan.
  - now injection Hscan as _ <-.
  - destruct (track_content (idata i) cp) as [cp1 | e] eqn:Htc; [| discriminate].
    simpl in Hscan. apply IH in Hscan. apply track_content_spec in Htc.
    simpl. destruct (content_key_of i); subst; reflexivity.
Qed.

Lemma count_content_keys k l :
  length (List.filter (String.eqb k) (content_keys l))
  = length (List.filter (has_content_key k) l).
Proof.
  induction l as [| i rest IH]; simpl; [reflexivity |].
  unfold has_content_key at 1.
  destruct (content_key_of i) as [k' |]; simpl; [| exact IH].
  destruct (String.eqb k k'); simpl; now rewrite IH.
Qed.

Lemma content_keys_short k l :
  In k (content_keys l) -> (String.length k <= 53)%nat.
Proof.
  induction l as [| i rest IH]; simpl; [tauto |].
  unfold content_key_of at 1.
  destruct (idata i) as [| b | n | q | s | items | fields]; auto.
  destruct (assoc_get "content" fields) as [[| b | n | q | s | items | fs] |];
    auto.
  destruct (String.eqb s ""); auto.
  intros [<- | Hin]; [apply content_key_length | auto].
Qed.

(** X6. [top_performing_content] lists at most five distinct content
    keys by decreasing count. The count of a key is the number of
    interactions whose content, cut to 50 characters and "..." when it is
    longer, is that key; it is positive, and a key has at most 53
    characters. A key with a higher count than a listed one is listed as
    well. *)
Theorem top_content_ranking (platform : string)
    (interactions : list interaction) (m : engagement) :
  _get_engagement_metrics platform interactions = Some m ->
  (length (top_performing_content m) <= 5)%nat /\
  List.NoDup (map fst (top_performing_content m)) /\
  descending (top_performing_content m) /\
  (forall k n, In (k, n) (top_performing_content m) ->
     n = length (List.filter (has_content_key k) interactions) /\
     (0 < n)%nat /\ (String.length k <= 53)%nat) /\
  (forall k n k', In (k, n) (top_performing_content m) ->
     (n < length (List.filter (has_content_key k') interactions))%nat ->
     In k' (map fst (top_performing_content m))).
Proof.
  intros Hm.
  apply EngagementFacts.engagement_metrics_inv in Hm as (m0 & cp & Hscan & ->).
  apply scan_content in Hscan. simpl.
  set (keys := content_keys interactions) in *.
  assert (Hwf : well_formed cp).
  { rewrite Hscan. apply (fold_well_formed String.eqb string_eqb_eq).
    split; constructor. }
  assert (Hget : forall k, counter_get String.eqb k cp
                           = length (List.filter (has_content_key k) interactions)).
  { intros k. rewrite Hscan.
    rewrite (counter_get_fold String.eqb string_eqb_eq). simpl.
    apply count_content_keys. }
  set (ranking := sort_desc cp).
  assert (Hperm : Permutation ranking cp) by apply sort_desc_perm.
  assert (Hsorted : descending ranking) by apply sort_desc_sorted.
  assert (Hkeys : List.NoDup (map fst ranking)).
  { eapply Permutation_NoDup; [apply Permutation_map; symmetry; exact Hperm |].
    apply Hwf. }
  split; [| split; [| split; [| split]]].
  - rewrite length_firstn. lia.
  - now apply nodup_keys_firstn.
  - now apply descending_firstn.
  - intros k n Hin. apply in_firstn in Hin.
    apply (Permutation_in _ Hperm) in Hin.
    destruct Hwf as [Hnd Hpos].
    assert (Hn : counter_get String.eqb k cp = n)
      by (apply (counter_get_in String.eqb string_eqb_eq); assumption).
    assert (Hn0 : (0 < n)%nat).
    { rewrite Forall_forall in Hpos. apply (Hpos (k, n) Hin). }
    split; [now rewrite <- Hget |]. split; [exact Hn0 |].
    apply (content_keys_short k interactions).
    rewrite Hscan in Hn.
    rewrite (counter_get_fold String.eqb string_eqb_eq) in Hn. simpl in Hn.
    fold keys in Hn.
    destruct (List.filter (String.eqb k) keys) as [| w rest] eqn:E;
      [simpl in Hn; lia |].
    assert (Hw : In w (List.filter (String.eqb k) keys)) by (rewrite E; now left).
    apply filter_In in Hw as [Hw Heq]. apply String.eqb_eq in Heq. now subst w.
  - intros k n k' Hin Hmore. rewrite <- Hget in Hmore.
    set (c := counter_get String.eqb k' cp) in *.
    assert (Hin' : In (k', c) ranking).
    { apply (Permutation_in _ (Permutation_sym Hperm)).
      apply in_counter; [apply string_eqb_eq |]. fold c. lia. }
    rewrite <- (firstn_skipn 5 ranking) in Hin'.
    apply in_app_or in Hin' as [Hin' | Hin'].
    + apply in_map_iff. exists (k', c). auto.
    + pose proof (descending_cut 5 ranking (k, n) (k', c) Hsorted Hin Hin') as Hle.
      simpl in Hle. lia.
Qed.

Lemma top_content_ranking_witness :
  exists m,
    _get_engagement_metrics "twitter"
      [{| itype := "post"; idata := JObj [("content", JStr "hello")] |};
       {| itype := "reply"; idata := JObj [("content", JStr "hello")] |};
       {| itype := "like"; idata := JObj [] |}] = Some m /\
    (length (top_performing_content m) <= 5)%nat /\
    descending (top_performing_content m).
Proof.
  eexists. split; [reflexivity |].
  destruct (top_content_ranking "twitter"
      [{| itype := "post"; idata := JObj [("content", JStr "hello")] |};
       {| itype := "reply"; idata := JObj [("content", JStr "hello")] |};
       {| itype := "like"; idata := JObj [] |}] _ eq_refl)
    as (Hlen & _ & Hdesc & _).
  split; assumption.
Defined.

End TopContentFacts.

(** ** The report composer *)

Module ReportFacts.

Import Datetime Analytics Notions Report ReportNotions.

(** [max_by] keeps the first of the largest: [seen_before ++ best0 ::
    seen_after] is what was scanned, with [best0] first-maximal in it. *)
Lemma max_by_spec key : forall rest seen_before best0 seen_after,
  (forall p, In p seen_before -> (key p < key best0)%nat) ->
  (forall p, In p seen_after -> (key p <= key best0)%nat) ->
  first_maximal key (seen_before ++ best0 :: seen_after ++ rest)%list
    (max_by key best0 rest).
Proof.
  induction rest as [| p rest IH]; intros b best0 a Hb Ha; simpl.
  - exists b, a. rewrite app_nil_r. auto.
  - destruct (key best0 <? key p)%nat eqn:E.
    + apply Nat.ltb_lt in E.
      replace (b ++ best0 :: a ++ p :: rest)%list
        with ((b ++ best0 :: a) ++ p :: [] ++ rest)%list
        by (now rewrite <- app_assoc).
      apply IH.
      * intros q Hq. apply in_app_or in Hq as [Hq | [<- | Hq]].
        -- specialize (Hb q Hq). lia.
        -- exact E.
        -- specialize (Ha q Hq). lia.
      * intros q [].
    + apply Nat.ltb_ge in E.
      replace (b ++ best0 :: a ++ p :: rest)%list
        with (b ++ best0 :: (a ++ [p]) ++ rest)%list
        by (now rewrite <- app_assoc).
      apply IH; [exact Hb |].
      intros q Hq. apply in_app_or in Hq as [Hq | [<- | []]]; auto.
Qed.

Lemma first_maximal_max key l best :
  first_maximal key l best ->
  In best l /\ forall p, In p l -> (key p <= key best)%nat.
Proof.
  intros (b & a & -> & Hb & Ha). split.
  - apply in_or_app. right. now left.
  - intros p Hp. apply in_app_or in Hp as [Hp | [<- | Hp]].
    + specialize (Hb p Hp). lia.
    + lia.
    + now apply Ha.
Qed.



Lemma engagement_counts platform l r :
  _get_engagement_metrics platform l = Some r ->
  total_interactions r = length l /\ (posts_created r <= length l)%nat.
Proof.
  intros Hr.
  destruct (EngagementFacts.engagement_metrics_inv platform l r Hr)
    as (m & cp & Hscan & ->).
  destruct (EngagementFacts.scan_interactions_ok l _ _ _ _ Hscan)
    as (Htot & _ & _ & Htal).
  unfold tallied in Htal. simpl in *. split; [exact Htot | lia].
Qed.

Section Composer.
Context `{PyLib} `{ReportLib}.

Lemma engagement_insight_spec (social : list (string * option engagement)) :
  exists best,
    first_maximal (platform_count social) platforms best /\
    engagement_insight social
    = if (0 <? platform_count social best)%nat
      then [{| pi_type := "engagement";
               pi_message :=
                 title best +:+ " had the highest engagement with "
                 +:+ pretty (Z.of_nat (platform_count social best))
                 +:+ " interactions";
               pi_metric := inject_Z (Z.of_nat (platform_count social best)) |}]
      else [].
Proof.
  exists (max_by (platform_count social) "twitter" ["mastodon"; "discord"]).
  split; [| reflexivity].
  apply (max_by_spec (platform_count social) ["mastodon"; "discord"] []
           "twitter" []); intros p [].
Qed.

Lemma revenue_insight_type sd i :
  In i (revenue_insight sd) -> pi_type i = "revenue".
Proof.
  unfold revenue_insight. destruct sd as [sd |]; [| intros []].
  destruct (positive _); [| intros []]. intros [<- | []]. reflexivity.
Qed.

Lemma conversion_insight_type lm i :
  In i (conversion_insight lm) -> pi_type i = "conversion".
Proof.
  unfold conversion_insight. destruct lm as [lm |]; [| intros []].
  destruct (positive _); [| intros []]. intros [<- | []]. reflexivity.
Qed.

Lemma filter_none {A} (f : A -> bool) l :
  (forall x, In x l -> f x = false) -> List.filter f l = [].
Proof.
  induction l as [| x l IH]; intros Hall; simpl; [reflexivity |].
  rewrite (Hall x (or_introl eq_refl)). apply IH. intros y Hy. apply Hall.
  now right.
Qed.

(** What a report that was returned is made of *)
Lemma generate_report_inv period now generated db rep db' :
  generate_report period now generated db = (Some rep, db') ->
  exists start stop,
    _get_date_range period now = Ok (start, stop) /\
    social_media rep
    = map (fun platform =>
             (platform,
              _get_engagement_metrics platform
                (_get_interactions_in_period db platform start stop)))
          platforms /\
    sales rep = _get_sales_data_in_period db start stop /\
    leads rep = _get_lead_metrics db start stop /\
    performance_insights rep
    = (revenue_insight (sales rep) ++ engagement_insight (social_media rep)
       ++ conversion_insight (leads rep))%list /\
    total_social_interactions (report_summary rep)
    = list_sum (map (fun entry => interactions_of (snd entry)) (social_media rep)) /\
    total_posts_created (report_summary rep)
    = list_sum (map (fun entry => posts_of (snd entry)) (social_media rep)) /\
    summary_total_sales (report_summary rep)
    = match sales rep with Some sd => total_sales sd | None => 0%nat end /\
    summary_conversion_rate (report_summary rep)
    = match leads rep with Some lm => lead_conversion_rate lm | None => 0%Q end /\
    db' = db_set db (report_key period start) (dumps_report rep).
Proof.
  unfold generate_report.
  destruct (_get_date_range period now) as [[start stop] | e]; [| discriminate].
  intros Hg. injection Hg as <- <-. exists start, stop.
  repeat match goal with |- _ /\ _ => split end; reflexivity.
Qed.

Lemma social_count db start stop p :
  In p platforms ->
  let social :=
    map (fun platform =>
           (platform,
            _get_engagement_metrics platform
              (_get_interactions_in_period db platform start stop)))
        platforms in
  platform_count social p
  = interactions_of
      (_get_engagement_metrics p (_get_interactions_in_period db p start stop)).
Proof.
  unfold platforms, platform_count.
  intros [<- | [<- | [<- | []]]]; reflexivity.
Qed.

(** X7. In a report, the engagement insight names the platform with the
    most interactions in the window, the first of them in the order
    twitter, mastodon, discord when several share the largest count. A
    platform whose metrics could not be computed counts as 0, the others
    by the interactions loaded for the window. The report holds exactly
    one engagement insight when that largest count is positive, none
    otherwise. *)
Theorem report_engagement_leader (period : string) (now generated : datetime)
    (db db' : gmap string rvalue) (rep : report) :
  generate_report period now generated db = (Some rep, db') ->
  exists start stop best,
    _get_date_range period now = Ok (start, stop) /\
    (forall p, In p platforms ->
       platform_count (social_media rep) p
       = match _get_engagement_metrics p
                 (_get_interactions_in_period db p start stop) with
         | Some _ => length (_get_interactions_in_period db p start stop)
         | None => 0%nat
         end) /\
    first_maximal (platform_count (social_media rep)) platforms best /\
    List.filter (fun i => String.eqb (pi_type i) "engagement")
      (performance_insights rep)
    = if (0 <? platform_count (social_media rep) best)%nat
      then [{| pi_type := "engagement";
               pi_message :=
                 title best +:+ " had the highest engagement with "
                 +:+ pretty (Z.of_nat (platform_count (social_media rep) best))
                 +:+ " interactions";
               pi_metric :=
                 inject_Z (Z.of_nat (platform_count (social_media rep) best)) |}]
      else [].
Proof.
  intros Hg.
  destruct (generate_report_inv _ _ _ _ _ _ Hg)
    as (start & stop & Hrange & Hsocial & _ & _ & Hins & _).
  destruct (engagement_insight_spec (social_media rep)) as (best & Hbest & Hei).
  exists start, stop, best. split; [exact Hrange |]. split; [| split; [exact Hbest |]].
  - intros p Hp. rewrite Hsocial, (social_count db start stop p Hp).
    destruct (_get_engagement_metrics p _) as [r |] eqn:Hr; [| reflexivity].
    apply (engagement_counts p _ r Hr).
  - rewrite Hins, !List.filter_app.
    rewrite (filter_none _ (revenue_insight (sales rep))).
    2:{ intros i Hi. now rewrite (revenue_insight_type _ _ Hi). }
    rewrite (filter_none _ (conversion_insight (leads rep))).
    2:{ intros i Hi. now rewrite (conversion_insight_type _ _ Hi). }
    rewrite app_nil_r. cbn [app]. rewrite Hei.
    destruct (0 <? _)%nat; reflexivity.
Qed.



(** X9. The totals of a report's summary: the interactions are the sum
    of the three platforms' counts, the posts are at most the
    interactions, and the interactions are at most the number of keys
    listed for the three platforms. *)
Theorem report_summary_counts (period : string) (now generated : datetime)
    (db db' : gmap string rvalue) (rep : report) :
  generate_report period now generated db = (Some rep, db') ->
  total_social_interactions (report_summary rep)
  = list_sum (map (platform_count (social_media rep)) platforms) /\
  (total_posts_created (report_summary rep)
   <= total_social_interactions (report_summary rep))%nat /\
  (total_social_interactions (report_summary rep)
   <= list_sum (map (fun p => length (lrange db ("interactions:" +:+ p) (-1)))
                  platforms))%nat.
Proof.
  intros Hg.
  destruct (generate_report_inv _ _ _ _ _ _ Hg)
    as (start & stop & _ & Hsocial & _ & _ & _ & Hti & Htp & _).
  assert (Hone : forall p,
            (posts_of (_get_engagement_metrics p
                         (_get_interactions_in_period db p start stop))
             <= interactions_of (_get_engagement_metrics p
                                   (_get_interactions_in_period db p start stop))
             <= length (lrange db ("interactions:" +:+ p) (-1)))%nat).
  { intros p.
    pose proof (ScanFacts.interactions_length db start stop p) as Hlen.
    destruct (_get_engagement_metrics p _) as [r |] eqn:Hr; simpl; [| lia].
    destruct (engagement_counts p _ r Hr) as [Ht Hp]. lia. }
  assert (Hc : forall p, In p platforms ->
            platform_count (social_media rep) p
            = interactions_of
                (_get_engagement_metrics p
                   (_get_interactions_in_period db p start stop))).
  { intros p Hp. rewrite Hsocial. now apply social_count. }
  pose proof (Hone "twitter"). pose proof (Hone "mastodon").
  pose proof (Hone "discord").
  assert (Hsum : total_social_interactions (report_summary rep)
                 = list_sum (map (platform_count (social_media rep)) platforms)).
  { rewrite Hti. unfold platforms at 1. cbn [map list_sum fold_right].
    rewrite !Hc by (simpl; auto). rewrite Hsocial. reflexivity. }
  split; [exact Hsum |].
  rewrite Hsum, Htp. unfold platforms at 1 2.
  cbn [map list_sum fold_right]. rewrite !Hc by (simpl; auto).
  rewrite Hsocial. unfold platforms. cbn [map list_sum fold_right snd].
  split; lia.
Qed.

(** X10. [generate_report] returns the empty dict, and writes nothing,
    exactly when the window cannot be computed. Otherwise it returns a
    report, also when reducers failed, and writes its document under
    [analytics_report:<period>:<start date>], leaving every other key as
    it was. The insights of the report are some of revenue, engagement
    and conversion, in this order. *)
Theorem report_stored (period : string) (now generated : datetime)
    (db : gmap string rvalue) :
  (forall e, _get_date_range period now = Raise e ->
     generate_report period now generated db = (None, db)) /\
  (forall start stop, _get_date_range period now = Ok (start, stop) ->
     exists rep,
       let key := "analytics_report:" +:+ period +:+ ":" +:+ strftime_date start in
       generate_report period now generated db
       = (Some rep, <[key := RStr (dumps_report rep)]> db) /\
       db_get (snd (generate_report period now generated db)) key
       = Some (dumps_report rep) /\
       (forall k, k <> key ->
          snd (generate_report period now generated db) !! k = db !! k) /\
       sublist (map pi_type (performance_insights rep))
         ["revenue"; "engagement"; "conversion"]).
Proof.
  split.
  - intros e He. unfold generate_report. now rewrite He.
  - intros start stop Hrange.
    destruct (generate_report period now generated db) as [orep db'] eqn:Hg.
    assert (Hsome : exists rep, orep = Some rep).
    { unfold generate_report in Hg. rewrite Hrange in Hg.
      injection Hg as <- _. eauto. }
    destruct Hsome as [rep ->].
    destruct (generate_report_inv _ _ _ _ _ _ Hg)
      as (start' & stop' & Hrange' & _ & _ & _ & Hins & _ & _ & _ & _ & ->).
    rewrite Hrange in Hrange'. injection Hrange' as <- <-.
    exists rep. cbn zeta. unfold db_set, report_key, db_get. cbn [snd].
    split; [reflexivity |]. split; [now rewrite lookup_insert_eq |].
    split; [intros k Hk; now rewrite lookup_insert_ne |].
    rewrite Hins, !map_app.
    assert (Hr : map pi_type (revenue_insight (sales rep)) = ["revenue"]
                 \/ map pi_type (revenue_insight (sales rep)) = []).
    { unfold revenue_insight. destruct (sales rep) as [sd |]; [| now right].
      destruct (positive _); [now left | now right]. }
    assert (He : map pi_type (engagement_insight (social_media rep)) = ["engagement"]
                 \/ map pi_type (engagement_insight (social_media rep)) = []).
    { destruct (engagement_insight_spec (social_media rep)) as (best & _ & ->).
      destruct (0 <? _)%nat; [now left | now right]. }
    assert (Hc : map pi_type (conversion_insight (leads rep)) = ["conversion"]
                 \/ map pi_type (conversion_insight (leads rep)) = []).
    { unfold conversion_insight. destruct (leads rep) as [lm |]; [| now right].
      destruct (positive _); [now left | now right]. }
    destruct Hr as [-> | ->], He as [-> | ->], Hc as [-> | ->]; simpl;
      repeat first [apply sublist_nil | apply sublist_skip | apply sublist_cons].
Qed.


Lemma date_range_by_date period now1 now2 :
  year now1 = year now2 -> month now1 = month now2 -> day now1 = day now2 ->
  _get_date_range period now1 = _get_date_range period now2.
Proof.
  intros Hy Hm Hd.
  unfold _get_date_range, replace_midnight, replace_first_midnight, add_days,
    weekday, toordinal.
  rewrite Hy, Hm, Hd.
  destruct (String.eqb period "daily"); [reflexivity |].
  destruct (String.eqb period "weekly"); [| reflexivity].
  destruct (_ && _); [| reflexivity].
  destruct (ord2ymd _) as [[y m] d]. reflexivity.
Qed.

(** X11. The key of a stored report holds the period and the start date
    of the window only. A second report for the same period, generated at
    another time of the same day, is written under the key of the first
    and replaces its document; no other key differs from the store
    before the first report. *)
Theorem report_overwritten (period : string) (now1 now2 g1 g2 : datetime)
    (db db1 : gmap string rvalue) (rep1 : report) :
  year now1 = year now2 -> month now1 = month now2 -> day now1 = day now2 ->
  generate_report period now1 g1 db = (Some rep1, db1) ->
  exists rep2 start stop,
    _get_date_range period now1 = Ok (start, stop) /\
    _get_date_range period now2 = Ok (start, stop) /\
    let key := "analytics_report:" +:+ period +:+ ":" +:+ strftime_date start in
    db_get db1 key = Some (dumps_report rep1) /\
    generate_report period now2 g2 db1
    = (Some rep2, <[key := RStr (dumps_report rep2)]> db).
Proof.
  intros Hy Hm Hd Hg.
  destruct (generate_report_inv _ _ _ _ _ _ Hg)
    as (start & stop & Hrange1 & _ & _ & _ & _ & _ & _ & _ & _ & ->).
  pose proof Hrange1 as Hrange.
  rewrite (date_range_by_date period now1 now2 Hy Hm Hd) in Hrange.
  destruct (generate_report period now2 g2 _) as [orep db2] eqn:Hg2.
  assert (Hsome : exists rep2, orep = Some rep2).
  { unfold generate_report in Hg2. rewrite Hrange in Hg2.
    injection Hg2 as <- _. eauto. }
  destruct Hsome as [rep2 ->].
  destruct (generate_report_inv _ _ _ _ _ _ Hg2)
    as (start' & stop' & Hrange' & _ & _ & _ & _ & _ & _ & _ & _ & ->).
  rewrite Hrange in Hrange'. injection Hrange' as <- <-.
  exists rep2, start, stop. split; [exact Hrange1 |]. split; [exact Hrange |].
  cbn zeta. unfold db_set, db_get, report_key.
  rewrite lookup_insert_eq. split; [reflexivity |].
  now rewrite insert_insert_eq.
Qed.

End Composer.

Lemma report_engagement_leader_witness :
  exists rep db' best,
    @generate_report Demo.lib DemoReport.lib "daily" DemoReport.noon
      DemoReport.noon DemoReport.store = (Some rep, db') /\
    map (platform_count (social_media rep)) platforms = [1; 2; 2]%nat /\
    first_maximal (platform_count (social_media rep)) platforms best /\
    best = "mastodon" /\
    List.filter (fun i => String.eqb (pi_type i) "engagement")
      (performance_insights rep)
    = [{| pi_type := "engagement";
          pi_message := "mastodon had the highest engagement with 2 interactions";
          pi_metric := 2 |}].
Proof.
  set (out := @generate_report Demo.lib DemoReport.lib "daily" DemoReport.noon
                DemoReport.noon DemoReport.store).
  destruct (fst out) as [rep |] eqn:Hrep; [| vm_compute in Hrep; discriminate Hrep].
  assert (Hout : out = (Some rep, snd out)).
  { rewrite <- Hrep. apply surjective_pairing. }
  destruct (@report_engagement_leader Demo.lib DemoReport.lib _ _ _ _ _ _ Hout)
    as (start & stop & best & Hrange & Hcount & Hbest & Hfilter).
  assert (Hcounts : map (platform_count (social_media rep)) platforms
                    = [1; 2; 2]%nat).
  { assert (E : option_map (fun r => map (platform_count (social_media r)) platforms)
                  (fst out) = Some [1; 2; 2]%nat) by (vm_compute; reflexivity).
    rewrite Hrep in E. cbn [option_map] in E. injection E as E1 E2 E3.
    cbn [map platforms]. rewrite E1, E2, E3. reflexivity. }
  assert (Hb : best = "mastodon").
  { destruct Hbest as (b & a & Hl & Hlt & Hle).
    cbn [map platforms] in Hcounts. injection Hcounts as H1 H2 H3.
    unfold platforms in Hl.
    destruct b as [| x1 [| x2 [| x3 [| x4 b]]]]; simpl in Hl.
    - injection Hl as <- <-. specialize (Hle "mastodon" (or_introl eq_refl)). lia.
    - injection Hl as <- <- <-. reflexivity.
    - injection Hl as <- <- <- <-.
      specialize (Hlt "mastodon" (or_intror (or_introl eq_refl))). lia.
    - injection Hl as _ _ _ Hl. discriminate Hl.
    - injection Hl as _ _ _ Hl. destruct b; discriminate Hl.
  }
  exists rep, (snd out), best.
  split; [exact Hout |]. split; [exact Hcounts |]. split; [exact Hbest |].
  split; [exact Hb |].
  rewrite Hfilter. subst best.
  cbn [map platforms] in Hcounts. injection Hcounts as _ H2 _. rewrite H2.
  reflexivity.
Defined.


Lemma report_summary_counts_witness :
  exists rep db',
    @generate_report Demo.lib DemoReport.lib "daily" DemoReport.noon
      DemoReport.noon DemoReport.store = (Some rep, db') /\
    total_social_interactions (report_summary rep)
    = list_sum (map (platform_count (social_media rep)) platforms) /\
    total_social_interactions (report_summary rep) = 5%nat /\
    total_posts_created (report_summary rep) = 3%nat /\
    (total_posts_created (report_summary rep)
     <= total_social_interactions (report_summary rep))%nat /\
    (total_social_interactions (report_summary rep)
     <= list_sum (map (fun p => length (lrange DemoReport.store
                                          ("interactions:" +:+ p) (-1)))
                    platforms))%nat.
Proof.
  set (out := @generate_report Demo.lib DemoReport.lib "daily" DemoReport.noon
                DemoReport.noon DemoReport.store).
  destruct (fst out) as [rep |] eqn:Hrep; [| vm_compute in Hrep; discriminate Hrep].
  assert (Hout : out = (Some rep, snd out)).
  { rewrite <- Hrep. apply surjective_pairing. }
  destruct (@report_summary_counts Demo.lib DemoReport.lib _ _ _ _ _ _ Hout)
    as (Hsum & Hposts & Hkeys).
  assert (E : option_map
                (fun r => (total_social_interactions (report_summary r),
                           total_posts_created (report_summary r)))
                (fst out)
              = Some (5%nat, 3%nat)) by (vm_compute; reflexivity).
  rewrite Hrep in E. cbn [option_map] in E. injection E as E1 E2.
  exists rep, (snd out). auto 10.
Defined.

Lemma report_stored_witness :
  (exists rep,
     @generate_report Demo.lib DemoReport.lib "daily" DemoReport.noon
       DemoReport.noon DemoReport.store
     = (Some rep,
        <["analytics_report:daily:2024-01-15"
          := RStr (@dumps_report DemoReport.lib rep)]> DemoReport.store) /\
     sublist (map pi_type (performance_insights rep))
       ["revenue"; "engagement"; "conversion"]) /\
  @generate_report Demo.lib DemoReport.lib "daily" (mk 9999 12 31 12 0 0 0)
    DemoReport.noon DemoReport.store = (None, DemoReport.store).
Proof.
  destruct (@report_stored Demo.lib DemoReport.lib "daily" DemoReport.noon
              DemoReport.noon DemoReport.store) as [_ Hok].
  destruct (@report_stored Demo.lib DemoReport.lib "daily"
              (mk 9999 12 31 12 0 0 0) DemoReport.noon DemoReport.store)
    as [Hbad _].
  split.
  - destruct (Hok (mk 2024 1 15 0 0 0 0) (mk 2024 1 16 0 0 0 0) eq_refl)
      as (rep & Hg & _ & _ & Hsub).
    exists rep. split; [exact Hg | exact Hsub].
  - exact (Hbad OverflowError eq_refl).
Defined.

Lemma report_overwritten_witness :
  exists rep1 db1 rep2,
    @generate_report Demo.lib DemoReport.lib "daily" DemoReport.noon
      DemoReport.noon DemoReport.store = (Some rep1, db1) /\
    db_get db1 "analytics_report:daily:2024-01-15"
    = Some (@dumps_report DemoReport.lib rep1) /\
    @generate_report Demo.lib DemoReport.lib "daily" (mk 2024 1 15 18 30 0 0)
      (mk 2024 1 15 18 30 0 0) db1
    = (Some rep2,
       <["analytics_report:daily:2024-01-15"
         := RStr (@dumps_report DemoReport.lib rep2)]> DemoReport.store).
Proof.
  set (out := @generate_report Demo.lib DemoReport.lib "daily" DemoReport.noon
                DemoReport.noon DemoReport.store).
  destruct (fst out) as [rep1 |] eqn:Hrep; [| vm_compute in Hrep; discriminate Hrep].
  assert (Hout : out = (Some rep1, snd out)).
  { rewrite <- Hrep. apply surjective_pairing. }
  destruct (@report_overwritten Demo.lib DemoReport.lib "daily" DemoReport.noon
              (mk 2024 1 15 18 30 0 0) DemoReport.noon (mk 2024 1 15 18 30 0 0)
              DemoReport.store (snd out) rep1 eq_refl eq_refl eq_refl Hout)
    as (rep2 & start & stop & Hrange & _ & Hget & Hg2).
  assert (Hstart : start = mk 2024 1 15 0 0 0 0).
  { assert (E : _get_date_range "daily" DemoReport.noon
                = Ok (mk 2024 1 15 0 0 0 0, mk 2024 1 16 0 0 0 0)) by reflexivity.
    rewrite E in Hrange. now injection Hrange as <- _. }
  subst start. exists rep1, (snd out), rep2. auto.
Defined.

End ReportFacts.

(** ** Historical trends *)

Module TrendFacts.

Import Datetime Analytics Report Trends.

Lemma add_days_is_ok t n :
  is_ok (add_days t n) = true <-> 0 < toordinal t + n <= MAXORDINAL.
Proof.
  unfold add_days.
  destruct ((0 <? toordinal t + n) && (toordinal t + n <=? MAXORDINAL)) eqn:E.
  - apply andb_true_iff in E. rewrite Z.ltb_lt, Z.leb_le in E.
    destruct (ord2ymd _) as [[y m] d]. simpl. tauto.
  - simpl. split; [discriminate |]. intros Hr.
    assert (Ht : (0 <? toordinal t + n) && (toordinal t + n <=? MAXORDINAL) = true).
    { apply andb_true_iff. rewrite Z.ltb_lt, Z.leb_le. exact Hr. }
    congruence.
Qed.

Lemma analyze_trend_short metrics :
  (length metrics < 14)%nat -> analyze_trend metrics = "stable".
Proof.
  intros Hlen. unfold analyze_trend.
  destruct (7 <=? length metrics)%nat; [| reflexivity].
  destruct (14 <=? length metrics)%nat eqn:E; [| reflexivity].
  apply Nat.leb_le in E. lia.
Qed.

Lemma analyze_trend_fortnight metrics :
  analyze_trend metrics = analyze_trend (firstn 14 metrics).
Proof.
  destruct (Nat.lt_ge_cases (length metrics) 14) as [Hlt | Hge].
  - now rewrite firstn_all2 by lia.
  - unfold analyze_trend. rewrite length_firstn.
    replace (Nat.min 14 (length metrics)) with 14%nat by lia.
    assert (H7 : (7 <=? length metrics)%nat = true) by (apply Nat.leb_le; lia).
    assert (H14 : (14 <=? length metrics)%nat = true) by (now apply Nat.leb_le).
    rewrite H7, H14. cbn [Nat.leb].
    rewrite (firstn_firstn metrics 7 14). cbn [Nat.min].
    replace (firstn 7 (skipn 7 (firstn 14 metrics)))
      with (firstn 7 (skipn 7 metrics)); [reflexivity |].
    rewrite skipn_firstn_comm. cbn [Nat.sub].
    now rewrite (firstn_firstn (skipn 7 metrics) 7 7).
Qed.

Section Historian.
Context `{PyLib} `{ReportLib}.
Variable db : gmap string rvalue.

Lemma daily_metric_of_ok now i :
  valid now ->
  is_ok (daily_metric_of db now i) = true
  <-> 0 < toordinal now - i < MAXORDINAL.
Proof.
  intros Hv. unfold daily_metric_of.
  destruct (add_days now (- i)) as [date | e] eqn:Hdate; simpl.
  - destruct (CalendarFacts.add_days_spec now (- i) date Hv Hdate)
      as (Hvd & Hod & _).
    rewrite (WindowerFacts.replace_midnight_valid date Hvd). simpl.
    pose proof (add_days_is_ok (mk (year date) (month date) (day date) 0 0 0 0) 1)
      as Hend.
    change (toordinal (mk (year date) (month date) (day date) 0 0 0 0))
      with (toordinal date) in Hend.
    assert (Hfirst : is_ok (add_days now (- i)) = true) by now rewrite Hdate.
    apply add_days_is_ok in Hfirst.
    destruct (add_days (mk (year date) (month date) (day date) 0 0 0 0) 1)
      as [end_date | e]; simpl in *.
    + split; [intros _ | reflexivity].
      assert (0 < toordinal date + 1 <= MAXORDINAL) by now apply Hend. lia.
    + split; [discriminate |]. intros Hr. apply Hend. lia.
  - split; [discriminate |]. intros Hr.
    assert (Hfirst : is_ok (add_days now (- i)) = true)
      by (apply add_days_is_ok; lia).
    rewrite Hdate in Hfirst. discriminate.
Qed.

Lemma collect_days_spec clock turns : forall i acc metrics,
  collect_days db clock i turns acc = Ok metrics ->
  exists found,
    metrics = (acc ++ found)%list /\ length found = turns /\
    forall j, (j < turns)%nat ->
      exists m, nth_error found j = Some m /\
                daily_metric_of db (clock (i + j)%nat) (Z.of_nat (i + j)) = Ok m.
Proof.
  induction turns as [| turns IH]; intros i acc metrics Hc; simpl in Hc.
  - injection Hc as <-. exists []. rewrite app_nil_r.
    split; [reflexivity |]. split; [reflexivity |]. intros j Hj. lia.
  - destruct (daily_metric_of db (clock i) (Z.of_nat i)) as [m |] eqn:Hm;
      [| discriminate].
    simpl in Hc. destruct (IH _ _ _ Hc) as (found & -> & Hlen & Hnth).
    exists (m :: found). rewrite <- app_assoc. split; [reflexivity |].
    split; [simpl; lia |].
    intros [| j] Hj.
    + exists m. rewrite Nat.add_0_r. auto.
    + destruct (Hnth j ltac:(lia)) as (m' & Hn & Hd).
      exists m'. replace (i + S j)%nat with (S i + j)%nat by lia. auto.
Qed.

Lemma collect_days_ok clock turns : forall i acc,
  is_ok (collect_days db clock i turns acc) = true
  <-> forall j, (j < turns)%nat ->
        is_ok (daily_metric_of db (clock (i + j)%nat) (Z.of_nat (i + j))) = true.
Proof.
  induction turns as [| turns IH]; intros i acc; simpl.
  - split; [intros _ j Hj; lia | reflexivity].
  - destruct (daily_metric_of db (clock i) (Z.of_nat i)) as [m |] eqn:Hm; simpl.
    + rewrite IH. split.
      * intros Hall [| j] Hj.
        -- rewrite Nat.add_0_r, Hm. reflexivity.
        -- replace (i + S j)%nat with (S i + j)%nat by lia. apply Hall. lia.
      * intros Hall j Hj. replace (S i + j)%nat with (i + S j)%nat by lia.
        apply Hall. lia.
    + split; [discriminate |]. intros Hall.
      specialize (Hall 0%nat ltac:(lia)). rewrite Nat.add_0_r, Hm in Hall.
      exact Hall.
Qed.

(** X12. What [get_historical_trends] returns, when it returns trends:
    one entry per day asked for, entry [i] computed for the day [i] days
    before the clock reading of its turn; the engagement and lead trends
    are always "stable"; the revenue trend is "stable" whenever fewer
    than 14 days are asked for, and depends on the first 14 entries
    only. *)
Theorem historical_trends_shape (clock : nat -> datetime) (days : Z) (t : trends) :
  get_historical_trends db clock days = Some t ->
  period_days t = days /\
  length (daily_metrics t) = Z.to_nat days /\
  (forall i, (i < Z.to_nat days)%nat ->
     exists m, nth_error (daily_metrics t) i = Some m /\
               daily_metric_of db (clock i) (Z.of_nat i) = Ok m) /\
  engagement_trend t = "stable" /\ lead_trend t = "stable" /\
  (days < 14 -> revenue_trend t = "stable") /\
  revenue_trend t = analyze_trend (firstn 14 (daily_metrics t)).
Proof.
  unfold get_historical_trends.
  destruct (collect_days db clock 0 (Z.to_nat days) []) as [metrics | e] eqn:Hc;
    [| discriminate].
  intros Ht. injection Ht as <-. simpl.
  destruct (collect_days_spec _ _ _ _ _ Hc) as (found & -> & Hlen & Hnth).
  simpl. repeat match goal with |- _ /\ _ => split end; try reflexivity.
  - exact Hlen.
  - exact Hnth.
  - intros Hd. apply analyze_trend_short. lia.
  - apply analyze_trend_fortnight.
Qed.

(** X13. With valid clock readings, [get_historical_trends] returns
    trends exactly when every day it asks for, and the day after it, is
    inside the calendar: day number [toordinal (clock i) - i] lies
    strictly between 0 and the last day of year 9999 for each turn [i].
    Otherwise the result is the empty dict. *)
Theorem historical_trends_returns (clock : nat -> datetime) (days : Z) :
  (forall i, valid (clock i)) ->
  (is_Some (get_historical_trends db clock days)
   <-> forall i, (i < Z.to_nat days)%nat ->
         0 < toordinal (clock i) - Z.of_nat i < MAXORDINAL).
Proof.
  intros Hv. unfold get_historical_trends.
  pose proof (collect_days_ok clock (Z.to_nat days) 0 []) as Hok.
  assert (Hiff : is_ok (collect_days db clock 0 (Z.to_nat days) []) = true
                 <-> forall i, (i < Z.to_nat days)%nat ->
                       0 < toordinal (clock i) - Z.of_nat i < MAXORDINAL).
  { rewrite Hok. split; intros Hall i Hi.
    - apply daily_metric_of_ok; [apply Hv |]. exact (Hall i Hi).
    - simpl. apply daily_metric_of_ok; [apply Hv |]. exact (Hall i Hi). }
  rewrite <- Hiff.
  destruct (collect_days db clock 0 (Z.to_nat days) []); simpl.
  - split; [reflexivity | eauto].
  - split; [intros [x Hx]; discriminate | discriminate].
Qed.

End Historian.

Lemma historical_trends_shape_witness :
  exists t,
    @get_historical_trends Demo.lib DemoReport.lib Demo.store
      (fun _ => DemoReport.noon) 3 = Some t /\
    length (daily_metrics t) = 3%nat /\
    revenue_trend t = "stable" /\
    map dm_date (daily_metrics t) = ["2024-01-15"; "2024-01-14"; "2024-01-13"].
Proof.
  destruct (@get_historical_trends Demo.lib DemoReport.lib Demo.store
              (fun _ => DemoReport.noon) 3) as [t |] eqn:Ht;
    [| vm_compute in Ht; discriminate Ht].
  destruct (@historical_trends_shape Demo.lib DemoReport.lib Demo.store
              (fun _ => DemoReport.noon) 3 t Ht)
    as (_ & Hlen & _ & _ & _ & Hstable & _).
  exists t. split; [reflexivity |]. split; [exact Hlen |].
  split; [apply Hstable; lia |].
  vm_compute in Ht. injection Ht as <-. reflexivity.
Defined.

Lemma historical_trends_returns_witness :
  is_Some (@get_historical_trends Demo.lib DemoReport.lib Demo.store
             (fun _ => DemoReport.noon) 3) /\
  @get_historical_trends Demo.lib DemoReport.lib Demo.store
    (fun _ => mk 1 1 3 0 0 0 0) 4 = None.
Proof.
  split.
  - apply (@historical_trends_returns Demo.lib DemoReport.lib Demo.store
             (fun _ => DemoReport.noon) 3).
    + intros _. apply WindowerFacts.validb_spec. reflexivity.
    + intros i Hi. change (toordinal DemoReport.noon) with 738900.
      unfold MAXORDINAL. lia.
  - destruct (@get_historical_trends Demo.lib DemoReport.lib Demo.store
                (fun _ => mk 1 1 3 0 0 0 0) 4) as [t |] eqn:Ht; [| reflexivity].
    exfalso.
    assert (Hsome : is_Some (@get_historical_trends Demo.lib DemoReport.lib
                               Demo.store (fun _ => mk 1 1 3 0 0 0 0) 4))
      by (rewrite Ht; eauto).
    assert (Hvalid : forall i : nat, valid (mk 1 1 3 0 0 0 0))
      by (intros _; apply WindowerFacts.validb_spec; reflexivity).
    pose proof (proj1 (@historical_trends_returns Demo.lib DemoReport.lib
                         Demo.store (fun _ => mk 1 1 3 0 0 0 0) 4 Hvalid)
                  Hsome 3%nat ltac:(simpl; lia)) as Hbad.
    destruct Hbad as [Hbad _]. vm_compute in Hbad. discriminate Hbad.
Defined.

End TrendFacts.

(** ** Splitting and joining *)

Module StringFacts.

Import TextNotions.

Lemma append_cons c s b : String c s +:+ b = String c (s +:+ b).
Proof. reflexivity. Qed.

Lemma append_nil_l s : "" +:+ s = s.
Proof. reflexivity. Qed.

Lemma append_nil_r s : s +:+ "" = s.
Proof.
  induction s as [| c s IH]; [reflexivity |]. now rewrite append_cons, IH.
Qed.

Lemma append_assoc a b c : (a +:+ b) +:+ c = a +:+ (b +:+ c).
Proof.
  induction a as [| x a IH]; [reflexivity |]. now rewrite !append_cons, IH.
Qed.

Lemma length_app a b :
  String.length (a +:+ b) = (String.length a + String.length b)%nat.
Proof.
  induction a as [| x a IH]; [reflexivity |].
  rewrite append_cons. cbn [String.length]. now rewrite IH.
Qed.

Lemma rev_string_acc s : forall acc,
  rev_string acc s = rev_string "" s +:+ acc.
Proof.
  induction s as [| c s IH]; intros acc; cbn [rev_string]; [reflexivity |].
  rewrite (IH (String c acc)), (IH (String c "")).
  now rewrite append_assoc.
Qed.

Lemma rev_string_cons c cur :
  rev_string "" (String c cur) = rev_string "" cur +:+ String c "".
Proof. cbn [rev_string]. apply rev_string_acc. Qed.

Lemma prefix_app sep rest : String.prefix sep (sep +:+ rest) = true.
Proof.
  induction sep as [| c sep IH]; [now destruct rest |].
  rewrite append_cons. cbn [String.prefix].
  destruct (ascii_dec c c) as [_ | Hne]; [exact IH | now destruct Hne].
Qed.

Lemma drop_chars_app sep rest :
  drop_chars (String.length sep) (sep +:+ rest) = rest.
Proof.
  induction sep as [| c sep IH]; [reflexivity |].
  rewrite append_cons. exact IH.
Qed.

Lemma prefix_other c sep x rest :
  Ascii.eqb c x = false -> String.prefix (String c sep) (String x rest) = false.
Proof.
  intros Hx. cbn [String.prefix].
  destruct (ascii_dec c x) as [-> | Hne]; [| reflexivity].
  rewrite Ascii.eqb_refl in Hx. discriminate.
Qed.

Lemma has_char_app c a b : has_char c (a +:+ b) = has_char c a || has_char c b.
Proof.
  induction a as [| x a IH]; [reflexivity |].
  rewrite append_cons. cbn [has_char]. now rewrite IH, orb_assoc.
Qed.

(** A piece without an occurrence of the separator is not cut. *)
Lemma split_aux_none sep s : forall fuel cur,
  contains sep s = false ->
  split_aux fuel sep cur s = [rev_string "" cur +:+ s].
Proof.
  induction s as [| c s IH]; intros fuel cur Hno; destruct fuel as [| fuel];
    cbn [split_aux]; try reflexivity.
  - now rewrite append_nil_r.
  - cbn [contains] in Hno. apply orb_false_iff in Hno as [Hp Hrest].
    rewrite Hp. rewrite (IH fuel (String c cur) Hrest).
    rewrite rev_string_cons, append_assoc. reflexivity.
Qed.

Lemma contains_prefix sep s : String.prefix sep s = true -> contains sep s = true.
Proof. intros Hp. destruct s; cbn [contains]; now rewrite Hp. Qed.

Lemma contains_app sep a b : contains sep (a +:+ sep +:+ b) = true.
Proof.
  induction a as [| x a IH].
  - rewrite append_nil_l. apply contains_prefix, prefix_app.
  - rewrite append_cons. cbn [contains]. rewrite IH. apply orb_true_r.
Qed.

(** A match starts with the first character of the separator. *)
Lemma contains_skip c sep p t :
  has_char c p = false ->
  contains (String c sep) (p +:+ t) = contains (String c sep) t.
Proof.
  induction p as [| x p IH]; intros Hno; [reflexivity |].
  cbn [has_char] in Hno. apply orb_false_iff in Hno as [Hx Hp].
  rewrite append_cons. cbn [contains].
  rewrite (IH Hp), (prefix_other c sep x _ Hx). reflexivity.
Qed.

Lemma contains_lacking c sep s :
  has_char c s = false -> contains (String c sep) s = false.
Proof.
  intros Hno. rewrite <- (append_nil_r s).
  rewrite (contains_skip c sep s "" Hno). reflexivity.
Qed.

(** Scanning a piece that lacks the first character of the separator *)
Lemma split_aux_piece c sep p rest : forall fuel cur,
  has_char c p = false ->
  (String.length p < fuel)%nat ->
  split_aux fuel (String c sep) cur (p +:+ String c sep +:+ rest)
  = (rev_string "" cur +:+ p)
    :: split_aux (fuel - S (String.length p)) (String c sep) "" rest.
Proof.
  induction p as [| x p IH]; intros fuel cur Hno Hfuel;
    destruct fuel as [| fuel]; cbn [String.length] in Hfuel; try lia.
  - rewrite append_nil_l, append_nil_r. cbn [String.length].
    rewrite Nat.sub_succ, Nat.sub_0_r.
    pose proof (prefix_app (String c sep) rest) as Hp.
    pose proof (drop_chars_app (String c sep) rest) as Hd.
    rewrite append_cons in *. cbn [split_aux]. rewrite Hp, Hd. reflexivity.
  - cbn [has_char] in Hno. apply orb_false_iff in Hno as [Hx Hp].
    rewrite append_cons. cbn [split_aux].
    rewrite (prefix_other c sep x _ Hx).
    rewrite (IH fuel (String x cur) Hp ltac:(lia)).
    rewrite rev_string_cons, append_assoc. reflexivity.
Qed.

Lemma prefix_beyond sep : forall x tail,
  (String.length sep <= String.length x)%nat ->
  String.prefix sep (x +:+ tail) = String.prefix sep x.
Proof.
  induction sep as [| c sep IH]; intros x tail Hlen.
  - now destruct x, tail.
  - destruct x as [| y x]; [cbn [String.length] in Hlen; lia |].
    rewrite append_cons. cbn [String.prefix].
    destruct (ascii_dec c y); [| reflexivity].
    apply IH. cbn [String.length] in Hlen. lia.
Qed.

(** Scanning a piece inside which no occurrence of the separator starts *)
Lemma split_aux_clean c sep a rest : forall fuel cur,
  clean_prefix (String c sep) a = true ->
  (String.length a < fuel)%nat ->
  split_aux fuel (String c sep) cur (a +:+ String c sep +:+ rest)
  = (rev_string "" cur +:+ a)
    :: split_aux (fuel - S (String.length a)) (String c sep) "" rest.
Proof.
  induction a as [| x a IH]; intros fuel cur Hclean Hfuel;
    destruct fuel as [| fuel]; cbn [String.length] in Hfuel; try lia.
  - rewrite append_nil_l, append_nil_r. cbn [String.length].
    rewrite Nat.sub_succ, Nat.sub_0_r.
    pose proof (prefix_app (String c sep) rest) as Hp.
    pose proof (drop_chars_app (String c sep) rest) as Hd.
    rewrite append_cons in *. cbn [split_aux]. rewrite Hp, Hd. reflexivity.
  - cbn [clean_prefix] in Hclean. apply andb_true_iff in Hclean as [Hx Ha].
    apply negb_true_iff in Hx.
    assert (Hpre : String.prefix (String c sep)
                     (String x (a +:+ String c sep +:+ rest)) = false).
    { rewrite <- Hx, <- append_cons, <- append_assoc.
      apply prefix_beyond. rewrite length_app. lia. }
    rewrite append_cons. cbn [split_aux]. rewrite Hpre.
    rewrite (IH fuel (String x cur) Ha ltac:(lia)).
    rewrite rev_string_cons, append_assoc. reflexivity.
Qed.

Lemma split_last_clean c sep a b :
  clean_prefix (String c sep) a = true ->
  contains (String c sep) b = false ->
  List.last (split (String c sep) (a +:+ String c sep +:+ b)) "" = b.
Proof.
  intros Ha Hb. unfold split.
  rewrite split_aux_clean; [| exact Ha | rewrite length_app; lia].
  rewrite (split_aux_none _ b _ "" Hb). reflexivity.
Qed.

Lemma split_aux_last_piece c sep p : forall fuel cur,
  has_char c p = false ->
  split_aux fuel (String c sep) cur p = [rev_string "" cur +:+ p].
Proof.
  intros fuel cur Hno. apply split_aux_none. now apply contains_lacking.
Qed.

Lemma join_cons sep p q rest :
  join sep (p :: q :: rest) = p +:+ sep +:+ join sep (q :: rest).
Proof. reflexivity. Qed.

(** Splitting what was joined gives the parts back, when no part holds
    the first character of the separator. *)
Lemma split_aux_join c sep parts : forall fuel p,
  Forall (fun q => has_char c q = false) (p :: parts) ->
  (String.length (join (String c sep) (p :: parts)) < fuel)%nat ->
  split_aux fuel (String c sep) "" (join (String c sep) (p :: parts))
  = p :: parts.
Proof.
  induction parts as [| q parts IH]; intros fuel p Hall Hfuel.
  - inversion Hall; subst. cbn [join].
    now rewrite split_aux_last_piece.
  - inversion Hall as [| ? ? Hp Hrest]; subst.
    rewrite join_cons in *.
    rewrite !length_app in Hfuel. cbn [String.length] in Hfuel.
    rewrite split_aux_piece by (try exact Hp; lia).
    cbn [rev_string]. rewrite append_nil_l. f_equal.
    apply IH; [exact Hrest | lia].
Qed.

Lemma split_join c sep p parts :
  Forall (fun q => has_char c q = false) (p :: parts) ->
  split (String c sep) (join (String c sep) (p :: parts)) = p :: parts.
Proof.
  intros Hall. unfold split. apply split_aux_join; [exact Hall | lia].
Qed.

Lemma suffix_last_cons suffix p parts :
  exists p' parts', suffix_last suffix (p :: parts) = p' :: parts'.
Proof. destruct parts; simpl; eauto. Qed.

Lemma join_suffix_last sep suffix p parts :
  join sep (p :: parts) +:+ suffix = join sep (suffix_last suffix (p :: parts)).
Proof.
  revert p. induction parts as [| q parts IH]; intros p; [reflexivity |].
  rewrite join_cons, !append_assoc, IH.
  change (suffix_last suffix (p :: q :: parts))
    with (p :: suffix_last suffix (q :: parts)).
  destruct (suffix_last_cons suffix q parts) as (q' & parts' & ->).
  reflexivity.
Qed.

Lemma suffix_last_lacks c suffix l :
  has_char c suffix = false ->
  Forall (fun q => has_char c q = false) l ->
  Forall (fun q => has_char c q = false) (suffix_last suffix l).
Proof.
  intros Hs. induction l as [| x [| y l] IH]; intros Hall.
  - constructor.
  - inversion Hall as [| ? ? Hx _]; subst. constructor; [| constructor].
    rewrite has_char_app. now rewrite Hx, Hs.
  - inversion Hall; subst. constructor; [assumption |]. now apply IH.
Qed.

(** The first piece, for a head that lacks the separator's first
    character *)
Lemma split_head c sep p rest :
  has_char c p = false ->
  List.hd "" (split (String c sep) (p +:+ String c sep +:+ rest)) = p.
Proof.
  intros Hno. unfold split.
  rewrite split_aux_piece; [reflexivity | exact Hno |].
  rewrite length_app. lia.
Qed.

Lemma split_aux_nonempty sep : forall fuel cur s, split_aux fuel sep cur s <> [].
Proof.
  induction fuel as [| fuel IH]; intros cur s; cbn [split_aux]; [discriminate |].
  destruct s as [| c rest]; [discriminate |].
  destruct (String.prefix sep (String c rest)); [discriminate | apply IH].
Qed.

(** The last piece after a separator of two different characters, when
    the tail holds no further separator *)
Lemma split_aux_last c0 c1 b : c0 <> c1 ->
  contains (String c0 (String c1 "")) b = false ->
  forall n a fuel cur,
    (String.length a <= n)%nat ->
    (String.length (a +:+ String c0 (String c1 "") +:+ b) < fuel)%nat ->
    List.last (split_aux fuel (String c0 (String c1 "")) cur
                 (a +:+ String c0 (String c1 "") +:+ b)) "" = b.
Proof.
  intros Hne Hb. set (sep := String c0 (String c1 "")).
  assert (Hhere : forall fuel cur, (0 < fuel)%nat ->
            List.last (split_aux fuel sep cur (sep +:+ b)) "" = b).
  { intros [| fuel] cur Hf; [lia |].
    pose proof (prefix_app sep b) as Hp.
    pose proof (drop_chars_app sep b) as Hd.
    unfold sep in Hp, Hd |- *. rewrite !append_cons in *.
    cbn [split_aux]. rewrite Hp, Hd.
    fold sep. rewrite (split_aux_none sep b fuel "" Hb). reflexivity. }
  induction n as [| n IH]; intros a fuel cur Hn Hfuel.
  - destruct a; cbn [String.length] in Hn; [| lia].
    rewrite append_nil_l in *. apply Hhere. lia.
  - destruct a as [| x a].
    { rewrite append_nil_l in *. apply Hhere. lia. }
    destruct fuel as [| fuel]; [lia |].
    rewrite append_cons in *. cbn [String.length] in Hn, Hfuel.
    cbn [split_aux].
    destruct (String.prefix sep (String x (a +:+ sep +:+ b))) eqn:Hp.
    + destruct a as [| y a].
      * exfalso. rewrite append_nil_l in Hp. unfold sep in Hp.
        rewrite !append_cons in Hp. cbn [String.prefix] in Hp.
        destruct (ascii_dec c0 x) as [-> | ?]; [| discriminate].
        destruct (ascii_dec c1 x) as [-> | ?]; [now apply Hne | discriminate].
      * rewrite append_cons in *. unfold sep at 2. cbn [String.length drop_chars].
        cbn [String.length] in Hn, Hfuel.
        assert (Hrec : List.last (split_aux fuel sep "" (a +:+ sep +:+ b)) "" = b).
        { apply (IH a); lia. }
        pose proof (split_aux_nonempty sep fuel "" (a +:+ sep +:+ b)) as Hnil.
        destruct (split_aux fuel sep "" (a +:+ sep +:+ b)); [now destruct Hnil |].
        exact Hrec.
    + apply (IH a); lia.
Qed.

Lemma split_last c0 c1 a b : c0 <> c1 ->
  contains (String c0 (String c1 "")) b = false ->
  List.last (split (String c0 (String c1 "")) (a +:+ String c0 (String c1 "") +:+ b))
    "" = b.
Proof.
  intros Hne Hb. unfold split.
  apply (split_aux_last c0 c1 b Hne Hb (String.length a)); lia.
Qed.

Lemma digits_lack c s :
  is_digit c = false -> digits_only s = true -> has_char c s = false.
Proof.
  intros Hc. induction s as [| x s IH]; [reflexivity |].
  cbn [digits_only has_char]. intros Hd. apply andb_true_iff in Hd as [Hx Hs].
  rewrite (IH Hs), orb_false_r.
  destruct (Ascii.eqb c x) eqn:E; [| reflexivity].
  apply Ascii.eqb_eq in E. subst. congruence.
Qed.

End StringFacts.

(** ** Insights and the strategies read back from them *)

Module InsightFacts.

Import AutoLearning TextNotions StringFacts.

Lemma has_char_join c sep parts :
  has_char c sep = false ->
  Forall (fun q => has_char c q = false) parts ->
  has_char c (join sep parts) = false.
Proof.
  intros Hsep. induction parts as [| p [| q parts] IH]; intros Hall.
  - reflexivity.
  - now inversion Hall.
  - inversion Hall as [| ? ? Hp Hrest]; subst.
    rewrite join_cons, !has_char_app, Hp, Hsep. now rewrite (IH Hrest).
Qed.

(** A separator with a character that the text lacks does not occur. *)
Lemma prefix_has_char c sep : forall s,
  has_char c sep = true -> String.prefix sep s = true -> has_char c s = true.
Proof.
  induction sep as [| x sep IH]; intros s Hc Hp; [discriminate |].
  destruct s as [| y s]; [discriminate |].
  cbn [String.prefix] in Hp. destruct (ascii_dec x y) as [-> | ?]; [| discriminate].
  cbn [has_char] in *. apply orb_true_iff in Hc as [Hc | Hc].
  - now rewrite Hc.
  - rewrite (IH s Hc Hp). apply orb_true_r.
Qed.

Lemma contains_missing c sep s :
  has_char c sep = true -> has_char c s = false -> contains sep s = false.
Proof.
  intros Hc. induction s as [| y s IH]; intros Hs.
  - cbn [contains]. destruct (String.prefix sep "") eqn:Hp; [| reflexivity].
    now rewrite (prefix_has_char c sep "" Hc Hp) in Hs.
  - cbn [contains]. destruct (String.prefix sep (String y s)) eqn:Hp.
    + now rewrite (prefix_has_char c sep _ Hc Hp) in Hs.
    + cbn [has_char] in Hs. apply orb_false_iff in Hs as [_ Hs]. now apply IH.
Qed.

Lemma forall_firstn {A} (P : A -> Prop) n : forall l,
  Forall P l -> Forall P (firstn n l).
Proof.
  induction n as [| n IH]; intros l Hall; [constructor |].
  destruct Hall; simpl; constructor; auto.
Qed.

Lemma all_strings_map kws : all_strings (map JStr kws) = Ok kws.
Proof. induction kws as [| k kws IH]; simpl; [reflexivity | now rewrite IH]. Qed.

Lemma append_not_empty a b : b <> "" -> a +:+ b <> "".
Proof.
  intros Hb E. apply (f_equal String.length) in E.
  rewrite length_app in E. destruct b; [now apply Hb | simpl in E; lia].
Qed.

Lemma eqb_empty_false s : s <> "" -> String.eqb s "" = false.
Proof. intros Hs. now apply String.eqb_neq. Qed.

Section Learning.
Context `{PyLib} `{Analyses}.

(** *** The shape of the insights *)

Lemma content_insight_shape ca l :
  content_insight ca = Ok l ->
  l = [] \/ exists i, l = [i] /\ type_ i = "content_optimization"
                      /\ priority i = "high".
Proof.
  unfold content_insight.
  destruct (dict_get_none ca "high_performing_keywords") as [kw | e];
    simpl; [| discriminate].
  destruct (truthy kw); [| intros E; injection E as <-; now left].
  destruct (slice_to 5 kw) as [top | e]; simpl; [| discriminate].
  destruct (join_json ", " top) as [text | e]; simpl; [| discriminate].
  intros E. injection E as <-. right. eauto.
Qed.

Lemma timing_insight_shape entry l :
  timing_insight entry = Ok l ->
  Forall (fun i => type_ i = "timing_optimization" /\ priority i = "medium") l.
Proof.
  destruct entry as [platform hours]. unfold timing_insight.
  destruct (truthy hours); [| intros E; injection E as <-; constructor].
  destruct (join_hours hours) as [text | e]; simpl; [| discriminate].
  intros E. injection E as <-. repeat constructor.
Qed.

Lemma timing_insights_shape ta l :
  timing_insights ta = Ok l ->
  Forall (fun i => type_ i = "timing_optimization" /\ priority i = "medium") l.
Proof.
  unfold timing_insights.
  destruct (dict_get_none ta "optimal_hours") as [oh | e]; simpl; [| discriminate].
  destruct (truthy oh); [| intros E; injection E as <-; constructor].
  destruct oh as [| | | | | | fields]; try discriminate.
  destruct (map_result timing_insight fields) as [ll | e] eqn:Hm; simpl;
    [| discriminate].
  intros E. injection E as <-.
  revert ll Hm. induction fields as [| entry fields IH]; intros ll Hm;
    simpl in Hm.
  - injection Hm as <-. constructor.
  - destruct (timing_insight entry) as [l1 | e] eqn:H1; simpl in Hm;
      [| discriminate].
    destruct (map_result timing_insight fields) as [l2 | e]; simpl in Hm;
      [| discriminate].
    injection Hm as <-. simpl. apply Forall_app. split.
    + exact (timing_insight_shape entry l1 H1).
    + now apply IH.
Qed.

Lemma sales_insight_shape sa l :
  sales_insight sa = Ok l ->
  l = [] \/ exists i, l = [i] /\ type_ i = "sales_optimization"
                      /\ priority i = "high".
Proof.
  unfold sales_insight.
  destruct (dict_get sa "customer_journey_patterns" (JObj [])) as [jp | e];
    simpl; [| discriminate].
  destruct (dict_get_none jp "average_touchpoints") as [avg | e];
    simpl; [| discriminate].
  destruct (truthy avg); [| intros E; injection E as <-; now left].
  destruct (format_touchpoints avg) as [text | e]; simpl; [| discriminate].
  intros E. injection E as <-. right. eauto.
Qed.

Lemma platform_insight_shape ca l :
  platform_insight ca = Ok l ->
  l = [] \/ exists i, l = [i] /\ type_ i = "platform_optimization"
                      /\ priority i = "medium".
Proof.
  unfold platform_insight.
  destruct (platform_performance ca platforms []) as [pp | e]; simpl;
    [| discriminate].
  destruct pp; intros E; injection E as <-; [now left | right; eauto].
Qed.

Lemma insights_body_inv results l :
  insights_body results = Ok l ->
  exists ca ta sa i1 i2 i3 i4,
    dict_get results "content_performance" (JObj []) = Ok ca /\
    content_insight ca = Ok i1 /\
    dict_get results "timing_patterns" (JObj []) = Ok ta /\
    timing_insights ta = Ok i2 /\
    dict_get results "sales_patterns" (JObj []) = Ok sa /\
    sales_insight sa = Ok i3 /\
    platform_insight ca = Ok i4 /\
    l = (i1 ++ i2 ++ i3 ++ i4)%list.
Proof.
  unfold insights_body.
  destruct (dict_get results "content_performance" (JObj [])) as [ca | e];
    simpl; [| discriminate].
  destruct (content_insight ca) as [i1 | e] eqn:E1; simpl; [| discriminate].
  destruct (dict_get results "timing_patterns" (JObj [])) as [ta | e];
    simpl; [| discriminate].
  destruct (timing_insights ta) as [i2 | e] eqn:E2; simpl; [| discriminate].
  destruct (dict_get results "sales_patterns" (JObj [])) as [sa | e];
    simpl; [| discriminate].
  destruct (sales_insight sa) as [i3 | e] eqn:E3; simpl; [| discriminate].
  destruct (platform_insight ca) as [i4 | e] eqn:E4; simpl; [| discriminate].
  intros E. injection E as <-. exists ca, ta, sa, i1, i2, i3, i4.
  repeat match goal with |- _ /\ _ => split end; auto.
Qed.

Lemma generated_insights_inv results :
  _generate_insights results <> [] ->
  insights_body results = Ok (_generate_insights results).
Proof.
  unfold _generate_insights.
  destruct (insights_body results); [reflexivity | intros Hne; now destruct Hne].
Qed.

Lemma map_repeat_of {A} (f : insight -> A) (a : A) l :
  Forall (fun i => f i = a) l -> map f l = repeat a (length l).
Proof.
  induction 1 as [| i l Hi _ IH]; simpl; [reflexivity | now rewrite Hi, IH].
Qed.

Lemma filter_high_all l :
  Forall (fun i => priority i = "high") l -> List.filter is_high l = l.
Proof.
  induction 1 as [| i l Hi _ IH]; simpl; [reflexivity |].
  unfold is_high at 1. rewrite Hi. simpl. now rewrite IH.
Qed.

Lemma filter_high_none l :
  Forall (fun i => priority i = "medium") l -> List.filter is_high l = [].
Proof.
  induction 1 as [| i l Hi _ IH]; simpl; [reflexivity |].
  unfold is_high at 1. rewrite Hi. simpl. exact IH.
Qed.

(** X14. The insights of an analysis come in a fixed order: at most one
    content insight, then the timing insights, then at most one sales
    insight and at most one platform insight. Content and sales insights
    have priority "high", the others "medium", so that at most two
    insights are of high priority: a learning cycle never reports more
    than two implemented improvements. *)
Theorem insights_shape (analysis_results : json) :
  (exists c n s p : nat,
     (c <= 1)%nat /\ (s <= 1)%nat /\ (p <= 1)%nat /\
     map type_ (_generate_insights analysis_results)
     = (repeat "content_optimization" c ++ repeat "timing_optimization" n
        ++ repeat "sales_optimization" s ++ repeat "platform_optimization" p)%list /\
     map priority (_generate_insights analysis_results)
     = (repeat "high" c ++ repeat "medium" n ++ repeat "high" s
        ++ repeat "medium" p)%list /\
     length (List.filter is_high (_generate_insights analysis_results))
     = (c + s)%nat) /\
  (forall now done m s m',
     run_learning_cycle now done m = (CycleSummary s, m') ->
     (improvements_implemented s <= 2)%nat /\
     (improvements_implemented s <= insights_generated s)%nat /\
     insights_generated s = length (insights s)).
Proof.
  assert (Hshape : forall results,
            exists c n s p : nat,
              (c <= 1)%nat /\ (s <= 1)%nat /\ (p <= 1)%nat /\
              map type_ (_generate_insights results)
              = (repeat "content_optimization" c ++ repeat "timing_optimization" n
                 ++ repeat "sales_optimization" s
                 ++ repeat "platform_optimization" p)%list /\
              map priority (_generate_insights results)
              = (repeat "high" c ++ repeat "medium" n ++ repeat "high" s
                 ++ repeat "medium" p)%list /\
              length (List.filter is_high (_generate_insights results))
              = (c + s)%nat).
  { intros results. unfold _generate_insights.
    destruct (insights_body results) as [l | e] eqn:Hb;
      [| exists 0%nat, 0%nat, 0%nat, 0%nat; simpl; auto 10].
    destruct (insights_body_inv results l Hb)
      as (ca & ta & sa & i1 & i2 & i3 & i4 & _ & H1 & _ & H2 & _ & H3 & H4 & ->).
    pose proof (timing_insights_shape ta i2 H2) as Ht.
    assert (Ht1 : Forall (fun i => type_ i = "timing_optimization") i2)
      by (eapply Forall_impl; [| exact Ht]; simpl; tauto).
    assert (Ht2 : Forall (fun i => priority i = "medium") i2)
      by (eapply Forall_impl; [| exact Ht]; simpl; tauto).
    exists (length i1), (length i2), (length i3), (length i4).
    rewrite !map_app, !List.filter_app, !List.length_app.
    rewrite (map_repeat_of type_ _ i2 Ht1), (map_repeat_of priority _ i2 Ht2).
    rewrite (filter_high_none i2 Ht2).
    destruct (content_insight_shape ca i1 H1) as [-> | (c1 & -> & Hc1 & Hc2)];
      destruct (sales_insight_shape sa i3 H3) as [-> | (c3 & -> & Hs1 & Hs2)];
      destruct (platform_insight_shape ca i4 H4) as [-> | (c4 & -> & Hp1 & Hp2)];
      cbn [length map List.filter app repeat]; unfold is_high;
      repeat match goal with Hx : _ = _ |- _ => rewrite Hx end;
      cbn [String.eqb Ascii.eqb Bool.eqb length app];
      repeat match goal with |- _ /\ _ => split end;
      try reflexivity; try lia. }
  split; [apply Hshape |].
  intros now done m s m' Hrun. unfold run_learning_cycle in Hrun.
  destruct (updated_patterns now _ _ _); [| discriminate].
  injection Hrun as <- _. cbn [improvements_implemented insights_generated insights].
  destruct (Hshape (cycle_results (db m)))
    as (c & n & s & p & Hc & Hs & Hp & _ & _ & Hhigh).
  cbn [db] in *. rewrite Hhigh.
  split; [lia |]. split; [| reflexivity].
  rewrite <- Hhigh. apply List.filter_length_le.
Qed.


(** *** Reading the insights back *)

Lemma apply_insight_other_keywords i u :
  type_ i <> "content_optimization" ->
  priority_keywords (apply_insight i u) = priority_keywords u.
Proof.
  intros Hty. unfold apply_insight.
  apply String.eqb_neq in Hty. rewrite Hty.
  repeat match goal with
         | |- context [if ?b then _ else _] => destruct b
         | |- context [match ?x with Ok _ => _ | Raise _ => _ end] => destruct x
         end; reflexivity.
Qed.

Lemma fold_other_keywords l : forall u,
  Forall (fun i => type_ i <> "content_optimization") l ->
  priority_keywords (fold_left (fun u i => apply_insight i u) l u)
  = priority_keywords u.
Proof.
  induction l as [| i l IH]; intros u Hall; simpl; [reflexivity |].
  inversion Hall as [| ? ? Hi Hrest]; subst.
  rewrite (IH _ Hrest). now apply apply_insight_other_keywords.
Qed.

(** X15. The keywords of the content insight are read back by
    [_update_strategies]: when insights were generated and the analysis
    lists keywords that hold neither a comma nor a colon, the strategy's
    [priority_keywords] are the first five of them. *)
Theorem keywords_round_trip (results content_analysis : json)
    (kws : list string) :
  _generate_insights results <> [] ->
  dict_get results "content_performance" (JObj []) = Ok content_analysis ->
  dict_get_none content_analysis "high_performing_keywords"
  = Ok (JArr (map JStr kws)) ->
  Forall (fun k => has_char "," k = false /\ has_char ":" k = false) kws ->
  join ", " (firstn 5 kws) <> "" ->
  priority_keywords (derive_strategy (_generate_insights results))
  = Some (firstn 5 kws).
Proof.
  intros Hgen Hca Hkw Hclean Hjoin.
  pose proof (generated_insights_inv results Hgen) as Hbody.
  destruct (insights_body_inv results _ Hbody)
    as (ca & ta & sa & i1 & i2 & i3 & i4 & Hca' & H1 & _ & H2 & _ & H3 & H4 & Hl).
  rewrite Hca in Hca'. injection Hca' as <-.
  rewrite Hl. clear Hl Hbody Hgen.
  set (top := firstn 5 kws) in *.
  assert (Htop : Forall (fun k => has_char "," k = false /\ has_char ":" k = false)
                   top) by (apply forall_firstn; exact Hclean).
  assert (Hne : top <> []) by (intros E; rewrite E in Hjoin; now apply Hjoin).
  assert (Hi1 : i1 = [{| type_ := "content_optimization"; priority := "high";
                         insight_text :=
                           "Top performing keywords: " +:+ join ", " top;
                         action :=
                           "Incorporate these keywords more frequently in content";
                         expected_impact := "15-25% increase in engagement" |}]).
  { unfold content_insight in H1. rewrite Hkw in H1. simpl in H1.
    destruct kws as [| k kws']; [now destruct Hne |].
    cbn [map truthy] in H1. cbn [slice_to] in H1.
    rewrite <- map_cons, firstn_map in H1. cbn [mbind result_bind] in H1.
    unfold join_json in H1. rewrite all_strings_map in H1.
    simpl in H1. now injection H1 as <-. }
  assert (Hn2 : Forall (fun i => type_ i <> "content_optimization") i2).
  { eapply Forall_impl; [| exact (timing_insights_shape _ i2 H2)].
    simpl. intros i [Hty _]. rewrite Hty. discriminate. }
  assert (Hn3 : Forall (fun i => type_ i <> "content_optimization") i3).
  { destruct (sales_insight_shape _ i3 H3) as [-> | (i & -> & Hty & _)];
      [constructor |].
    constructor; [| constructor]. rewrite Hty. discriminate. }
  assert (Hn4 : Forall (fun i => type_ i <> "content_optimization") i4).
  { destruct (platform_insight_shape _ i4 H4) as [-> | (i & -> & Hty & _)];
      [constructor |].
    constructor; [| constructor]. rewrite Hty. discriminate. }
  subst i1. unfold derive_strategy. rewrite !fold_left_app. cbn [fold_left].
  rewrite !fold_other_keywords by assumption.
  unfold apply_insight. cbn [type_ insight_text]. cbn [String.eqb Ascii.eqb Bool.eqb].
  assert (Hlack : has_char ":" (join ", " top) = false).
  { apply has_char_join; [reflexivity |].
    eapply Forall_impl; [| exact Htop]. simpl. tauto. }
  assert (Hafter : after_last ": " ("Top performing keywords: " +:+ join ", " top)
                   = join ", " top).
  { unfold after_last.
    change ("Top performing keywords: " +:+ join ", " top)
      with ("Top performing keywords" +:+ ": " +:+ join ", " top).
    rewrite contains_app. apply split_last; [discriminate |].
    now apply contains_lacking. }
  rewrite Hafter, (eqb_empty_false _ Hjoin). cbn [priority_keywords].
  f_equal. destruct top as [| p parts]; [now destruct Hne |].
  apply split_join. eapply Forall_impl; [| exact Htop]. simpl. tauto.
Qed.

(** X16. The timing insight of a platform is read back by
    [_update_strategies] as that platform with the list of its hours, as
    strings, the last of which carries the ":00" that ends the sentence:
    hours 9 and 17 become "9" and "17:00". The platform name holds no
    space and no colon, and the hours print as digits. *)
Theorem timing_round_trip (platform : string) (hours : list json)
    (u : strategy_updates) (i : insight) :
  timing_insight (platform, JArr hours) = Ok [i] ->
  platform <> "" ->
  has_char " " platform = false -> has_char ":" platform = false ->
  Forall (fun h => digits_only (py_str h) = true) hours ->
  insight_text i
  = "Best posting times for " +:+ platform +:+ ": "
    +:+ join ", " (map py_str hours) +:+ ":00" /\
  apply_insight i u
  = {| priority_keywords := priority_keywords u;
       timing_strategy :=
         assoc_set platform (suffix_last ":00" (map py_str hours))
           (timing_strategy u);
       recommended_touchpoints := recommended_touchpoints u;
       content_preferences := content_preferences u |}.
Proof.
  intros Hi Hp Hspace Hcolon Hdigits.
  destruct hours as [| h hours']; [discriminate |].
  set (hs := map py_str (h :: hours')) in *.
  set (text := join ", " hs).
  set (tail := platform +:+ ": " +:+ text +:+ ":00").
  assert (Hi' : i = {| type_ := "timing_optimization"; priority := "medium";
                       insight_text := "Best posting times for " +:+ tail;
                       action :=
                         "Schedule more posts during these hours on " +:+ platform;
                       expected_impact := "10-20% increase in engagement" |}).
  { unfold timing_insight in Hi. cbn [truthy join_hours mbind result_bind] in Hi.
    now injection Hi as <-. }
  clear Hi. subst i. split; [reflexivity |].
  assert (Hhs : forall c, is_digit c = false ->
                  Forall (fun q => has_char c q = false) hs).
  { intros c Hc. unfold hs. apply Forall_map.
    eapply Forall_impl; [| exact Hdigits]. simpl. intros x Hx.
    now apply digits_lack. }
  assert (Htext : forall c, is_digit c = false -> has_char c ", " = false ->
                    has_char c text = false).
  { intros c Hc Hsep. apply has_char_join; [exact Hsep | now apply Hhs]. }
  assert (Hfor : contains " for " tail = false).
  { unfold tail. rewrite (contains_skip " " "for " platform _ Hspace).
    apply (contains_missing "f"); [reflexivity |].
    rewrite !has_char_app, (Htext "f"%char eq_refl eq_refl). reflexivity. }
  assert (Hsplit : List.last (split " for " ("Best posting times for " +:+ tail)) ""
                   = tail).
  { change ("Best posting times for " +:+ tail)
      with ("Best posting times" +:+ " for " +:+ tail).
    apply split_last_clean; [vm_compute; reflexivity | exact Hfor]. }
  assert (Hplatform : List.hd "" (split ":" tail) = platform).
  { unfold tail.
    change (platform +:+ ": " +:+ text +:+ ":00")
      with (platform +:+ ":" +:+ (" " +:+ text +:+ ":00")).
    now apply split_head. }
  assert (Htimes : after_last ": " ("Best posting times for " +:+ tail)
                   = text +:+ ":00").
  { unfold after_last, tail.
    replace ("Best posting times for " +:+ platform +:+ ": " +:+ text +:+ ":00")
      with (("Best posting times for " +:+ platform) +:+ ": " +:+ (text +:+ ":00"))
      by (now rewrite append_assoc).
    rewrite contains_app. apply split_last; [discriminate |].
    rewrite (contains_skip ":" " " text ":00"); [reflexivity |].
    now apply Htext. }
  assert (Hcontains : contains " for " ("Best posting times for " +:+ tail) = true).
  { change ("Best posting times for " +:+ tail)
      with ("Best posting times" +:+ " for " +:+ tail).
    apply contains_app. }
  assert (Hparts : split ", " (text +:+ ":00") = suffix_last ":00" hs).
  { unfold text, hs. cbn [map]. rewrite join_suffix_last.
    destruct (suffix_last_cons ":00" (py_str h) (map py_str hours'))
      as (p' & parts' & Hsl).
    rewrite Hsl, split_join; [reflexivity |].
    rewrite <- Hsl. apply suffix_last_lacks; [reflexivity |].
    apply (Hhs ","%char). reflexivity. }
  assert (Hne : text +:+ ":00" <> "") by (apply append_not_empty; discriminate).
  clearbody tail text hs.
  unfold apply_insight. cbn [type_ insight_text].
  cbn [String.eqb Ascii.eqb Bool.eqb].
  rewrite Hcontains, Hsplit, Hplatform, Htimes.
  rewrite (eqb_empty_false platform Hp), (eqb_empty_false _ Hne).
  cbn [orb]. now rewrite Hparts.
Qed.

(** X17. The average of the sales insight is read back from its text:
    the strategy's [recommended_touchpoints] is the number that the
    one-decimal rendering of the average parses to, not the average
    itself, and is left as it was when that text is not a number. The
    rendering holds no space. *)
Theorem touchpoints_round_trip (sales_analysis journey avg : json)
    (text : string) (u : strategy_updates) :
  dict_get sales_analysis "customer_journey_patterns" (JObj []) = Ok journey ->
  dict_get_none journey "average_touchpoints" = Ok avg ->
  truthy avg = true ->
  format_touchpoints avg = Ok text ->
  has_char " " text = false ->
  exists i,
    sales_insight sales_analysis = Ok [i] /\
    insight_text i
    = "Average customer needs " +:+ text +:+ " touchpoints before conversion" /\
    recommended_touchpoints (apply_insight i u)
    = match float_of_string text with
      | Ok x => Some x
      | Raise _ => recommended_touchpoints u
      end.
Proof.
  intros Hj Havg Htruthy Hf Hspace.
  unfold sales_insight. rewrite Hj. cbn [mbind result_bind].
  rewrite Havg. cbn [mbind result_bind]. rewrite Htruthy, Hf.
  cbn [mbind result_bind]. eexists. split; [reflexivity |].
  split; [reflexivity |].
  set (tail := text +:+ " touchpoints before conversion").
  assert (Hneeds : contains " needs " tail = false).
  { unfold tail. rewrite (contains_skip " " "needs " text _ Hspace).
    vm_compute. reflexivity. }
  assert (Hsplit : List.last (split " needs " ("Average customer needs " +:+ tail)) ""
                   = tail).
  { change ("Average customer needs " +:+ tail)
      with ("Average customer" +:+ " needs " +:+ tail).
    apply split_last_clean; [vm_compute; reflexivity | exact Hneeds]. }
  assert (Hhead : List.hd "" (split " touchpoints" tail) = text).
  { unfold tail.
    change (text +:+ " touchpoints before conversion")
      with (text +:+ " touchpoints" +:+ " before conversion").
    now apply split_head. }
  assert (Hcontains : contains "touchpoints"
                        ("Average customer needs " +:+ tail) = true).
  { unfold tail.
    replace ("Average customer needs " +:+ text +:+ " touchpoints before conversion")
      with (("Average customer needs " +:+ text +:+ " ") +:+ "touchpoints"
            +:+ " before conversion")
      by (now rewrite !append_assoc).
    apply contains_app. }
  unfold apply_insight. cbn [type_ insight_text].
  cbn [String.eqb Ascii.eqb Bool.eqb].
  change (text +:+ " touchpoints before conversion") with tail.
  clearbody tail.
  rewrite Hcontains, Hsplit, Hhead.
  destruct (float_of_string text); reflexivity.
Qed.

End Learning.

Lemma insights_shape_witness :
  map type_ (@_generate_insights Demo.lib Demo.sample_results)
  = ["content_optimization"; "timing_optimization"; "sales_optimization"] /\
  exists s m',
    @run_learning_cycle Demo.lib Demo.analyses "t0" "t1" Demo.fresh_module
    = (CycleSummary s, m') /\
    (improvements_implemented s <= 2)%nat /\
    (improvements_implemented s <= insights_generated s)%nat.
Proof.
  split; [vm_compute; reflexivity |].
  set (out := @run_learning_cycle Demo.lib Demo.analyses "t0" "t1"
                Demo.fresh_module).
  destruct (fst out) as [s | e] eqn:Hs; [| vm_compute in Hs; discriminate Hs].
  assert (Hout : out = (CycleSummary s, snd out)).
  { rewrite <- Hs. apply surjective_pairing. }
  destruct (@insights_shape Demo.lib Demo.analyses (JObj [])) as [_ Hcycle].
  destruct (Hcycle "t0" "t1" Demo.fresh_module s (snd out) Hout) as (H2 & Hle & _).
  exists s, (snd out). auto.
Defined.

Lemma keywords_round_trip_witness :
  @_generate_insights Demo.lib Demo.sample_results <> [] /\
  priority_keywords
    (@derive_strategy Demo.lib (@_generate_insights Demo.lib Demo.sample_results))
  = Some ["alpha"; "beta"].
Proof.
  assert (Hgen : @_generate_insights Demo.lib Demo.sample_results <> [])
    by (vm_compute; discriminate).
  split; [exact Hgen |].
  apply (@keywords_round_trip Demo.lib Demo.sample_results
           (JObj [("high_performing_keywords", JArr [JStr "alpha"; JStr "beta"])])
           ["alpha"; "beta"]).
  - exact Hgen.
  - reflexivity.
  - reflexivity.
  - repeat constructor.
  - vm_compute. discriminate.
Defined.

Lemma timing_round_trip_witness :
  exists i,
    @timing_insight Demo.lib ("twitter", JArr [JInt 9; JInt 17]) = Ok [i] /\
    insight_text i = "Best posting times for twitter: 9, 17:00" /\
    timing_strategy (@apply_insight Demo.lib i empty_strategy)
    = [("twitter", ["9"; "17:00"])].
Proof.
  destruct (@timing_insight Demo.lib ("twitter", JArr [JInt 9; JInt 17]))
    as [[| i [| i' l]] | e] eqn:Hi; try (vm_compute in Hi; discriminate Hi).
  destruct (@timing_round_trip Demo.lib "twitter" [JInt 9; JInt 17]
              empty_strategy i Hi) as [Htext Happly].
  - discriminate.
  - reflexivity.
  - reflexivity.
  - repeat constructor.
  - exists i. split; [reflexivity |]. split.
    + rewrite Htext. vm_compute. reflexivity.
    + rewrite Happly. vm_compute. reflexivity.
Defined.

Lemma touchpoints_round_trip_witness :
  exists i x,
    @sales_insight Demo.lib
      (JObj [("customer_journey_patterns",
              JObj [("average_touchpoints", JFloat (5 # 2))])]) = Ok [i] /\
    insight_text i = "Average customer needs 2.5 touchpoints before conversion" /\
    recommended_touchpoints (@apply_insight Demo.lib i empty_strategy) = Some x /\
    (x == 5 # 2)%Q.
Proof.
  destruct (@touchpoints_round_trip Demo.lib
              (JObj [("customer_journey_patterns",
                      JObj [("average_touchpoints", JFloat (5 # 2))])])
              (JObj [("average_touchpoints", JFloat (5 # 2))])
              (JFloat (5 # 2)) "2.5" empty_strategy
              eq_refl eq_refl eq_refl eq_refl eq_refl)
    as (i & Hi & Htext & Hback).
  exists i, (inject_Z 2 + inject_Z 5 / inject_Z (10 ^ 1))%Q.
  split; [exact Hi |]. split; [exact Htext |].
  split; [exact Hback | vm_compute; reflexivity].
Defined.

End InsightFacts.

(** ** The learning module after a cycle *)

Module StatusFacts.

Import AutoLearning LearningStatus StatusNotions Notions.

Lemma assoc_get_set_ne {V : Type} k k' (v : V) l :
  k <> k' -> assoc_get k (assoc_set k' v l) = assoc_get k l.
Proof.
  intros Hne. induction l as [| [k0 v0] rest IH]; simpl.
  - apply String.eqb_neq in Hne. now rewrite Hne.
  - destruct (String.eqb k' k0) eqn:E; simpl.
    + apply String.eqb_eq in E. subst k0.
      apply String.eqb_neq in Hne. now rewrite Hne.
    + destruct (String.eqb k k0); [reflexivity | exact IH].
Qed.

Lemma length_assoc_set {V : Type} k (v : V) l :
  (length l <= length (assoc_set k v l) <= S (length l))%nat.
Proof.
  induction l as [| [k0 v0] rest IH]; simpl; [lia |].
  destruct (String.eqb k k0); simpl; lia.
Qed.

Lemma priority_of_insight i : priority_is_high (insight_json i) = Ok (is_high i).
Proof. reflexivity. Qed.

Lemma filter_insights l :
  filter_result priority_is_high (map insight_json l)
  = Ok (map insight_json (List.filter is_high l)).
Proof.
  induction l as [| i l IH]; [reflexivity |].
  cbn [map filter_result List.filter]. rewrite priority_of_insight, IH.
  cbn [mbind result_bind]. now destruct (is_high i).
Qed.

Section Cycle.
Context `{PyLib} `{Analyses}.

(** What a successful cycle leaves in the module *)
Lemma cycle_patterns now done m s m' :
  run_learning_cycle now done m = (CycleSummary s, m') ->
  exists fields count',
    learning_patterns m = JObj fields /\
    add_one (match assoc_get "cycle_count" fields with
             | Some v => v
             | None => JInt 0
             end) = Ok count' /\
    insights s = _generate_insights (analysis_results s) /\
    analysis_results s = cycle_results (db m) /\
    insights_generated s = length (insights s) /\
    improvements_implemented s = length (List.filter is_high (insights s)) /\
    learning_patterns m'
    = JObj (assoc_set "cycle_count" count'
           (assoc_set "generated_insights" (JArr (map insight_json (insights s)))
           (assoc_set "analysis_results" (analysis_results s)
           (assoc_set "last_analysis" (JStr now) fields)))) /\
    db m' = db_set (_update_strategies (insights s) (db m)) "learning_patterns"
              (json_dumps (learning_patterns m')).
Proof.
  unfold run_learning_cycle. cbn [db learning_patterns].
  destruct (updated_patterns now _ _ (learning_patterns m)) as [patterns | e] eqn:Hu;
    [| discriminate].
  intros E. injection E as <- <-. unfold updated_patterns in Hu.
  destruct (learning_patterns m) as [| | | | | | fields]; try discriminate.
  cbn [dict_get mbind result_bind] in Hu.
  destruct (add_one _) as [count' |] eqn:Hadd; [| discriminate].
  cbn [mbind result_bind] in Hu. injection Hu as <-.
  exists fields, count'.
  repeat match goal with |- _ /\ _ => split end; reflexivity || exact Hadd.
Qed.

(** X18. After a successful cycle, [get_learning_status] reports that
    cycle: its time as the last cycle, the incremented cycle count, as
    many recent insights as the cycle generated and as many of high
    priority as it reported implemented. [patterns_learned] counts the
    keys of the patterns dict: it grows by at most four with a cycle,
    and is 10 after every cycle of a module that started from the
    initial patterns. *)
Theorem status_after_cycle (now done : string) (m m' : learning_module)
    (s : learning_summary) :
  run_learning_cycle now done m = (CycleSummary s, m') ->
  exists st fields,
    get_learning_status m' = Ok st /\
    learning_patterns m = JObj fields /\
    last_learning_cycle st = JStr now /\
    add_one (match assoc_get "cycle_count" fields with
             | Some v => v
             | None => JInt 0
             end) = Ok (total_cycles st) /\
    recent_insights_count st = insights_generated s /\
    high_priority_insights st = improvements_implemented s /\
    patterns_learned st = length (pattern_keys (learning_patterns m')) /\
    (length fields <= patterns_learned st <= length fields + 4)%nat /\
    (pattern_keys (learning_patterns m) = pattern_keys initial_patterns \/
     pattern_keys (learning_patterns m)
     = (pattern_keys initial_patterns ++ cycle_keys)%list ->
     pattern_keys (learning_patterns m')
     = (pattern_keys initial_patterns ++ cycle_keys)%list /\
     patterns_learned st = 10%nat).
Proof.
  intros Hrun.
  destruct (cycle_patterns now done m s m' Hrun)
    as (fields & count' & Hm & Hadd & _ & _ & Hgen & Himp & Hm' & _).
  unfold get_learning_status, status_body. rewrite Hm', Hm.
  set (f1 := assoc_set "last_analysis" (JStr now) fields).
  set (f2 := assoc_set "analysis_results" (analysis_results s) f1).
  set (f3 := assoc_set "generated_insights" (JArr (map insight_json (insights s))) f2).
  set (f4 := assoc_set "cycle_count" count' f3).
  cbn [dict_get json_len mbind result_bind].
  assert (Hlast : assoc_get "last_analysis" f4 = Some (JStr now)).
  { unfold f4, f3, f2, f1.
    rewrite !assoc_get_set_ne by discriminate.
    apply LearningFacts.assoc_get_set_eq. }
  assert (Hcount : assoc_get "cycle_count" f4 = Some count')
    by apply LearningFacts.assoc_get_set_eq.
  assert (Hins : assoc_get "generated_insights" f4
                 = Some (JArr (map insight_json (insights s)))).
  { unfold f4, f3. rewrite assoc_get_set_ne by discriminate.
    apply LearningFacts.assoc_get_set_eq. }
  rewrite Hlast, Hcount, Hins.
  cbn [json_len json_iter mbind result_bind].
  rewrite filter_insights. cbn [mbind result_bind].
  eexists. exists fields. split; [reflexivity |].
  cbn [last_learning_cycle total_cycles patterns_learned recent_insights_count
         high_priority_insights pattern_keys].
  rewrite !length_map.
  assert (Hlen : (length fields <= length f4 <= length fields + 4)%nat).
  { pose proof (length_assoc_set "last_analysis" (JStr now) fields) as L1.
    pose proof (length_assoc_set "analysis_results" (analysis_results s) f1) as L2.
    pose proof (length_assoc_set "generated_insights"
                  (JArr (map insight_json (insights s))) f2) as L3.
    pose proof (length_assoc_set "cycle_count" count' f3) as L4.
    fold f1 in L1. fold f2 in L2. fold f3 in L3. fold f4 in L4. lia. }
  repeat match goal with |- _ /\ _ => split end; auto; try lia.
  intros [Hkeys | Hkeys]; unfold f4, f3, f2, f1; clear -Hkeys;
    cbn [pattern_keys initial_patterns map fst cycle_keys app] in Hkeys.
  - destruct fields as [| [k1 v1] [| [k2 v2] [| [k3 v3] [| [k4 v4] [| [k5 v5]
      [| [k6 v6] [| ? ?]]]]]]]; try discriminate Hkeys.
    cbn in Hkeys. injection Hkeys as -> -> -> -> -> ->. split; reflexivity.
  - destruct fields as [| [k1 v1] [| [k2 v2] [| [k3 v3] [| [k4 v4] [| [k5 v5]
      [| [k6 v6] [| [k7 v7] [| [k8 v8] [| [k9 v9] [| [k10 v10] [| ? ?]]]]]]]]]]];
      try discriminate Hkeys.
    cbn in Hkeys. injection Hkeys as -> -> -> -> -> -> -> -> -> ->.
    split; reflexivity.
Qed.


Lemma optimizations_by_results p1 p2 content_type platform :
  dict_get p1 "analysis_results" (JObj []) = dict_get p2 "analysis_results" (JObj []) ->
  optimizations_body p1 content_type platform
  = optimizations_body p2 content_type platform.
Proof. intros E. unfold optimizations_body. now rewrite E. Qed.

Lemma results_after_cycle now done m s m' :
  run_learning_cycle now done m = (CycleSummary s, m') ->
  analysis_results s = cycle_results (db m) /\
  dict_get (learning_patterns m') "analysis_results" (JObj [])
  = Ok (analysis_results s).
Proof.
  intros Hrun.
  destruct (cycle_patterns now done m s m' Hrun)
    as (fields & count' & _ & _ & _ & Hres & _ & _ & Hm' & _).
  split; [exact Hres |].
  rewrite Hm'. cbn [dict_get].
  rewrite !assoc_get_set_ne by discriminate.
  now rewrite LearningFacts.assoc_get_set_eq.
Qed.

(** X20. A successful cycle stores the patterns it leaves in the
    module, and a module initialised from that store afterwards holds
    what the stored document decodes to: the patterns of the cycle when
    the document decodes to them, and the initial patterns, with no
    cycle counted, when it does not decode. *)
Theorem restart_after_cycle (now done : string) (m m' : learning_module)
    (s : learning_summary) :
  run_learning_cycle now done m = (CycleSummary s, m') ->
  db_get (db m') "learning_patterns" = Some (json_dumps (learning_patterns m')) /\
  db (initialize (db m')) = db m' /\
  (forall j,
     json_loads (json_dumps (learning_patterns m')) = Ok j ->
     json_dumps (learning_patterns m') <> "" ->
     learning_patterns (initialize (db m')) = j) /\
  (forall e,
     json_loads (json_dumps (learning_patterns m')) = Raise e ->
     learning_patterns (initialize (db m')) = initial_patterns /\
     cycle_count (learning_patterns (initialize (db m'))) = Some 0%Q).
Proof.
  intros Hrun.
  destruct (cycle_patterns now done m s m' Hrun)
    as (fields & count' & _ & _ & _ & _ & _ & _ & _ & Hdb).
  assert (Hget : db_get (db m') "learning_patterns"
                 = Some (json_dumps (learning_patterns m'))).
  { rewrite Hdb at 1. unfold db_get, db_set. now rewrite lookup_insert_eq. }
  split; [exact Hget |].
  unfold initialize, _load_existing_patterns. cbn [db learning_patterns].
  rewrite Hget.
  split; [| split].
  - destruct (String.eqb _ ""); [reflexivity |].
    destruct (json_loads _); reflexivity.
  - intros j Hj Hne. apply String.eqb_neq in Hne. now rewrite Hne, Hj.
  - intros e He. rewrite He.
    destruct (String.eqb _ ""); split; reflexivity.
Qed.

End Cycle.

(** X19. After a successful cycle, [apply_learned_optimizations] draws
    on the analysis results of that cycle only, those the summary of
    the cycle returns: what the patterns held before the cycle has no
    effect. Two modules, each with the reductions of its own process,
    whose last cycles returned the same analysis results give the same
    optimizations. *)
Theorem optimizations_follow_cycle `{PyLib} (here there : Analyses)
    (now done : string) (m m' : learning_module)
    (s : learning_summary) (content_type platform : string) :
  @run_learning_cycle _ here now done m = (CycleSummary s, m') ->
  analysis_results s = @cycle_results here (db m) /\
  apply_learned_optimizations m' content_type platform
  = apply_learned_optimizations
      {| db := db m';
         learning_patterns := JObj [("analysis_results", analysis_results s)] |}
      content_type platform /\
  forall now2 done2 m2 m2' s2,
    @run_learning_cycle _ there now2 done2 m2 = (CycleSummary s2, m2') ->
    analysis_results s2 = analysis_results s ->
    apply_learned_optimizations m2' content_type platform
    = apply_learned_optimizations m' content_type platform.
Proof.
  intros Hrun.
  destruct (results_after_cycle _ _ _ _ _ Hrun) as [Hstore Hres].
  split; [exact Hstore |]. split.
  - unfold apply_learned_optimizations. cbn [learning_patterns].
    rewrite (optimizations_by_results (learning_patterns m')
               (JObj [("analysis_results", analysis_results s)]));
      [reflexivity |].
    now rewrite Hres.
  - intros now2 done2 m2 m2' s2 Hrun2 Hsame.
    destruct (results_after_cycle _ _ _ _ _ Hrun2) as [_ Hres2].
    unfold apply_learned_optimizations.
    rewrite (optimizations_by_results (learning_patterns m2')
               (learning_patterns m')); [reflexivity |].
    now rewrite Hres, Hres2, Hsame.
Qed.


Lemma status_after_cycle_witness :
  exists s m' st,
    @run_learning_cycle Demo.lib Demo.analyses "t0" "t1" Demo.fresh_module
    = (CycleSummary s, m') /\
    get_learning_status m' = Ok st /\
    last_learning_cycle st = JStr "t0" /\
    total_cycles st = JInt 1 /\
    patterns_learned st = 10%nat /\
    recent_insights_count st = insights_generated s /\
    high_priority_insights st = improvements_implemented s.
Proof.
  set (out := @run_learning_cycle Demo.lib Demo.analyses "t0" "t1"
                Demo.fresh_module).
  destruct (fst out) as [s | e] eqn:Hs; [| vm_compute in Hs; discriminate Hs].
  assert (Hout : out = (CycleSummary s, snd out)).
  { rewrite <- Hs. apply surjective_pairing. }
  destruct (@status_after_cycle Demo.lib Demo.analyses "t0" "t1"
              Demo.fresh_module (snd out) s Hout)
    as (st & fields & Hst & Hm & Hlast & Hadd & Hrecent & Hhigh & _ & _ & Hten).
  exists s, (snd out), st.
  split; [exact Hout |]. split; [exact Hst |]. split; [exact Hlast |].
  assert (Hfields : fields
                    = [("content_performance", JObj []);
                       ("engagement_patterns", JObj []);
                       ("sales_conversion", JObj []);
                       ("customer_behavior", JObj []);
                       ("optimal_timing", JObj []);
                       ("platform_effectiveness", JObj [])]).
  { assert (E : learning_patterns Demo.fresh_module = initial_patterns)
      by (vm_compute; reflexivity).
    rewrite E in Hm. unfold initial_patterns in Hm. now injection Hm as <-. }
  split.
  - rewrite Hfields in Hadd. cbn in Hadd. now injection Hadd as <-.
  - split; [| split; [exact Hrecent | exact Hhigh]].
    apply Hten. left. rewrite Hm, Hfields. reflexivity.
Defined.

Lemma optimizations_follow_cycle_witness :
  exists s1 m1 s2 m2,
    @run_learning_cycle Demo.lib Demo.analyses "t0" "t1" Demo.fresh_module
    = (CycleSummary s1, m1) /\
    @run_learning_cycle Demo.lib Demo.analyses "t2" "t3"
      {| db := Demo.store; learning_patterns := Demo.learned |}
    = (CycleSummary s2, m2) /\
    analysis_results s2 = analysis_results s1 /\
    apply_learned_optimizations
      {| db := Demo.store; learning_patterns := Demo.learned |} "post" "twitter"
    <> apply_learned_optimizations m2 "post" "twitter" /\
    apply_learned_optimizations m2 "post" "twitter"
    = apply_learned_optimizations m1 "post" "twitter".
Proof.
  set (out1 := @run_learning_cycle Demo.lib Demo.analyses "t0" "t1"
                 Demo.fresh_module).
  set (out2 := @run_learning_cycle Demo.lib Demo.analyses "t2" "t3"
                 {| db := Demo.store; learning_patterns := Demo.learned |}).
  destruct (fst out1) as [s1 | e] eqn:Hs1; [| vm_compute in Hs1; discriminate Hs1].
  destruct (fst out2) as [s2 | e] eqn:Hs2; [| vm_compute in Hs2; discriminate Hs2].
  assert (Hout1 : out1 = (CycleSummary s1, snd out1)).
  { rewrite <- Hs1. apply surjective_pairing. }
  assert (Hout2 : out2 = (CycleSummary s2, snd out2)).
  { rewrite <- Hs2. apply surjective_pairing. }
  assert (Hsame : analysis_results s2 = analysis_results s1).
  { vm_compute in Hs1, Hs2.
    injection Hs1 as <-. injection Hs2 as <-. reflexivity. }
  destruct (@optimizations_follow_cycle Demo.lib Demo.analyses Demo.analyses
              "t0" "t1" Demo.fresh_module (snd out1) s1 "post" "twitter" Hout1)
    as (_ & _ & Hfollow).
  exists s1, (snd out1), s2, (snd out2).
  split; [exact Hout1 |]. split; [exact Hout2 |]. split; [exact Hsame |]. split.
  - vm_compute. discriminate.
  - exact (Hfollow "t2" "t3" _ _ s2 Hout2 Hsame).
Defined.

Lemma restart_after_cycle_witness :
  exists s m',
    @run_learning_cycle DemoRestart.lib Demo.analyses "t0" "t1"
      (@initialize DemoRestart.lib Demo.store) = (CycleSummary s, m') /\
    learning_patterns (@initialize DemoRestart.lib (db m')) = learning_patterns m' /\
    learning_patterns (@initialize Demo.lib (db m')) = initial_patterns.
Proof.
  set (out := @run_learning_cycle DemoRestart.lib Demo.analyses "t0" "t1"
                (@initialize DemoRestart.lib Demo.store)).
  destruct (fst out) as [s | e] eqn:Hs; [| vm_compute in Hs; discriminate Hs].
  assert (Hout : out = (CycleSummary s, snd out)).
  { rewrite <- Hs. apply surjective_pairing. }
  destruct (@restart_after_cycle DemoRestart.lib Demo.analyses "t0" "t1"
              _ (snd out) s Hout) as (_ & _ & Hok & _).
  assert (Hpat : learning_patterns (snd out) = DemoRestart.patterns)
    by (vm_compute; reflexivity).
  exists s, (snd out). split; [exact Hout |]. split.
  - apply Hok.
    + rewrite Hpat. vm_compute. reflexivity.
    + rewrite Hpat. vm_compute. discriminate.
  - vm_compute. reflexivity.
Defined.

End StatusFacts.

(** ** The local storage fallback *)

Module StorageFacts.

Import StringFacts.

Module LS := LocalStorageFallback.

Lemma append_inj_r c : forall a b, a +:+ c = b +:+ c -> a = b.
Proof.
  induction a as [| x a IH]; intros [| y b] E.
  - reflexivity.
  - apply (f_equal String.length) in E. rewrite append_cons in E.
    cbn [String.length] in E. rewrite append_nil_l, length_app in E. lia.
  - apply (f_equal String.length) in E. rewrite append_cons in E.
    cbn [String.length] in E. rewrite append_nil_l, length_app in E. lia.
  - rewrite !append_cons in E. injection E as -> E. f_equal. now apply IH.
Qed.

Lemma file_path_eq k1 k2 :
  LS._get_file_path k1 = LS._get_file_path k2 <-> LS.safe_key k1 = LS.safe_key k2.
Proof.
  unfold LS._get_file_path. split; [apply append_inj_r | now intros ->].
Qed.

Lemma replace_char_idem a b s :
  a <> b -> LS.replace_char a b (LS.replace_char a b s) = LS.replace_char a b s.
Proof.
  intros Hab. induction s as [| c s IH]; [reflexivity |].
  cbn [LS.replace_char]. rewrite IH. f_equal.
  destruct (Ascii.eqb c a) eqn:E; [| now rewrite E].
  destruct (Ascii.eqb b a) eqn:E'; [| reflexivity].
  apply Ascii.eqb_eq in E'. now destruct Hab.
Qed.

Lemma replace_char_comm a b c s :
  a <> b ->
  LS.replace_char a c (LS.replace_char b c s)
  = LS.replace_char b c (LS.replace_char a c s).
Proof.
  intros Hab. induction s as [| x s IH]; [reflexivity |].
  cbn [LS.replace_char]. rewrite IH. f_equal.
  destruct (Ascii.eqb_spec x b) as [-> | Hxb].
  - destruct (Ascii.eqb_spec b a) as [-> | _]; [now destruct Hab |].
    rewrite Ascii.eqb_refl. now destruct (Ascii.eqb c a).
  - destruct (Ascii.eqb_spec x a) as [-> | Hxa].
    + now destruct (Ascii.eqb c b).
    + destruct (Ascii.eqb_spec x b); [contradiction | reflexivity].
Qed.

Lemma safe_key_idem key : LS.safe_key (LS.safe_key key) = LS.safe_key key.
Proof.
  unfold LS.safe_key.
  rewrite (replace_char_comm ":" "/" "_" (LS.replace_char ":" "_" key))
    by discriminate.
  rewrite (replace_char_idem ":" "_") by discriminate.
  now rewrite (replace_char_idem "/" "_") by discriminate.
Qed.

Lemma get_after_set fs key v ex now now' :
  LS.get (LS.set fs key v ex now) key now'
  = if LS.expired {| LS.value := v;
                     LS.expires_at :=
                       option_map (fun s => (now + inject_Z s)%Q) ex |} now'
    then (JNull, base.delete (LS._get_file_path key) (LS.set fs key v ex now))
    else (v, LS.set fs key v ex now).
Proof.
  unfold LS.get, LS.delete, LS.set. rewrite !lookup_insert_eq.
  destruct (LS.expired _ now'); reflexivity.
Qed.

Lemma get_after_set_plain fs key v now now' :
  LS.get (LS.set fs key v None now) key now' = (v, LS.set fs key v None now).
Proof. now rewrite get_after_set. Qed.

Lemma set_alias fs k1 k2 v ex now :
  LS.safe_key k1 = LS.safe_key k2 -> LS.set fs k1 v ex now = LS.set fs k2 v ex now.
Proof. intros E. unfold LS.set, LS._get_file_path. now rewrite E. Qed.

Lemma get_alias fs k1 k2 now :
  LS.safe_key k1 = LS.safe_key k2 -> LS.get fs k1 now = LS.get fs k2 now.
Proof.
  intros E. unfold LS.get, LS.delete, LS._get_file_path. now rewrite E.
Qed.

(** X21. The fallback keeps one file per key, named after the key with
    every ":" and "/" turned into "_": keys that differ only in these
    characters share a file. A value set under one of them is what [get]
    returns under the other, and a [set] under a key with another file
    name leaves what [get] returns unchanged. *)
Theorem fallback_key_aliasing (fs : gmap string LS.entry) (k1 k2 : string) (v : json)
    (ex : option Z) (now now' : Q) :
  (LS._get_file_path k1 = LS._get_file_path k2
   <-> LS.safe_key k1 = LS.safe_key k2) /\
  LS.safe_key (LS.safe_key k1) = LS.safe_key k1 /\
  (LS.safe_key k1 = LS.safe_key k2 ->
   LS.get (LS.set fs k1 v None now) k2 now' = (v, LS.set fs k1 v None now)) /\
  (LS.safe_key k1 <> LS.safe_key k2 ->
   fst (LS.get (LS.set fs k1 v ex now) k2 now') = fst (LS.get fs k2 now')) /\
  ("customer:1" <> "customer_1" /\
   LS.safe_key "customer:1" = LS.safe_key "customer_1").
Proof.
  split; [apply file_path_eq |]. split; [apply safe_key_idem |].
  split; [| split; [| split; [discriminate | reflexivity]]].
  - intros E. rewrite <- (get_alias _ k1 k2 now' E). apply get_after_set_plain.
  - intros Hne. unfold LS.get, LS.delete, LS.set.
    assert (Hp : LS._get_file_path k1 <> LS._get_file_path k2)
      by (intros E; now apply Hne, file_path_eq).
    rewrite !lookup_insert_ne by exact Hp.
    destruct (fs !! LS._get_file_path k2) as [data |]; [| reflexivity].
    destruct (LS.expired data now'); reflexivity.
Qed.

Lemma to_nat_max x : Z.to_nat (Z.max x 0) = Z.to_nat x.
Proof. lia. Qed.

Lemma firstn_beyond {A} (l : list A) n m :
  (length l <= n)%nat -> (length l <= m)%nat -> firstn n l = firstn m l.
Proof. intros Hn Hm. now rewrite !firstn_all2. Qed.

(** Slices from the start of a list *)
Lemma slice_head {A} (l : list A) stop :
  LS.slice l 0 stop
  = firstn (Z.to_nat (if stop <? 0 then Z.of_nat (length l) + stop else stop)) l.
Proof.
  unfold LS.slice, LS.clamp. cbn [Z.ltb Z.compare].
  replace (Z.min 0 (Z.of_nat (length l))) with 0 by lia.
  cbn [Z.to_nat skipn]. rewrite Z.sub_0_r.
  destruct (stop <? 0) eqn:E.
  - f_equal. lia.
  - apply Z.ltb_ge in E.
    destruct (Z.le_gt_cases stop (Z.of_nat (length l))).
    + f_equal. lia.
    + apply firstn_beyond; lia.
Qed.

Lemma lrange_of_list fs key start stop now items :
  fst (LS.get fs key now) = JArr items ->
  LS.lrange fs key start stop now
  = (if stop =? -1 then LS.slice_from items start
     else LS.slice items start (stop + 1),
     snd (LS.get fs key now)).
Proof.
  intros Hget. unfold LS.lrange.
  destruct (LS.get fs key now) as [current fs']. cbn [fst snd] in *.
  subst current. destruct items as [| x rest]; [| reflexivity].
  unfold LS.slice_from, LS.slice. rewrite !skipn_nil, firstn_nil.
  now destruct (stop =? -1).
Qed.

(** X22. For the ranges the reducers ask for, from index 0, the
    fallback's [lrange] gives what the list model of the store gives:
    the whole list for [end = -1], its first [end + 1] elements for
    [end >= 0], and all but the last [-end - 1] for other negative
    ends. *)
Theorem fallback_lrange_agrees (fs : gmap string LS.entry) (key : string)
    (now : Q) (stop : Z) (keys : list string) :
  fst (LS.get fs key now) = JArr (map JStr keys) ->
  fst (LS.lrange fs key 0 stop now)
  = map JStr (lrange (<[key := RList keys]> ∅) key stop) /\
  snd (LS.lrange fs key 0 stop now) = snd (LS.get fs key now).
Proof.
  intros Hget. rewrite (lrange_of_list fs key 0 stop now _ Hget). cbn [fst snd].
  split; [| reflexivity].
  unfold lrange. rewrite lookup_insert_eq.
  destruct (stop =? -1) eqn:E1.
  - apply Z.eqb_eq in E1. subst stop. cbn [Z.ltb Z.compare].
    unfold LS.slice_from, LS.clamp. cbn [Z.ltb Z.compare].
    replace (Z.min 0 (Z.of_nat (length (map JStr keys)))) with 0 by lia.
    cbn [Z.to_nat skipn].
    rewrite firstn_all2; [reflexivity | lia].
  - apply Z.eqb_neq in E1. rewrite slice_head, length_map, firstn_map.
    destruct (stop <? 0) eqn:E2.
    + apply Z.ltb_lt in E2.
      replace (stop + 1 <? 0) with true by (symmetry; apply Z.ltb_lt; lia).
      do 2 f_equal. lia.
    + apply Z.ltb_ge in E2.
      replace (stop + 1 <? 0) with false by (symmetry; apply Z.ltb_ge; lia).
      reflexivity.
Qed.

(** X23. [lpush] puts the pushed values in front of the stored list in
    the order they were given, and returns the new length. A stored
    value that is not a non-empty list, such as a hash or a string, is
    replaced by the pushed values. The key loses its expiry. *)
Theorem fallback_lpush_order (fs : gmap string LS.entry) (key : string)
    (values : list json) (now now' : Q) :
  let old := match fst (LS.get fs key now) with
             | JArr items => items
             | _ => []
             end in
  let fs' := snd (LS.lpush fs key values now) in
  fst (LS.lpush fs key values now) = length (values ++ old) /\
  LS.get fs' key now' = (JArr (values ++ old), fs') /\
  fst (LS.lrange fs' key 0 (-1) now') = (values ++ old)%list.
Proof.
  unfold LS.lpush.
  destruct (LS.get fs key now) as [current fs1]. cbn [fst snd].
  set (pushed := match current with
                 | JArr ((_ :: _) as items) => (values ++ items)%list
                 | _ => values
                 end).
  set (old := match current with JArr items => items | _ => [] end).
  assert (Hp : pushed = (values ++ old)%list).
  { unfold pushed, old. destruct current as [| | | | | [| x items] |];
      try (now rewrite app_nil_r); reflexivity. }
  cbn zeta. rewrite <- Hp. split; [reflexivity |].
  split; [apply get_after_set_plain |].
  unfold LS.lrange. rewrite get_after_set_plain.
  destruct pushed as [| x rest]; [reflexivity |]. cbn [fst].
  unfold LS.slice_from, LS.clamp. cbn [Z.eqb Z.ltb Z.compare].
  replace (Z.min 0 (Z.of_nat (length (x :: rest)))) with 0 by lia.
  reflexivity.
Qed.

Lemma assoc_get_update_absent field mapping : forall existing,
  assoc_get field mapping = None ->
  assoc_get field (LS.update existing mapping) = assoc_get field existing.
Proof.
  unfold LS.update.
  induction mapping as [| [k v] rest IH]; intros existing Habs; [reflexivity |].
  cbn [assoc_get] in Habs. destruct (String.eqb field k) eqn:E; [discriminate |].
  cbn [fold_left fst snd]. rewrite (IH _ Habs).
  apply StatusFacts.assoc_get_set_ne. now apply String.eqb_neq.
Qed.

Lemma assoc_get_none_iff {V} field (l : list (string * V)) :
  assoc_get field l = None <-> ~ In field (map fst l).
Proof.
  induction l as [| [k v] rest IH]; simpl; [tauto |].
  destruct (String.eqb field k) eqn:E.
  - apply String.eqb_eq in E. subst. split; [discriminate | tauto].
  - apply String.eqb_neq in E. rewrite IH. split.
    + intros Hn [Heq | Hin]; [now apply E | now apply Hn].
    + tauto.
Qed.

Lemma assoc_get_update field mapping : forall existing,
  List.NoDup (map fst mapping) ->
  assoc_get field (LS.update existing mapping)
  = match assoc_get field mapping with
    | Some v => Some v
    | None => assoc_get field existing
    end.
Proof.
  induction mapping as [| [k v] rest IH]; intros existing Hnd; [reflexivity |].
  cbn [map fst] in Hnd. inversion Hnd as [| ? ? Hk Hrest]; subst.
  cbn [assoc_get]. destruct (String.eqb field k) eqn:E.
  - apply String.eqb_eq in E. subst k.
    change (LS.update existing ((field, v) :: rest))
      with (LS.update (assoc_set field v existing) rest).
    rewrite assoc_get_update_absent by (now apply assoc_get_none_iff).
    apply LearningFacts.assoc_get_set_eq.
  - change (LS.update existing ((k, v) :: rest))
      with (LS.update (assoc_set k v existing) rest).
    rewrite (IH _ Hrest).
    destruct (assoc_get field rest); [reflexivity |].
    apply StatusFacts.assoc_get_set_ne. now apply String.eqb_neq.
Qed.

(** X24. [hset] merges the mapping into the stored hash: afterwards a
    field of the mapping reads as the mapping has it and any other
    field as it was stored before. The value returned is the size of
    the mapping, also when all its fields existed already, and a stored
    value that is not a hash is replaced. The key loses its expiry. *)
Theorem fallback_hset_merges (fs : gmap string LS.entry) (key : string)
    (mapping : list (string * json)) (now now' : Q) (field : string) :
  List.NoDup (map fst mapping) ->
  let before := fst (LS.hgetall fs key now) in
  let fs' := snd (LS.hset fs key mapping now) in
  fst (LS.hset fs key mapping now) = length mapping /\
  fst (LS.hgetall fs' key now') = LS.update before mapping /\
  fst (LS.hget fs' key field now')
  = match assoc_get field mapping with
    | Some v => v
    | None => match assoc_get field before with Some v => v | None => JNull end
    end /\
  (forall data, fs' !! LS._get_file_path key = Some data ->
     LS.expires_at data = None).
Proof.
  intros Hnd. unfold LS.hset.
  destruct (LS.hgetall fs key now) as [existing fs1]. cbn [fst snd].
  split; [reflexivity |]. split; [| split].
  - unfold LS.hgetall. now rewrite get_after_set_plain.
  - unfold LS.hget. rewrite get_after_set_plain. cbn [fst].
    pose proof (assoc_get_update field mapping existing Hnd) as Hu.
    destruct (LS.update existing mapping) as [| e rest] eqn:Hupd.
    + cbn [assoc_get] in Hu.
      destruct (assoc_get field mapping); [discriminate |].
      now rewrite <- Hu.
    + cbn [fst]. rewrite Hu. now destruct (assoc_get field mapping).
  - intros data Hdata. unfold LS.set in Hdata.
    rewrite lookup_insert_eq in Hdata. now injection Hdata as <-.
Qed.

Lemma Qle_bool_false a b : Qle_bool a b = false <-> (b < a)%Q.
Proof.
  split.
  - intros Hb. apply Qnot_le_lt. intros Hle.
    apply Qle_bool_iff in Hle. congruence.
  - intros Hlt. destruct (Qle_bool a b) eqn:E; [| reflexivity].
    apply Qle_bool_iff in E. exfalso. exact (Qlt_not_le _ _ Hlt E).
Qed.

(** X25. A value set with an expiry of [ex] seconds is returned until
    the clock passes the time of the [set] plus [ex]; the first [get]
    after that removes the file and returns nothing, as does every
    later one. An expiry time that is exactly 0 is taken for no expiry.
    A value set without expiry is always returned. *)
Theorem fallback_expiry (fs : gmap string LS.entry) (key : string) (v : json) (ex : Z)
    (now now' later : Q) :
  let fs' := LS.set fs key v (Some ex) now in
  ((now' <= now + inject_Z ex)%Q -> LS.get fs' key now' = (v, fs')) /\
  ((now + inject_Z ex < now')%Q -> ~ (now + inject_Z ex == 0)%Q ->
   fst (LS.get fs' key now') = JNull /\
   snd (LS.get fs' key now') !! LS._get_file_path key = None /\
   fst (LS.get (snd (LS.get fs' key now')) key later) = JNull) /\
  ((now + inject_Z ex == 0)%Q -> LS.get fs' key now' = (v, fs')) /\
  LS.get (LS.set fs key v None now) key now' = (v, LS.set fs key v None now).
Proof.
  cbn zeta. repeat match goal with |- _ /\ _ => split end.
  - intros Hle. rewrite get_after_set. unfold LS.expired. cbn [LS.expires_at option_map].
    apply Qle_bool_iff in Hle. rewrite Hle. cbn [negb]. now rewrite andb_false_r.
  - intros Hlt Hnz. rewrite get_after_set. unfold LS.expired.
    cbn [LS.expires_at option_map].
    apply Qle_bool_false in Hlt. rewrite Hlt.
    destruct (Qeq_bool (now + inject_Z ex) 0) eqn:Hz;
      [apply Qeq_bool_iff in Hz; now destruct Hnz |].
    cbn [negb andb fst snd].
    split; [reflexivity |]. split; [apply lookup_delete_eq |].
    unfold LS.get. now rewrite lookup_delete_eq.
  - intros Hz. rewrite get_after_set. unfold LS.expired.
    cbn [LS.expires_at option_map].
    apply Qeq_bool_iff in Hz. now rewrite Hz.
  - apply get_after_set_plain.
Qed.

Section Counter.
Context `{LS.StorageLib}.

Lemma incr_fresh fs key now :
  fst (LS.get fs key now) = JNull ->
  LS.incr fs key now
  = (1, LS.set (snd (LS.get fs key now)) key (JStr "1") None now).
Proof.
  intros Hget. unfold LS.incr.
  destruct (LS.get fs key now) as [current fs1]. cbn [fst snd] in *.
  subst current. reflexivity.
Qed.

Lemma incr_number fs key now s n :
  fst (LS.get fs key now) = JStr s -> s <> "" ->
  LS.int_of_string s = Ok n ->
  LS.incr fs key now
  = (n + 1, LS.set (snd (LS.get fs key now)) key (JStr (pretty (n + 1))) None now).
Proof.
  intros Hget Hs Hn. unfold LS.incr.
  destruct (LS.get fs key now) as [current fs1]. cbn [fst snd] in *.
  subst current. cbn [truthy LS.to_int].
  apply String.eqb_neq in Hs. rewrite Hs. cbn [negb]. now rewrite Hn.
Qed.

(** X26. [incr] counts from 1 on a key without a value and stores the
    count as its decimal text, without expiry; a stored text that reads
    as [n] is replaced by that of [n + 1], which is returned. A stored
    text that is not a number makes [incr] return 0 and write nothing.
    With a reader that reads the counts up to [k] back, the call of
    [incr] after [k] calls on a fresh key returns [k + 1]. *)
Theorem fallback_incr_counts (fs : gmap string LS.entry) (key : string) (now : Q) :
  (fst (LS.get fs key now) = JNull ->
   LS.incr fs key now
   = (1, LS.set (snd (LS.get fs key now)) key (JStr "1") None now)) /\
  (forall s n,
     fst (LS.get fs key now) = JStr s -> s <> "" ->
     LS.int_of_string s = Ok n ->
     LS.incr fs key now
     = (n + 1,
        LS.set (snd (LS.get fs key now)) key (JStr (pretty (n + 1))) None now)) /\
  (forall s e,
     fst (LS.get fs key now) = JStr s -> s <> "" ->
     LS.int_of_string s = Raise e ->
     LS.incr fs key now = (0, snd (LS.get fs key now))) /\
  (forall k : nat,
     (forall n, 0 < n <= Z.of_nat k ->
        pretty n <> "" /\ LS.int_of_string (pretty n) = Ok n) ->
     fst (LS.get fs key now) = JNull ->
     fst (LS.incr (Nat.iter k (fun fs0 => snd (LS.incr fs0 key now)) fs) key now)
     = Z.of_nat k + 1).
Proof.
  split; [apply incr_fresh |]. split; [apply incr_number |]. split.
  - intros s e Hget Hs He. unfold LS.incr.
    destruct (LS.get fs key now) as [current fs1]. cbn [fst snd] in *.
    subst current. cbn [truthy LS.to_int].
    apply String.eqb_neq in Hs. rewrite Hs. cbn [negb]. now rewrite He.
  - intros k Hread Hfresh.
    set (step := fun fs0 : gmap string LS.entry => snd (LS.incr fs0 key now)).
    assert (Hinv : forall j : nat, (S j <= k)%nat ->
              LS.get (Nat.iter (S j) step fs) key now
              = (JStr (pretty (Z.of_nat (S j))), Nat.iter (S j) step fs)).
    { induction j as [| j IH]; intros Hj.
      - change (Nat.iter 1 step fs) with (snd (LS.incr fs key now)).
        rewrite (incr_fresh fs key now Hfresh). cbn [snd].
        apply get_after_set_plain.
      - change (Nat.iter (S (S j)) step fs) with (step (Nat.iter (S j) step fs)).
        destruct (Hread (Z.of_nat (S j)) ltac:(lia)) as [Hne Hint].
        unfold step at 1 3.
        rewrite (incr_number _ key now (pretty (Z.of_nat (S j))) (Z.of_nat (S j)));
          [| rewrite IH by lia; reflexivity | exact Hne | exact Hint].
        cbn [snd]. rewrite get_after_set_plain.
        replace (Z.of_nat (S (S j))) with (Z.of_nat (S j) + 1) by lia.
        reflexivity. }
    destruct k as [| k].
    + change (Nat.iter 0 step fs) with fs.
      rewrite (incr_fresh fs key now Hfresh). reflexivity.
    + destruct (Hread (Z.of_nat (S k)) ltac:(lia)) as [Hne Hint].
      rewrite (incr_number _ key now (pretty (Z.of_nat (S k))) (Z.of_nat (S k)));
        [reflexivity | rewrite Hinv by lia; reflexivity | exact Hne | exact Hint].
Qed.

End Counter.

Lemma fallback_key_aliasing_witness :
  LocalStorageFallback.get
    (LocalStorageFallback.set ∅ "customer:1" (JStr "a") None 0) "customer_1" 5
  = (JStr "a", LocalStorageFallback.set ∅ "customer:1" (JStr "a") None 0) /\
  fst (LocalStorageFallback.get
         (LocalStorageFallback.set ∅ "customer:1" (JStr "a") (Some 10) 0)
         "customer:2" 5)
  = fst (LocalStorageFallback.get ∅ "customer:2" 5).
Proof.
  destruct (fallback_key_aliasing ∅ "customer:1" "customer_1" (JStr "a") None 0 5)
    as (_ & _ & Hsame & _).
  destruct (fallback_key_aliasing ∅ "customer:1" "customer:2" (JStr "a")
              (Some 10) 0 5) as (_ & _ & _ & Hother & _).
  split; [apply Hsame; reflexivity | apply Hother; discriminate].
Defined.

Lemma fallback_lrange_agrees_witness :
  fst (LocalStorageFallback.lrange
         (snd (LocalStorageFallback.lpush ∅ "interactions:twitter"
                 [JStr "k3"; JStr "k2"; JStr "k1"] 0))
         "interactions:twitter" 0 1 0)
  = [JStr "k3"; JStr "k2"] /\
  lrange (<["interactions:twitter" := RList ["k3"; "k2"; "k1"]]> ∅)
    "interactions:twitter" 1
  = ["k3"; "k2"].
Proof.
  assert (Hget : fst (LocalStorageFallback.get
                        (snd (LocalStorageFallback.lpush ∅ "interactions:twitter"
                                [JStr "k3"; JStr "k2"; JStr "k1"] 0))
                        "interactions:twitter" 0)
                 = JArr (map JStr ["k3"; "k2"; "k1"]))
    by (vm_compute; reflexivity).
  destruct (fallback_lrange_agrees _ "interactions:twitter" 0 1
              ["k3"; "k2"; "k1"] Hget) as [Hagree _].
  assert (Hl : lrange (<["interactions:twitter" := RList ["k3"; "k2"; "k1"]]> ∅)
                 "interactions:twitter" 1 = ["k3"; "k2"])
    by (vm_compute; reflexivity).
  split; [| exact Hl].
  rewrite Hagree, Hl. reflexivity.
Defined.

Lemma fallback_hset_merges_witness :
  let fs := snd (LocalStorageFallback.hset ∅ "interaction:twitter:1"
                   [("type", JStr "post"); ("data", JStr "{}")] 0) in
  let fs' := snd (LocalStorageFallback.hset fs "interaction:twitter:1"
                    [("type", JStr "reply")] 1) in
  fst (LocalStorageFallback.hset fs "interaction:twitter:1"
         [("type", JStr "reply")] 1) = 1%nat /\
  fst (LocalStorageFallback.hget fs' "interaction:twitter:1" "type" 2)
  = JStr "reply" /\
  fst (LocalStorageFallback.hget fs' "interaction:twitter:1" "data" 2)
  = JStr "{}".
Proof.
  cbn zeta.
  set (fs := snd (LocalStorageFallback.hset ∅ "interaction:twitter:1"
                    [("type", JStr "post"); ("data", JStr "{}")] 0)).
  assert (Hnd : List.NoDup (map fst [("type", JStr "reply")]))
    by (repeat constructor; intros []).
  destruct (fallback_hset_merges fs "interaction:twitter:1"
              [("type", JStr "reply")] 1 2 "type" Hnd) as (Hlen & _ & Htype & _).
  destruct (fallback_hset_merges fs "interaction:twitter:1"
              [("type", JStr "reply")] 1 2 "data" Hnd) as (_ & _ & Hdata & _).
  split; [exact Hlen |]. split; [exact Htype |].
  rewrite Hdata. vm_compute. reflexivity.
Defined.

Lemma fallback_expiry_witness :
  let fs' := LocalStorageFallback.set ∅ "session" (JStr "v") (Some 10) 5 in
  LocalStorageFallback.get fs' "session" 15 = (JStr "v", fs') /\
  fst (LocalStorageFallback.get fs' "session" 16) = JNull /\
  fst (LocalStorageFallback.get
         (snd (LocalStorageFallback.get fs' "session" 16)) "session" 7) = JNull /\
  LocalStorageFallback.get
    (LocalStorageFallback.set ∅ "session" (JStr "v") (Some 0) 0) "session" 99
  = (JStr "v", LocalStorageFallback.set ∅ "session" (JStr "v") (Some 0) 0).
Proof.
  cbn zeta.
  destruct (fallback_expiry ∅ "session" (JStr "v") 10 5 15 7) as (Hin & _).
  destruct (fallback_expiry ∅ "session" (JStr "v") 10 5 16 7)
    as (_ & Hout & _).
  destruct (fallback_expiry ∅ "session" (JStr "v") 0 0 99 7)
    as (_ & _ & Hzero & _).
  split; [apply Hin; vm_compute; discriminate |].
  destruct Hout as (Hgone & _ & Hlater);
    [vm_compute; reflexivity | vm_compute; discriminate |].
  split; [exact Hgone |]. split; [exact Hlater |].
  apply Hzero. vm_compute. reflexivity.
Defined.

Lemma fallback_incr_counts_witness :
  fst (@LocalStorageFallback.incr DemoStorage.lib
         (Nat.iter 2
            (fun fs0 => snd (@LocalStorageFallback.incr DemoStorage.lib fs0
                               "visits" 0))
            ∅)
         "visits" 0) = 3 /\
  @LocalStorageFallback.incr DemoStorage.lib
    (LocalStorageFallback.set ∅ "visits" (JStr "many") None 0) "visits" 0
  = (0, LocalStorageFallback.set ∅ "visits" (JStr "many") None 0).
Proof.
  destruct (@fallback_incr_counts DemoStorage.lib ∅ "visits" 0)
    as (_ & _ & _ & Hcount).
  destruct (@fallback_incr_counts DemoStorage.lib
              (LocalStorageFallback.set ∅ "visits" (JStr "many") None 0)
              "visits" 0) as (_ & _ & Hbad & _).
  split.
  - apply (Hcount 2%nat); [| reflexivity].
    intros n Hn. assert (Hcases : n = 1 \/ n = 2) by lia.
    destruct Hcases as [-> | ->]; (split; [discriminate | reflexivity]).
  - apply (Hbad "many" ValueError); [reflexivity | discriminate | reflexivity].
Defined.

End StorageFacts.
